(** * KBOM generation: assembly, serialization and output routing

    A shallow embedding of the [generate] command ([runGenerate],
    [printKBOM], [getWriter]) together with the few library operations it
    relies on (string slicing, [time.Time.Format], [uuid.UUID.String],
    [path.Join], [os.Create]).  Strings are byte strings, as in Go.

    The helpers of the test-run list ([testRunsStatus], [uniqueTags],
    [calculateSpecRuns], [expandedRowRender]) are embedded beside it, in
    the module [listutils]. *)

From Stdlib Require Import ZArith NArith String Ascii List Lia Bool.
From stdpp Require Import base gmap strings list.

Import ListNotations.
Open Scope string_scope.
Open Scope Z_scope.

(** ** Byte strings *)

Module gostring.

(** [len(s)]: number of bytes. *)
Definition len (s : string) : Z := Z.of_nat (String.length s).

(** The first [n] bytes of [s], clipped to the length of [s]. *)
Fixpoint take (n : nat) (s : string) : string :=
  match n, s with
  | S n', String c s' => String c (take n' s')
  | _, _ => EmptyString
  end.

(** [s[:n]]: the first [n] bytes; the slice expression panics when [n]
    exceeds [len(s)], which is [None] here. *)
Definition slice_to (s : string) (n : nat) : option string :=
  if (n <=? String.length s)%nat then Some (take n s) else None.

(** [n] copies of the byte [c]. *)
Fixpoint replicate (n : nat) (c : ascii) : string :=
  match n with
  | O => EmptyString
  | S n' => String c (replicate n' c)
  end.

End gostring.

(** ** Decimal and hexadecimal digits *)

Module digits.

(** The ASCII digit of [d], for [0 <= d < 10]. *)
Definition digit (d : Z) : ascii := ascii_of_N (48 + Z.to_N d).

(** Decimal digits of [u >= 0], most significant first.  The loop divides
    by ten until the quotient is a single digit; [fuel] bounds the number
    of digits. *)
Fixpoint decimal_fuel (fuel : nat) (u : Z) : string :=
  match fuel with
  | O => EmptyString
  | S fuel' =>
      (if u <? 10 then EmptyString else decimal_fuel fuel' (u / 10))
        +:+ String (digit (u mod 10)) EmptyString
  end.

(** A number has no more decimal digits than binary ones. *)
Definition decimal (u : Z) : string :=
  decimal_fuel (S (Z.to_nat (Z.log2 u))) u.

(** Lower-case hexadecimal digit of [d], for [0 <= d < 16]. *)
Definition hexdigit (d : N) : ascii :=
  if (d <? 10)%N then ascii_of_N (48 + d) else ascii_of_N (87 + d).

(** [k] hexadecimal digits of [n mod 16^k], most significant first. *)
Fixpoint hex_fixed (k : nat) (n : N) : string :=
  match k with
  | O => EmptyString
  | S k' => hex_fixed k' (n / 16) +:+ String (hexdigit (n mod 16)) EmptyString
  end.

End digits.

(** ** [time.Time] and its [Format] for the layout used by [getWriter] *)

Module gotime.

(** A time instant as its civil reading in the time's own location: what
    [Time.Date()] and [Time.Clock()] report. *)
Record Time : Type := mkTime {
  Year : Z; Month : Z; Day : Z; Hour : Z; Minute : Z; Second : Z
}.

(** [appendInt(b, x, width)]: the decimal form of [x], preceded by a
    minus sign when negative and left-padded with zeros to [width]
    digits. *)
Definition appendInt (x : Z) (width : nat) : string :=
  let u := Z.abs x in
  let ds := digits.decimal u in
  (if x <? 0 then "-" else "")
    +:+ gostring.replicate (width - String.length ds) "0"%char +:+ ds.

(** [t.Format("2006-01-02-15-04-05")]: long year, zero-padded month, day,
    hour, minute and second, separated by hyphens. *)
Definition Format_2006_01_02_15_04_05 (t : Time) : string :=
  appendInt (Year t) 4 +:+ "-" +:+ appendInt (Month t) 2 +:+ "-" +:+
  appendInt (Day t) 2 +:+ "-" +:+ appendInt (Hour t) 2 +:+ "-" +:+
  appendInt (Minute t) 2 +:+ "-" +:+ appendInt (Second t) 2.

(** The readings a clock can produce (years that print with four
    digits). *)
Definition civil (t : Time) : Prop :=
  0 <= Year t <= 9999 /\ 1 <= Month t <= 12 /\ 1 <= Day t <= 31 /\
  0 <= Hour t <= 23 /\ 0 <= Minute t <= 59 /\ 0 <= Second t <= 59.

End gotime.

(** ** [uuid.UUID] and its canonical text form *)

Module uuid.

(** A UUID is sixteen bytes; here the 128-bit number they spell, most
    significant byte first.  Only the low 128 bits are read. *)
Definition UUID : Type := N.

(** Hexadecimal form of [ndigits / 2] consecutive bytes of [u], the last
    of which ends [lo] bits above the least significant one. *)
Definition hexfield (u : UUID) (lo : N) (ndigits : nat) : string :=
  digits.hex_fixed ndigits (N.shiftr u lo).

(** [UUID.String()]: xxxxxxxx-xxxx-xxxx-xxxx-xxxxxxxxxxxx. *)
Definition String_ (u : UUID) : string :=
  hexfield u 96 8 +:+ "-" +:+ hexfield u 80 4 +:+ "-" +:+
  hexfield u 64 4 +:+ "-" +:+ hexfield u 48 4 +:+ "-" +:+ hexfield u 0 12.

End uuid.

(** ** [path.Join] and [path.Clean] *)

Module gopath.

Definition is_sep (c : ascii) : bool := Ascii.eqb c "/".
Definition is_dot (c : ascii) : bool := Ascii.eqb c ".".

(** [r == n || path[r] == '/'] for the unread input [rest]. *)
Definition at_boundary (rest : list ascii) : bool :=
  match rest with
  | [] => true
  | c :: _ => is_sep c
  end.

(** The run of bytes up to the next separator, and what follows it. *)
Fixpoint span_elem (rest : list ascii) : list ascii * list ascii :=
  match rest with
  | [] => ([], [])
  | c :: rest' =>
      if is_sep c then ([], rest)
      else let '(e, r) := span_elem rest' in (c :: e, r)
  end.

(** The [..] case when it can backtrack: drop the last byte written, and
    go on dropping while more than [dotdot] bytes remain and the byte
    just dropped is not a separator.  The output buffer is kept last
    byte first. *)
Fixpoint backtrack (out : list ascii) (dotdot : nat) : list ascii :=
  match out with
  | [] => []
  | c :: out' =>
      if (dotdot <? length out')%nat && negb (is_sep c)
      then backtrack out' dotdot
      else out'
  end.

(** The output buffer before a real path element is copied: a separator
    is added if needed. *)
Definition with_sep (rooted : bool) (out : list ascii) : list ascii :=
  if (rooted && negb (length out =? 1)%nat) || (negb rooted && negb (length out =? 0)%nat)
  then "/"%char :: out else out.

(** One round of the loop of [Clean], on the unread input [c :: rest1]
    ([path[r:]]), the bytes written so far [out] (last byte first) and
    [dotdot], the length below which [..] must not backtrack.  It gives
    the input still unread and the new [out] and [dotdot]. *)
Definition clean_round (rooted : bool) (c : ascii) (rest1 out : list ascii)
    (dotdot : nat) : list ascii * list ascii * nat :=
  if is_sep c then
    (* empty path element *)
    (rest1, out, dotdot)
  else if is_dot c && at_boundary rest1 then
    (* . element *)
    (rest1, out, dotdot)
  else if is_dot c &&
          match rest1 with
          | c2 :: rest2 => is_dot c2 && at_boundary rest2
          | [] => false
          end then
    (* .. element: remove to last separator *)
    let rest2 := tl rest1 in
    if (dotdot <? length out)%nat then
      (rest2, backtrack out dotdot, dotdot)
    else if negb rooted then
      let out1 := if (0 <? length out)%nat then "/"%char :: out else out in
      let out2 := "."%char :: "."%char :: out1 in
      (rest2, out2, length out2)
    else
      (rest2, out, dotdot)
  else
    (* real path element: add a separator if needed, copy it *)
    let out1 := with_sep rooted out in
    let '(e, rest') := span_elem (c :: rest1) in
    (rest', (rev e ++ out1)%list, dotdot).

(** The loop of [Clean]: rounds until the input is read.  Every round
    reads at least one byte, so [fuel = len(path)] rounds are enough. *)
Fixpoint clean_loop (fuel : nat) (rooted : bool) (rest out : list ascii)
    (dotdot : nat) : list ascii * nat :=
  match fuel, rest with
  | S fuel', c :: rest1 =>
      let '(rest', out', dotdot') := clean_round rooted c rest1 out dotdot in
      clean_loop fuel' rooted rest' out' dotdot'
  | _, _ => (out, dotdot)
  end.

(** [path[0] == '/'], for a non-empty path. *)
Definition is_rooted (path : list ascii) : bool :=
  match path with
  | c :: _ => is_sep c
  | [] => false
  end.

(** The bytes [Clean] has written when its loop ends (last byte first),
    for a non-empty path. *)
Definition clean_out (path : list ascii) : list ascii :=
  match path with
  | [] => []
  | c :: rest =>
      if is_sep c
      then fst (clean_loop (length path) true rest ["/"%char] 1)
      else fst (clean_loop (length path) false path [] 0)
  end.

(** [path.Clean]. *)
Definition Clean (path : string) : string :=
  match clean_out (list_ascii_of_string path) with
  | [] => "."
  | out => string_of_list_ascii (rev out)
  end.

(** The buffer [Join] builds: non-empty elements are appended with a
    separator between them; once the buffer is non-empty every further
    element is appended. *)
Fixpoint join_buf (buf : string) (elem : list string) : string :=
  match elem with
  | [] => buf
  | e :: elem' =>
      if negb (String.eqb buf "") then join_buf (buf +:+ "/" +:+ e) elem'
      else if negb (String.eqb e "") then join_buf (buf +:+ e) elem'
      else join_buf buf elem'
  end.

(** [path.Join(elem...)]. *)
Definition Join (elem : list string) : string :=
  if forallb (fun e => String.eqb e "") elem then ""
  else Clean (join_buf "" elem).

(** The string holds no separator. *)
Definition no_sep (s : string) : bool :=
  forallb (fun b => negb (is_sep b)) (list_ascii_of_string s).

(** A file name that is one path element: it is not empty, holds no
    separator and does not start with a dot. *)
Definition is_plain (name : string) : bool :=
  match list_ascii_of_string name with
  | [] => false
  | c :: rest => negb (is_dot c) && forallb (fun b => negb (is_sep b)) (c :: rest)
  end.

(** What [Join] puts in front of a plain file name joined to the
    directory [dir]: the cleaned directory and a separator, or nothing
    when the cleaned directory is the current one. *)
Definition dir_prefix (dir : string) : string :=
  let out := clean_out (list_ascii_of_string dir) in
  let rooted := is_rooted (list_ascii_of_string dir) in
  string_of_list_ascii (rev (with_sep rooted out)).

End gopath.

(** ** Errors and results *)

(** A Go [error] value.  [ErrExternal] stands for an error handed back by
    a collaborator (the cluster client, the operating system, an encoder);
    the two other constructors are the errors [printKBOM] and [getWriter]
    build themselves with [fmt.Errorf]. *)
Inductive error : Type :=
| ErrExternal (msg : string)
| ErrFormatNotSupported (format : string)   (* "format %q is not supported" *)
| ErrOutputNotSupported (output : string).  (* "output %q is not supported" *)

#[global] Instance error_eq_dec : EqDecision error.
Proof. solve_decision. Defined.

(** What a call declared [(T, error)] hands back: a value, or a non-nil
    error. *)
Inductive result (A : Type) : Type :=
| Ok (a : A)
| Err (e : error).
Arguments Ok {A} a.
Arguments Err {A} e.

(** How a call ends: it returns a value, returns an error, or panics. *)
Inductive outcome (A : Type) : Type :=
| Done (a : A)
| Fail (e : error)
| Panic.
Arguments Done {A} a.
Arguments Fail {A} e.
Arguments Panic {A}.

Definition of_result {A : Type} (r : result A) : outcome A :=
  match r with
  | Ok a => Done a
  | Err e => Fail e
  end.

(** ** The document model *)

(** The descriptor types of package [model] whose declarations the
    command never looks into: it only moves their values from the cluster
    client into the document. *)
Class Schema : Type := {
  Location : Type;
  Node : Type;
  Image : Type;
  Resource : Type
}.

Module model.
Section Model.
Context `{Schema}.

Record Tool : Type := mkTool {
  Tool_Vendor : string;
  Tool_BuildTime : string;
  Tool_Name : string;
  Tool_Version : string;
  Tool_Commit : string;
  Tool_CommitTime : string
}.

Record Resources : Type := mkResources {
  Resources_Images : list Image;
  Resources_Resources : list Resource
}.

Record Cluster : Type := mkCluster {
  Cluster_Location : Location;
  Cluster_CNIVersion : string;
  Cluster_K8sVersion : string;
  Cluster_CACertDigest : string;
  Cluster_NodesCount : Z;
  Cluster_Nodes : list Node;
  Cluster_Resources : Resources
}.

Record KBOM : Type := mkKBOM {
  KBOM_ID : string;
  KBOM_BOMFormat : string;
  KBOM_SpecVersion : string;
  KBOM_GeneratedAt : gotime.Time;
  KBOM_GeneratedBy : Tool;
  KBOM_Cluster : Cluster
}.

(** The document with its [ID] field replaced. *)
Definition with_ID (id : string) (kbom : KBOM) : KBOM :=
  {| KBOM_ID := id;
     KBOM_BOMFormat := KBOM_BOMFormat kbom;
     KBOM_SpecVersion := KBOM_SpecVersion kbom;
     KBOM_GeneratedAt := KBOM_GeneratedAt kbom;
     KBOM_GeneratedBy := KBOM_GeneratedBy kbom;
     KBOM_Cluster := KBOM_Cluster kbom |}.

End Model.
End model.
Import model.

(** Package [config]: the strings fixed when the tool is built. *)
Module config.
Record Build : Type := mkBuild {
  AppName : string;
  AppVersion : string;
  BuildTime : string;
  LastCommitHash : string;
  LastCommitTime : string
}.
End config.

(** The two encoders, [encoding/json] and [yaml.v2], applied to a
    document: the text they produce, or the error they return.  The JSON
    encoder takes the prefix and the indentation set with [SetIndent]. *)
Class Codec `{Schema} : Type := {
  json_Marshal : string -> string -> KBOM -> result string;
  yaml_Marshal : KBOM -> result string
}.

(** ** The cluster client *)

Module kube.
Section Client.
Context `{Schema}.

(** The five collection operations of a connected client, each with the
    answer the cluster gives during this run.  A successful [Location]
    gives a location (the pointer it returns is not nil). *)
Record Client : Type := mkClient {
  Metadata : result (string * string);      (* k8sVersion, caCertDigest *)
  AllNodes : bool -> result (list Node);
  Location_ : result Location;
  AllImages : result (list Image);
  AllResources : bool -> result (list Resource)
}.

End Client.
End kube.

(** The five collection steps, in the order [runGenerate] takes them. *)
Inductive Step : Type :=
| StepMetadata | StepAllNodes | StepLocation | StepAllImages | StepAllResources.

#[global] Instance Step_eq_dec : EqDecision Step.
Proof. solve_decision. Defined.

(** ** The process and its surroundings *)

(** An [*os.File]: the standard output stream, or a file on disk. *)
Inductive File : Type :=
| Stdout
| Disk (name : string).

#[global] Instance File_eq_dec : EqDecision File.
Proof. solve_decision. Defined.

(** What the process does that can be seen from outside, in order. *)
Inductive Event : Type :=
| EvNewClient                            (* kube.NewClient() *)
| EvCollect (s : Step)                   (* one collection call *)
| EvUUID                                 (* uuid.New() *)
| EvNow                                  (* time.Now() *)
| EvCreate (name : string)               (* os.Create(name) *)
| EvWrite (f : File) (bytes : string)    (* f.Write(bytes) *)
| EvClose (f : File).                    (* f.Close() *)

#[global] Instance Event_eq_dec : EqDecision Event.
Proof. solve_decision. Defined.

(** The command-line flags, package-level variables of [cmd]. *)
Record Flags : Type := mkFlags {
  short : bool;
  output : string;
  format : string;
  outPath : string
}.

(** What the surroundings answer during one run. *)
Record Env `{Schema} : Type := mkEnv {
  (** [kube.NewClient()] *)
  env_NewClient : result kube.Client;
  (** the value [uuid.New()] draws *)
  env_uuid : uuid.UUID;
  (** the reading of the wall clock after the process has performed [n]
      events *)
  env_clock : nat -> gotime.Time;
  (** the error with which [os.Create] refuses a name, if it does *)
  env_create_err : string -> option error;
  (** a sink that stops accepting bytes: how many it takes in all, and the
      error its [Write] returns from then on *)
  env_write_fault : File -> option (nat * error)
}.

(** The state the process changes. *)
Record State : Type := mkState {
  st_stdout : string;                 (* bytes written to standard output *)
  st_stdout_closed : bool;            (* os.Stdout has been closed *)
  st_files : gmap string string;      (* the files on disk and their contents *)
  st_trace : list Event               (* the events so far, oldest first *)
}.

Definition log (ev : Event) (st : State) : State :=
  {| st_stdout := st_stdout st;
     st_stdout_closed := st_stdout_closed st;
     st_files := st_files st;
     st_trace := st_trace st ++ [ev] |}.

(** The state once the file [name] has been created, or truncated. *)
Definition create_file (name : string) (st : State) : State :=
  {| st_stdout := st_stdout st;
     st_stdout_closed := st_stdout_closed st;
     st_files := <[name := ""]> (st_files st);
     st_trace := st_trace st |}.

(** The state once standard output has been closed. *)
Definition close_stdout (st : State) : State :=
  {| st_stdout := st_stdout st;
     st_stdout_closed := true;
     st_files := st_files st;
     st_trace := st_trace st |}.

(** The state once the handle [f] has been closed. *)
Definition close_file (f : File) (st : State) : State :=
  let st1 := log (EvClose f) st in
  match f with
  | Stdout => close_stdout st1
  | Disk _ => st1
  end.

(** ** Computations: state passing with errors and panics *)

Definition M (A : Type) : Type := State -> outcome A * State.

Definition ret {A : Type} (a : A) : M A := fun st => (Done a, st).

Definition throw {A : Type} (e : error) : M A := fun st => (Fail e, st).

Definition panic {A : Type} : M A := fun st => (Panic, st).

Definition bind {A B : Type} (m : M A) (k : A -> M B) : M B :=
  fun st =>
    match m st with
    | (Done a, st') => k a st'
    | (Fail e, st') => (Fail e, st')
    | (Panic, st') => (Panic, st')
    end.

(** [defer cleanup] at the head of [body]: [cleanup] runs when [body] ends,
    however it ends, and what [cleanup] returns is dropped. *)
Definition defer {A : Type} (cleanup : M unit) (body : M A) : M A :=
  fun st =>
    let '(r, st') := body st in
    let '(_, st'') := cleanup st' in
    (r, st'').

Declare Scope go_scope.
Delimit Scope go_scope with go.
Notation "'let*' x ':=' m 'in' k" := (bind m (fun x => k))
  (at level 10, x pattern, m at level 100, k at level 200) : go_scope.
Open Scope go_scope.

(** ** The [generate] command *)

Definition KSOCCompany : string := "KSOC Labs".
Definition BOMFormat : string := "ksoc".
Definition SpecVersion : string := "0.1".

Definition StdOutput : string := "stdout".
Definition FileOutput : string := "file".

Definition JSONFormat : string := "json".
Definition YAMLFormat : string := "yaml".

(** [fmt.Sprintf("kbom-%s-%s.%s", key, formattedTime, format)] *)
Definition Sprintf_kbom (key formattedTime format : string) : string :=
  "kbom-" +:+ key +:+ "-" +:+ formattedTime +:+ "." +:+ format.

Section Generate.
Context `{Schema} `{!Codec}.
Variable build : config.Build.
Variable flags : Flags.
Variable env : Env.

(** *** Calls into the surroundings *)

Definition lift {A : Type} (r : result A) : M A :=
  fun st => (of_result r, st).

Definition kube_NewClient : M kube.Client :=
  fun st => (of_result (env_NewClient env), log EvNewClient st).

(** One collection call on the client: it is made, and gives the
    client's answer. *)
Definition collect {A : Type} (s : Step) (answer : result A) : M A :=
  fun st => (of_result answer, log (EvCollect s) st).

(** [uuid.New().String()] *)
Definition uuid_New_String : M string :=
  fun st => (Done (uuid.String_ (env_uuid env)), log EvUUID st).

(** [time.Now()]: the clock is read at the instant of the call. *)
Definition time_Now : M gotime.Time :=
  fun st => (Done (env_clock env (length (st_trace st))), log EvNow st).

(** [s[:n]] as a computation. *)
Definition slice_to (s : string) (n : nat) : M string :=
  match gostring.slice_to s n with
  | Some s' => ret s'
  | None => panic
  end.

(** [os.Create(name)]: creates the file, or truncates it when it exists;
    the handle is returned open. *)
Definition os_Create (name : string) : M File :=
  fun st =>
    let st1 := log (EvCreate name) st in
    match env_create_err env name with
    | Some e => (Fail e, st1)
    | None => (Done (Disk name), create_file name st1)
    end.

(** The bytes the sink [f] holds so far. *)
Definition contents (f : File) (st : State) : string :=
  match f with
  | Stdout => st_stdout st
  | Disk name => default "" (st_files st !! name)
  end.

(** The state after [f] has taken the bytes [bytes]. *)
Definition append_to (f : File) (bytes : string) (st : State) : State :=
  match f with
  | Stdout =>
      {| st_stdout := st_stdout st +:+ bytes;
         st_stdout_closed := st_stdout_closed st;
         st_files := st_files st;
         st_trace := st_trace st |}
  | Disk name =>
      {| st_stdout := st_stdout st;
         st_stdout_closed := st_stdout_closed st;
         st_files := <[name := contents f st +:+ bytes]> (st_files st);
         st_trace := st_trace st |}
  end.

(** [f.Write(bytes)]: a closed standard output takes nothing and returns
    the path error of [os.File], whose text is
    [write /dev/stdout: file already closed]; a sink with a fault takes
    bytes up to its limit and then returns its error; any other sink takes
    them all. *)
Definition File_Write (f : File) (bytes : string) : M unit :=
  fun st =>
    let st1 := log (EvWrite f bytes) st in
    if match f with Stdout => st_stdout_closed st | Disk _ => false end
    then (Fail (ErrExternal "write /dev/stdout: file already closed"), st1)
    else
      match env_write_fault env f with
      | None => (Done tt, append_to f bytes st1)
      | Some (limit, e) =>
          let room := (limit - String.length (contents f st1))%nat in
          if (String.length bytes <=? room)%nat
          then (Done tt, append_to f bytes st1)
          else (Fail e, append_to f (gostring.take room bytes) st1)
      end.

(** [f.Close()] *)
Definition File_Close (f : File) : M unit :=
  fun st => (Done tt, close_file f st).

(** [json.NewEncoder(w)] with [SetIndent(prefix, indent)], then
    [Encode(kbom)]: the text is produced first, then written. *)
Definition json_Encode (w : File) (prefix indent : string) (kbom : KBOM) : M unit :=
  let* bytes := lift (json_Marshal prefix indent kbom) in
  File_Write w bytes.

(** [yaml.NewEncoder(w).Encode(kbom)].  The emitter hands its text to
    the sink piece by piece as its buffer fills, and wraps the error of a
    failed [Write] in one of its own; here the pieces are taken together
    as one [Write] and the error is passed on as it is.  Properties that
    count the [Write] calls or name their error are stated for the JSON
    encoder, which makes one [Write] of the finished text and returns the
    error of the sink unchanged. *)
Definition yaml_Encode (w : File) (kbom : KBOM) : M unit :=
  let* bytes := lift (yaml_Marshal kbom) in
  File_Write w bytes.

(** *** [getWriter] *)

Definition getWriter (kbom : KBOM) : M File :=
  if String.eqb (output flags) StdOutput then
    ret Stdout
  else if String.eqb (output flags) FileOutput then
    let formattedTime := gotime.Format_2006_01_02_15_04_05 (KBOM_GeneratedAt kbom) in
    let* key := slice_to (KBOM_ID kbom) 8 in
    let key :=
      if 8 <? gostring.len (Cluster_CACertDigest (KBOM_Cluster kbom))
      then gostring.take 8 (Cluster_CACertDigest (KBOM_Cluster kbom))
      else key in
    let* f := os_Create (gopath.Join [outPath flags;
                                       Sprintf_kbom key formattedTime (format flags)]) in
    ret f
  else
    throw (ErrOutputNotSupported (output flags)).

(** *** [printKBOM] *)

Definition printKBOM (kbom : KBOM) : M unit :=
  let* writer := getWriter kbom in
  defer (File_Close writer)
    (if String.eqb (format flags) JSONFormat then
       json_Encode writer "" "  " kbom
     else if String.eqb (format flags) YAMLFormat then
       yaml_Encode writer kbom
     else
       throw (ErrFormatNotSupported (format flags))).

(** *** [runGenerate] *)

(** The first part of [runGenerate], up to and including the composite
    literal that builds the document. *)
Definition runGenerate_kbom : M KBOM :=
  let* k8sClient := kube_NewClient in
  let* (k8sVersion, caCertDigest) := collect StepMetadata (kube.Metadata k8sClient) in
  let full := negb (short flags) in
  let* nodes := collect StepAllNodes (kube.AllNodes k8sClient full) in
  let* loc := collect StepLocation (kube.Location_ k8sClient) in
  let* allImages := collect StepAllImages (kube.AllImages k8sClient) in
  let* resources := collect StepAllResources (kube.AllResources k8sClient full) in
  let* id := uuid_New_String in
  let* now := time_Now in
  ret {| KBOM_ID := id;
         KBOM_BOMFormat := BOMFormat;
         KBOM_SpecVersion := SpecVersion;
         KBOM_GeneratedAt := now;
         KBOM_GeneratedBy :=
           {| Tool_Vendor := KSOCCompany;
              Tool_BuildTime := config.BuildTime build;
              Tool_Name := config.AppName build;
              Tool_Version := config.AppVersion build;
              Tool_Commit := config.LastCommitHash build;
              Tool_CommitTime := config.LastCommitTime build |};
         KBOM_Cluster :=
           {| Cluster_Location := loc;
              Cluster_CNIVersion := "";
              Cluster_K8sVersion := k8sVersion;
              Cluster_CACertDigest := caCertDigest;
              Cluster_NodesCount := Z.of_nat (length nodes);
              Cluster_Nodes := nodes;
              Cluster_Resources :=
                {| Resources_Images := allImages;
                   Resources_Resources := resources |} |} |}.

Definition runGenerate : M unit :=
  let* kbom := runGenerate_kbom in
  printKBOM kbom.

End Generate.

(** ** Observations on a run *)

(** The state [st] with the events [evs] appended to its trace. *)
Definition extend (evs : list Event) (st : State) : State :=
  {| st_stdout := st_stdout st;
     st_stdout_closed := st_stdout_closed st;
     st_files := st_files st;
     st_trace := st_trace st ++ evs |}.

(** No sink was touched between [st] and [st']: standard output holds the
    same bytes and is as open as before, and the disk holds the same
    files. *)
Definition sinks_untouched (st st' : State) : Prop :=
  st_stdout st' = st_stdout st /\
  st_stdout_closed st' = st_stdout_closed st /\
  st_files st' = st_files st.

(** Events that touch a sink. *)
Definition is_sink_event (ev : Event) : bool :=
  match ev with
  | EvCreate _ | EvWrite _ _ | EvClose _ => true
  | _ => false
  end.

(** Events that fix the identity of a document: its id and its time
    stamp. *)
Definition is_identity_event (ev : Event) : bool :=
  match ev with
  | EvUUID | EvNow => true
  | _ => false
  end.

Definition is_collect_event (ev : Event) : bool :=
  match ev with
  | EvCollect _ => true
  | _ => false
  end.

(** In the trace [tr], every event satisfying [p] comes before every event
    satisfying [q]. *)
Definition all_before (p q : Event -> bool) (tr : list Event) : Prop :=
  forall (i j : nat) (a b : Event),
    tr !! i = Some a -> tr !! j = Some b -> p a = true -> q b = true -> (i < j)%nat.

(** The same, as a test that can be run: no event satisfying [p] occurs
    once an event satisfying [q] has occurred. *)
Fixpoint all_beforeb (p q : Event -> bool) (tr : list Event) : bool :=
  match tr with
  | [] => true
  | ev :: tr' =>
      (if q ev then negb (existsb p tr) else true) && all_beforeb p q tr'
  end.

Definition step_index (s : Step) : nat :=
  match s with
  | StepMetadata => 0
  | StepAllNodes => 1
  | StepLocation => 2
  | StepAllImages => 3
  | StepAllResources => 4
  end.

Definition all_steps : list Step :=
  [StepMetadata; StepAllNodes; StepLocation; StepAllImages; StepAllResources].

Section Answers.
Context `{Schema}.

Definition error_of {A : Type} (r : result A) : option error :=
  match r with
  | Ok _ => None
  | Err e => Some e
  end.

(** The error the client gives at step [s], if that call fails. *)
Definition failure (c : kube.Client) (full : bool) (s : Step) : option error :=
  match s with
  | StepMetadata => error_of (kube.Metadata c)
  | StepAllNodes => error_of (kube.AllNodes c full)
  | StepLocation => error_of (kube.Location_ c)
  | StepAllImages => error_of (kube.AllImages c)
  | StepAllResources => error_of (kube.AllResources c full)
  end.

(** The first of the steps [ss] at which the client fails. *)
Fixpoint first_failure_in (c : kube.Client) (full : bool) (ss : list Step)
    : option (Step * error) :=
  match ss with
  | [] => None
  | s :: ss' =>
      match failure c full s with
      | Some e => Some (s, e)
      | None => first_failure_in c full ss'
      end
  end.

Definition first_failure (c : kube.Client) (full : bool) : option (Step * error) :=
  first_failure_in c full all_steps.

(** The collection events of a run that fails at step [s]: the calls up
    to and including [s]. *)
Definition calls_through (s : Step) : list Event :=
  map EvCollect (firstn (S (step_index s)) all_steps).

End Answers.

(** The events of a run whose five collection calls succeed, up to the
    point where the document is built. *)
Definition assembly_events : list Event :=
  EvNewClient :: map EvCollect all_steps ++ [EvUUID; EvNow].

(** ** The file name in the words of the specification *)

Module spec.

(** Two decimal digits: [MM], [DD], [HH], [MM], [SS]. *)
Definition two_digits (x : Z) : string :=
  String (digits.digit (x / 10)) (String (digits.digit (x mod 10)) EmptyString).

(** Four decimal digits: [YYYY]. *)
Definition four_digits (x : Z) : string :=
  String (digits.digit (x / 1000))
    (String (digits.digit (x / 100 mod 10)) (two_digits (x mod 100))).

(** [generatedAt] formatted as YYYY-MM-DD-HH-MM-SS. *)
Definition timestamp (t : gotime.Time) : string :=
  four_digits (gotime.Year t) +:+ "-" +:+ two_digits (gotime.Month t) +:+ "-" +:+
  two_digits (gotime.Day t) +:+ "-" +:+ two_digits (gotime.Hour t) +:+ "-" +:+
  two_digits (gotime.Minute t) +:+ "-" +:+ two_digits (gotime.Second t).

(** The first 8 characters of [caCertDigest] if its length exceeds 8,
    else the first 8 characters of [id]. *)
Definition fingerprint8 (caCertDigest id : string) : string :=
  if (8 <? String.length caCertDigest)%nat
  then gostring.take 8 caCertDigest
  else gostring.take 8 id.

(** [kbom-<fingerprint8>-<timestamp>.<ext>] *)
Definition filename (id caCertDigest : string) (generatedAt : gotime.Time)
    (ext : string) : string :=
  "kbom-" +:+ fingerprint8 caCertDigest id +:+ "-" +:+ timestamp generatedAt
    +:+ "." +:+ ext.

End spec.

(** ** A small cluster to run the command on *)

Module sample.

(** Descriptors are plain names here. *)
Definition schema : Schema :=
  {| Location := string; Node := string; Image := string; Resource := string |}.
#[local] Existing Instance schema.

Definition nl : string := String "010"%char EmptyString.

(** Stand-in encoders: they render the identity of the document and its
    node count, one field per line. *)
Definition render (open close sep prefix indent : string) (kbom : @KBOM schema) : string :=
  prefix +:+ open +:+
  prefix +:+ indent +:+ "id" +:+ sep +:+ KBOM_ID kbom +:+ nl +:+
  prefix +:+ indent +:+ "generatedAt" +:+ sep
    +:+ gotime.Format_2006_01_02_15_04_05 (KBOM_GeneratedAt kbom) +:+ nl +:+
  prefix +:+ indent +:+ "k8sVersion" +:+ sep
    +:+ Cluster_K8sVersion (KBOM_Cluster kbom) +:+ nl +:+
  prefix +:+ indent +:+ "nodesCount" +:+ sep
    +:+ digits.decimal (Cluster_NodesCount (KBOM_Cluster kbom)) +:+ nl +:+
  prefix +:+ close.

Definition codec : @Codec schema :=
  {| json_Marshal := fun prefix indent kbom =>
       Ok (render ("{" +:+ nl) ("}" +:+ nl) ": " prefix indent kbom);
     yaml_Marshal := fun kbom => Ok (render "" "" ": " "" "" kbom) |}.

Definition build : config.Build :=
  {| config.AppName := "kbom";
     config.AppVersion := "0.1.0";
     config.BuildTime := "2024-01-01T00:00:00Z";
     config.LastCommitHash := "0123abc";
     config.LastCommitTime := "2023-12-31T00:00:00Z" |}.

(** A cluster of three nodes; in short mode descriptors are cut down. *)
Definition client : @kube.Client schema :=
  {| kube.Metadata := Ok ("v1.28.3", "abcdef1234567890");
     kube.AllNodes := fun full =>
       Ok (if full then ["node-a (full)"; "node-b (full)"; "node-c (full)"]
           else ["node-a"; "node-b"; "node-c"]);
     kube.Location_ := Ok "aws/eu-west-1";
     kube.AllImages := Ok ["nginx:1.25"; "redis:7"];
     kube.AllResources := fun full =>
       Ok (if full then ["deploy/web (full)"] else ["deploy/web"]) |}.

Definition refused : error := ErrExternal "connection refused".

(** The same cluster, with the call of step [s] failing. *)
Definition client_failing_at (s : Step) : @kube.Client schema :=
  {| kube.Metadata :=
       if decide (s = StepMetadata) then Err refused else kube.Metadata client;
     kube.AllNodes := fun full =>
       if decide (s = StepAllNodes) then Err refused else kube.AllNodes client full;
     kube.Location_ :=
       if decide (s = StepLocation) then Err refused else kube.Location_ client;
     kube.AllImages :=
       if decide (s = StepAllImages) then Err refused else kube.AllImages client;
     kube.AllResources := fun full =>
       if decide (s = StepAllResources) then Err refused else kube.AllResources client full |}.

(** A clock that reads 2024-01-02 03:03:58 when the run starts and
    advances by [pace] seconds with every event of the process. *)
Definition clock_at_pace (pace : Z) (n : nat) : gotime.Time :=
  let s := 58 + pace * Z.of_nat n in
  gotime.mkTime 2024 1 2 3 (3 + s / 60) (s mod 60).

(** One second an event: the document is stamped at 03:04:05. *)
Definition clock : nat -> gotime.Time := clock_at_pace 1.

(** Five seconds an event: the collection takes longer. *)
Definition slow_clock : nat -> gotime.Time := clock_at_pace 5.

Definition env_with (c : result (@kube.Client schema)) (clk : nat -> gotime.Time)
    : @Env schema :=
  {| env_NewClient := c;
     env_uuid := 0x123e4567e89b42d3a456426614174000%N;
     env_clock := clk;
     env_create_err := fun _ => None;
     env_write_fault := fun _ => None |}.

Definition env : @Env schema := env_with (Ok client) clock.

(** Standard output accepts no more than ten bytes. *)
Definition env_stdout_full : @Env schema :=
  {| env_NewClient := Ok client;
     env_uuid := env_uuid env;
     env_clock := clock;
     env_create_err := fun _ => None;
     env_write_fault := fun f =>
       match f with
       | Stdout => Some (10%nat, ErrExternal "no space left on device")
       | Disk _ => None
       end |}.

Definition flags (short : bool) (output format : string) : Flags :=
  {| short := short; output := output; format := format; outPath := "out" |}.

(** A fresh process: nothing written, nothing on disk. *)
Definition st0 : State :=
  {| st_stdout := ""; st_stdout_closed := false; st_files := ∅; st_trace := [] |}.

Definition run (fl : Flags) (e : @Env schema) : outcome unit * State :=
  @runGenerate schema codec build fl e st0.

Definition kbom (fl : Flags) (e : @Env schema) : outcome (@KBOM schema) * State :=
  @runGenerate_kbom schema build fl e st0.

(** The document of a run on [client] under [env]. *)
Definition document (short : bool) : @KBOM schema :=
  {| KBOM_ID := "123e4567-e89b-42d3-a456-426614174000";
     KBOM_BOMFormat := "ksoc";
     KBOM_SpecVersion := "0.1";
     KBOM_GeneratedAt := gotime.mkTime 2024 1 2 3 4 5;
     KBOM_GeneratedBy :=
       {| Tool_Vendor := "KSOC Labs";
          Tool_BuildTime := "2024-01-01T00:00:00Z";
          Tool_Name := "kbom";
          Tool_Version := "0.1.0";
          Tool_Commit := "0123abc";
          Tool_CommitTime := "2023-12-31T00:00:00Z" |};
     KBOM_Cluster :=
       {| Cluster_Location := "aws/eu-west-1";
          Cluster_CNIVersion := "";
          Cluster_K8sVersion := "v1.28.3";
          Cluster_CACertDigest := "abcdef1234567890";
          Cluster_NodesCount := 3;
          Cluster_Nodes :=
            if short then ["node-a"; "node-b"; "node-c"]
            else ["node-a (full)"; "node-b (full)"; "node-c (full)"];
          Cluster_Resources :=
            {| Resources_Images := ["nginx:1.25"; "redis:7"];
               Resources_Resources :=
                 if short then ["deploy/web"] else ["deploy/web (full)"] |} |} |}.

End sample.

(** ** What a populated document holds *)

Section Populated.
Context `{Schema}.

(** Every field of [kbom] other than its id and its time stamp holds what
    [runGenerate] puts there: the build constants, and the five answers
    of the client [c] for the detail mode [full]. *)
Record populated (build : config.Build) (c : kube.Client) (full : bool)
    (kbom : KBOM) : Prop := mkPopulated {
  pop_BOMFormat : KBOM_BOMFormat kbom = BOMFormat;
  pop_SpecVersion : KBOM_SpecVersion kbom = SpecVersion;
  pop_GeneratedBy :
    KBOM_GeneratedBy kbom =
      {| Tool_Vendor := KSOCCompany;
         Tool_BuildTime := config.BuildTime build;
         Tool_Name := config.AppName build;
         Tool_Version := config.AppVersion build;
         Tool_Commit := config.LastCommitHash build;
         Tool_CommitTime := config.LastCommitTime build |};
  pop_Metadata :
    kube.Metadata c = Ok (Cluster_K8sVersion (KBOM_Cluster kbom),
                          Cluster_CACertDigest (KBOM_Cluster kbom));
  pop_Nodes : kube.AllNodes c full = Ok (Cluster_Nodes (KBOM_Cluster kbom));
  pop_NodesCount :
    Cluster_NodesCount (KBOM_Cluster kbom)
    = Z.of_nat (length (Cluster_Nodes (KBOM_Cluster kbom)));
  pop_Location : kube.Location_ c = Ok (Cluster_Location (KBOM_Cluster kbom));
  pop_CNIVersion : Cluster_CNIVersion (KBOM_Cluster kbom) = "";
  pop_Images :
    kube.AllImages c = Ok (Resources_Images (Cluster_Resources (KBOM_Cluster kbom)));
  pop_Resources :
    kube.AllResources c full
    = Ok (Resources_Resources (Cluster_Resources (KBOM_Cluster kbom)))
}.

End Populated.

(** The bytes handed to sinks, in the order of the [Write] calls of the
    trace [tr]. *)
Fixpoint writes (tr : list Event) : list string :=
  match tr with
  | [] => []
  | EvWrite _ bytes :: tr' => bytes :: writes tr'
  | _ :: tr' => writes tr'
  end.

(** The events a run added to the trace of the state it started from. *)
Definition events_since (st st' : State) : list Event :=
  drop (length (st_trace st)) (st_trace st').

(** The path [getWriter] asks [os.Create] for, for a document whose id
    has at least eight bytes. *)
Definition target `{Schema} (flags : Flags) (kbom : KBOM) : string :=
  gopath.Join
    [outPath flags;
     Sprintf_kbom
       (spec.fingerprint8 (Cluster_CACertDigest (KBOM_Cluster kbom)) (KBOM_ID kbom))
       (gotime.Format_2006_01_02_15_04_05 (KBOM_GeneratedAt kbom))
       (format flags)].

(** ** Two properties a run may have *)

Section Statements.
Context `{Schema} `{!Codec}.

(** The error of a failed run names the step that failed: there is a way
    [step_named] to read the step off the error, right for every run
    that fails in collection. *)
Definition surfaced_error_names_step (build : config.Build) (flags : Flags) : Prop :=
  exists step_named : error -> option Step,
    forall (env : Env) (c : kube.Client) (s : Step) (cause e : error) (st st' : State),
      env_NewClient env = Ok c ->
      first_failure c (negb (short flags)) = Some (s, cause) ->
      runGenerate build flags env st = (Fail e, st') ->
      step_named e = Some s.

(** Standard output is not closed between [st] and [st']. *)
Definition stdout_left_open (st st' : State) : Prop :=
  st_stdout_closed st' = st_stdout_closed st /\
  EvClose Stdout ∉ events_since st st'.

End Statements.

(** The name of the file [getWriter] creates, up to the dot before the
    extension. *)
Definition file_stem `{Schema} (kbom : KBOM) : string :=
  "kbom-" +:+
  spec.fingerprint8 (Cluster_CACertDigest (KBOM_Cluster kbom)) (KBOM_ID kbom) +:+
  "-" +:+ gotime.Format_2006_01_02_15_04_05 (KBOM_GeneratedAt kbom).

(** [s] ends with [suffix]. *)
Fixpoint has_suffix (suffix s : string) : bool :=
  String.eqb suffix s ||
  match s with
  | EmptyString => false
  | String _ s' => has_suffix suffix s'
  end.

(** The extension of the file [getWriter] creates is the format selector
    as it was given: the path handed to [os.Create] ends with a dot and
    the selector. *)
Definition extension_is_selector `{Schema} (flags : Flags) (env : Env) (kbom : KBOM)
    (st : State) : Prop :=
  forall name : string,
    EvCreate name ∈ events_since st (snd (getWriter flags env kbom st)) ->
    has_suffix ("." +:+ format flags) name = true.

(** The text [printKBOM] asks for when the selector is one it supports:
    JSON with an empty prefix and an indentation of two spaces, or YAML. *)
Definition marshal `{Schema} `{!Codec} (format : string) (kbom : KBOM) : result string :=
  if String.eqb format JSONFormat then json_Marshal "" "  " kbom
  else yaml_Marshal kbom.

(** ** The flags as [init] registers them *)

(** The values the flags have when none is given on the command line:
    the defaults [init] passes to [BoolVar] and [StringVarP]. *)
Definition init_flags : Flags :=
  {| short := false; output := StdOutput; format := JSONFormat; outPath := "." |}.

(** Events by kind. *)
Definition is_close_event (ev : Event) : bool :=
  match ev with
  | EvClose _ => true
  | _ => false
  end.

Definition is_create_event (ev : Event) : bool :=
  match ev with
  | EvCreate _ => true
  | _ => false
  end.

(** Events on standard output. *)
Definition is_stdout_event (ev : Event) : bool :=
  match ev with
  | EvWrite Stdout _ | EvClose Stdout => true
  | _ => false
  end.

(** Events on a file on disk. *)
Definition is_disk_event (ev : Event) : bool :=
  match ev with
  | EvCreate _ | EvWrite (Disk _) _ | EvClose (Disk _) => true
  | _ => false
  end.

(** The last element of the path [getWriter] asks [os.Create] for: the
    value of its [fmt.Sprintf]. *)
Definition base_name `{Schema} (flags : Flags) (kbom : KBOM) : string :=
  Sprintf_kbom
    (spec.fingerprint8 (Cluster_CACertDigest (KBOM_Cluster kbom)) (KBOM_ID kbom))
    (gotime.Format_2006_01_02_15_04_05 (KBOM_GeneratedAt kbom))
    (format flags).

(** Reading decimal digits back. *)
Module readback.

Definition digit_value (c : ascii) : Z := Z.of_N (N_of_ascii c) - 48.

Definition two_value (s : string) : Z :=
  match s with
  | String a (String b _) => 10 * digit_value a + digit_value b
  | _ => -1
  end.

Definition four_value (s : string) : Z :=
  match s with
  | String a (String b rest) => 1000 * digit_value a + 100 * digit_value b + two_value rest
  | _ => -1
  end.

End readback.

(** ** Surroundings in which something goes wrong *)

Module faulty.
#[local] Existing Instance sample.schema.

(** No cluster can be reached. *)
Definition env_no_client : @Env sample.schema :=
  sample.env_with (Err sample.refused) sample.clock.

Definition denied : error := ErrExternal "permission denied".

(** The output directory cannot be written to. *)
Definition env_create_denied : @Env sample.schema :=
  {| env_NewClient := Ok sample.client;
     env_uuid := env_uuid sample.env;
     env_clock := sample.clock;
     env_create_err := fun _ => Some denied;
     env_write_fault := fun _ => None |}.

Definition no_space : error := ErrExternal "no space left on device".

(** A file on disk accepts no more than ten bytes. *)
Definition env_disk_full : @Env sample.schema :=
  {| env_NewClient := Ok sample.client;
     env_uuid := env_uuid sample.env;
     env_clock := sample.clock;
     env_create_err := fun _ => None;
     env_write_fault := fun f =>
       match f with
       | Stdout => None
       | Disk _ => Some (10%nat, no_space)
       end |}.

Definition unsupported_value : error := ErrExternal "json: unsupported value".

(** Encoders of which the JSON one refuses every document. *)
Definition codec_json_failing : @Codec sample.schema :=
  {| json_Marshal := fun _ _ _ => Err unsupported_value;
     yaml_Marshal := fun kbom => @yaml_Marshal sample.schema sample.codec kbom |}.

End faulty.

(** ** The helpers of the test-run list *)

(** A [Map<string, number>]: its entries in insertion order, one for each
    key. *)
Module jsmap.

Definition Map : Type := list (string * nat).

(** [new Map()] *)
Definition empty : Map := [].

(** [m.set(k, v)]: the value of an existing key is replaced where it
    stands, a new key is added last. *)
Fixpoint set (k : string) (v : nat) (m : Map) : Map :=
  match m with
  | [] => [(k, v)]
  | (k', v') :: m' => if String.eqb k' k then (k, v) :: m' else (k', v') :: set k v m'
  end.

(** [m.get(k)]; [None] is [undefined]. *)
Fixpoint get (k : string) (m : Map) : option nat :=
  match m with
  | [] => None
  | (k', v') :: m' => if String.eqb k' k then Some v' else get k m'
  end.

(** [[...m.keys()]] *)
Definition keys (m : Map) : list string := map fst m.

End jsmap.

Module listutils.
Section ListUtils.

(** The type of tag ids: values on which [===] is equality. *)
Context {Id : Type} `{EqDecision Id}.

(** The fields of the interfaces [ITag], [ISpecRun], [ISuiteRun] and
    [ITestRun] that the helpers read. *)
Record ITag : Type := mkITag {
  ITag_id : Id;
  ITag_name : string
}.

Record ISpecRun : Type := mkISpecRun {
  ISpecRun_status : string;
  ISpecRun_tags : list ITag
}.

Record ISuiteRun : Type := mkISuiteRun {
  ISuiteRun_suite_name : string;
  ISuiteRun_spec_runs : list ISpecRun
}.

Record ITestRun : Type := mkITestRun {
  ITestRun_suite_runs : list ISuiteRun
}.

(** The text of a count in a template literal. *)
Definition Number_toString (n : nat) : string := digits.decimal (Z.of_nat n).

(** [testRunsStatus] *)
Definition testRunsStatus (testRun : ITestRun) : jsmap.Map :=
  let statusMap := jsmap.empty in
  let passedSpecRuns :=
    length (List.filter (fun specRun => String.eqb (ISpecRun_status specRun) "passed")
              (flat_map (fun suiteRun => ISuiteRun_spec_runs suiteRun)
                 (ITestRun_suite_runs testRun))) in
  let failedSpecRuns :=
    length (List.filter (fun specRun => String.eqb (ISpecRun_status specRun) "failed")
              (flat_map (fun suiteRun => ISuiteRun_spec_runs suiteRun)
                 (ITestRun_suite_runs testRun))) in
  let skippedSpecRuns :=
    length (List.filter (fun specRun => String.eqb (ISpecRun_status specRun) "skipped")
              (flat_map (fun suiteRun => ISuiteRun_spec_runs suiteRun)
                 (ITestRun_suite_runs testRun))) in
  let statusMap := jsmap.set "passed" passedSpecRuns statusMap in
  let statusMap := jsmap.set "failed" failedSpecRuns statusMap in
  let statusMap := jsmap.set "skipped" skippedSpecRuns statusMap in
  statusMap.

(** [uniqueTags]: the array [tags] grows by [push] as the two [forEach]
    loops go through the spec runs and their tags. *)
Definition uniqueTags (specRuns : list ISpecRun) : list ITag :=
  fold_left
    (fun tags specRun =>
       fold_left
         (fun tags tag =>
            if negb (existsb (fun t => bool_decide (ITag_id t = ITag_id tag)) tags)
            then (tags ++ [tag])%list
            else tags)
         (ISpecRun_tags specRun) tags)
    specRuns [].

(** [calculateSpecRuns] *)
Definition calculateSpecRuns (testRun : ITestRun) : string :=
  let totalSpecRuns :=
    length (List.filter
              (fun specRun => negb (String.eqb (ISpecRun_status specRun) "skipped"))
              (flat_map (fun suiteRun => ISuiteRun_spec_runs suiteRun)
                 (ITestRun_suite_runs testRun))) in
  let passedSpecRuns :=
    length (List.filter (fun specRun => String.eqb (ISpecRun_status specRun) "passed")
              (flat_map (fun suiteRun => ISuiteRun_spec_runs suiteRun)
                 (ITestRun_suite_runs testRun))) in
  Number_toString passedSpecRuns +:+ "/" +:+ Number_toString totalSpecRuns.

(** A [<Tag color=...>] element with its text. *)
Record TagEl : Type := mkTagEl {
  TagEl_color : string;
  TagEl_text : string
}.

(** What differs from one [<Table>] of [expandedRowRender] to the next:
    its [dataSource], its [key], and what the [render] callback of its
    Suite Name column returns, on every row.  [pagination] is recorded
    with them. *)
Record TableEl : Type := mkTableEl {
  TableEl_dataSource : list ISpecRun;
  TableEl_pagination : bool;
  TableEl_key : nat;
  TableEl_suite_name : string
}.

(** The tables of [expandedRowRender]: one for each suite run, with the
    spec runs that are not skipped. *)
Definition expandedRowRender (testRun : ITestRun) : list TableEl :=
  imap
    (fun suiteIndex suiteRun =>
       {| TableEl_dataSource :=
            List.filter
              (fun specRun => negb (String.eqb (ISpecRun_status specRun) "skipped"))
              (ISuiteRun_spec_runs suiteRun);
          TableEl_pagination := false;
          TableEl_key := suiteIndex;
          TableEl_suite_name := ISuiteRun_suite_name suiteRun |})
    (ITestRun_suite_runs testRun).

(** The [render] callback of the Status column of [expandedRowRender]. *)
Definition renderStatus (record : ISpecRun) : TagEl :=
  if String.eqb (ISpecRun_status record) "failed"
  then {| TagEl_color := "red"; TagEl_text := "Failed" |}
  else {| TagEl_color := "green"; TagEl_text := "Passed" |}.

(** *** What the properties of the helpers speak of *)

(** The spec runs of a test run, suite run after suite run. *)
Definition all_runs (testRun : ITestRun) : list ISpecRun :=
  flat_map (fun suiteRun => ISuiteRun_spec_runs suiteRun) (ITestRun_suite_runs testRun).

Definition has_status (s : string) (specRun : ISpecRun) : bool :=
  String.eqb (ISpecRun_status specRun) s.

(** The tags of the spec runs, run after run. *)
Definition flat_tags (specRuns : list ISpecRun) : list ITag :=
  flat_map (fun specRun => ISpecRun_tags specRun) specRuns.

(** One round of the inner loop of [uniqueTags]. *)
Definition keep_new (tags : list ITag) (tag : ITag) : list ITag :=
  if negb (existsb (fun t => bool_decide (ITag_id t = ITag_id tag)) tags)
  then (tags ++ [tag])%list else tags.

(** The first tag with the id [i]. *)
Definition first_with (i : Id) (tags : list ITag) : option ITag :=
  List.find (fun t => bool_decide (ITag_id t = i)) tags.

(** The rows of all the tables of [expandedRowRender]. *)
Definition rows (testRun : ITestRun) : list ISpecRun :=
  flat_map (fun table => TableEl_dataSource table) (expandedRowRender testRun).

End ListUtils.
End listutils.

(** * Properties *)

(** ** The library operations on examples *)

Example decimal_2024 : digits.decimal 2024 = "2024".
Proof. reflexivity. Qed.

Example appendInt_pad : gotime.appendInt 5 2 = "05" /\ gotime.appendInt 0 4 = "0000"
  /\ gotime.appendInt 12345 4 = "12345" /\ gotime.appendInt (-7) 2 = "-07".
Proof. repeat split; reflexivity. Qed.

Example format_scenario :
  gotime.Format_2006_01_02_15_04_05 (gotime.mkTime 2024 1 2 3 4 5) = "2024-01-02-03-04-05".
Proof. reflexivity. Qed.

Example uuid_string_example :
  uuid.String_ 0x123e4567e89b12d3a456426614174000%N = "123e4567-e89b-12d3-a456-426614174000".
Proof. reflexivity. Qed.

Example clean_examples :
  map gopath.Clean ["a/b/../c"; "/../a"; "../../a"; "a//b/./c/"; ""; "a/.."; "/";
                    "abc/../../x"; "a/b/.."; "/a/b/../../.."; "./x"; ".../y"; "a/...";
                    "..a/.b"; "x/.."; "../x/../.."]
  = ["a/c"; "/a"; "../../a"; "a/b/c"; "."; "."; "/"; "../x"; "a"; "/"; "x"; ".../y";
     "a/..."; "..a/.b"; "."; "../.."].
Proof. reflexivity. Qed.

Example dir_prefix_examples :
  map gopath.dir_prefix ["out"; "."; ""; "/"; "/tmp//x/../"; "a/../.."; "./out/dir"]
  = ["out/"; ""; ""; "/"; "/tmp/"; "../"; "out/dir/"].
Proof. reflexivity. Qed.

(** The joined path is cleaned as a whole: a separator in the last
    element is a separator of the path. *)
Example join_cleans_last_element :
  map gopath.Join [["out"; "kbom-k-t.x/"]; ["out"; "kbom-k-t.a/../b"]]
  = ["out/kbom-k-t.x"; "out/b"].
Proof. reflexivity. Qed.

Example join_examples :
  map gopath.Join [["."; "f"]; [""; "f"]; ["/tmp/"; "f"]; ["out"; "f"]; ["a/b"; "../f"];
                   [""; ""]; ["/"; "f"]; ["out/dir/"; "kbom-x.json"]]
  = ["f"; "f"; "/tmp/f"; "out/f"; "a/f"; ""; "/f"; "out/dir/kbom-x.json"].
Proof. reflexivity. Qed.

(** ** Strings, digits, identifiers *)

Lemma length_take (n : nat) (s : string) :
  (n <= String.length s)%nat -> String.length (gostring.take n s) = n.
Proof.
  revert s; induction n as [|n IH]; intros [|c s] Hn; simpl in *; try lia.
  rewrite IH; lia.
Qed.

Lemma append_nil_l (t : string) : "" +:+ t = t.
Proof. reflexivity. Qed.

Lemma append_cons (c : ascii) (s t : string) : String c s +:+ t = String c (s +:+ t).
Proof. reflexivity. Qed.

Lemma append_nil_r (s : string) : s +:+ "" = s.
Proof. induction s as [|c s IH]; [done|]. rewrite append_cons. congruence. Qed.

Lemma append_assoc (s t u : string) : (s +:+ t) +:+ u = s +:+ (t +:+ u).
Proof. induction s as [|c s IH]; [done|]. rewrite !append_cons. congruence. Qed.

Lemma length_append (s t : string) :
  String.length (s +:+ t) = (String.length s + String.length t)%nat.
Proof.
  induction s as [|c s IH]; [done|].
  rewrite append_cons. simpl. by rewrite IH.
Qed.

Lemma length_hex_fixed (k : nat) (n : N) :
  String.length (digits.hex_fixed k n) = k.
Proof.
  revert n; induction k as [|k IH]; intros n; simpl; [done|].
  rewrite length_append, IH; simpl; lia.
Qed.

(** The text form of a UUID has 36 bytes. *)
Lemma length_uuid_String (u : uuid.UUID) : String.length (uuid.String_ u) = 36%nat.
Proof.
  unfold uuid.String_, uuid.hexfield.
  rewrite !length_append, !length_hex_fixed. reflexivity.
Qed.

(** Its first eight bytes spell the first four bytes of the UUID. *)
Lemma slice_uuid_String (u : uuid.UUID) :
  gostring.slice_to (uuid.String_ u) 8 = Some (uuid.hexfield u 96 8).
Proof.
  unfold gostring.slice_to. rewrite length_uuid_String. simpl Nat.leb. cbv iota.
  f_equal. 
Qed.

Lemma slice_to_Some (s : string) (n : nat) :
  (n <= String.length s)%nat -> gostring.slice_to s n = Some (gostring.take n s).
Proof.
  intros Hn. unfold gostring.slice_to.
  destruct (Nat.leb_spec n (String.length s)); [done | lia].
Qed.

(** A property checked on every number below [n] holds on the range. *)
Lemma range_forallb (P : Z -> bool) (n : Z) :
  forallb (fun k => P (Z.of_nat k)) (seq 0 (Z.to_nat n)) = true ->
  forall x : Z, 0 <= x < n -> P x = true.
Proof.
  intros Hall x Hx. rewrite forallb_forall in Hall.
  rewrite <- (Z2Nat.id x) by lia. apply Hall, in_seq. lia.
Qed.

(** [appendInt] with width 2 prints exactly two digits below one hundred. *)
Lemma appendInt_two_digits (x : Z) :
  0 <= x < 100 -> gotime.appendInt x 2 = spec.two_digits x.
Proof.
  intros Hx.
  apply String.eqb_eq.
  apply (range_forallb
           (fun x => String.eqb (gotime.appendInt x 2) (spec.two_digits x)) 100);
    [vm_compute; reflexivity | lia].
Qed.

(** [appendInt] with width 4 prints exactly four digits below ten
    thousand. *)
Lemma appendInt_four_digits (x : Z) :
  0 <= x < 10000 -> gotime.appendInt x 4 = spec.four_digits x.
Proof.
  intros Hx.
  apply String.eqb_eq.
  apply (range_forallb
           (fun x => String.eqb (gotime.appendInt x 4) (spec.four_digits x)) 10000);
    [vm_compute; reflexivity | lia].
Qed.

(** On the readings of a clock, the layout of [getWriter] prints
    YYYY-MM-DD-HH-MM-SS. *)
Lemma Format_is_timestamp (t : gotime.Time) :
  gotime.civil t -> gotime.Format_2006_01_02_15_04_05 t = spec.timestamp t.
Proof.
  intros (Hy & Hmo & Hd & Hh & Hmi & Hs).
  unfold gotime.Format_2006_01_02_15_04_05, spec.timestamp.
  rewrite appendInt_four_digits by lia.
  rewrite !appendInt_two_digits by lia.
  reflexivity.
Qed.

Lemma length_timestamp (t : gotime.Time) : String.length (spec.timestamp t) = 19%nat.
Proof. reflexivity. Qed.

(** ** Traces *)

Lemma log_is_extend (ev : Event) (st : State) : log ev st = extend [ev] st.
Proof. reflexivity. Qed.

Lemma extend_extend (evs1 evs2 : list Event) (st : State) :
  extend evs2 (extend evs1 st) = extend (evs1 ++ evs2) st.
Proof. unfold extend; simpl. by rewrite <- app_assoc. Qed.

Lemma extend_untouched (evs : list Event) (st : State) :
  sinks_untouched st (extend evs st).
Proof. by repeat split. Qed.

Lemma all_beforeb_correct (p q : Event -> bool) (tr : list Event) :
  all_beforeb p q tr = true -> all_before p q tr.
Proof.
  induction tr as [|ev tr IH]; intros Hb i j a b Hi Hj Hp Hq.
  - by rewrite lookup_nil in Hi.
  - simpl in Hb. apply andb_prop in Hb as [Hhd Htl].
    destruct j as [|j].
    + (* [b] is the head: nothing satisfying [p] may occur at all *)
      simpl in Hj. injection Hj as ->. rewrite Hq in Hhd.
      apply negb_true_iff in Hhd.
      assert (existsb p (b :: tr) = true) as Hex.
      { apply existsb_exists. exists a. split; [|done].
        apply list_elem_of_In, list_elem_of_lookup. eauto. }
      simpl in Hex. congruence.
    + destruct i as [|i]; [lia|].
      simpl in Hi, Hj. specialize (IH Htl i j a b Hi Hj Hp Hq). lia.
Qed.

Lemma all_before_complete (p q : Event -> bool) (tr : list Event) :
  all_before p q tr -> all_beforeb p q tr = true.
Proof.
  induction tr as [|ev tr IH]; intros Hall; [done|].
  simpl. apply andb_true_intro; split.
  - destruct (q ev) eqn:Hq; [|done].
    apply negb_true_iff. apply not_true_is_false. intros Hex.
    change (existsb p (ev :: tr) = true) in Hex.
    apply existsb_exists in Hex as (a & Ha & Hp).
    apply list_elem_of_In, list_elem_of_lookup in Ha as [i Hi].
    specialize (Hall i 0%nat a ev Hi eq_refl Hp Hq). lia.
  - apply IH. intros i j a b Hi Hj Hp Hq.
    specialize (Hall (S i) (S j) a b Hi Hj Hp Hq). lia.
Qed.

(** ** Assembling the document *)

Section Assembly.
Context `{Schema} `{!Codec}.
Variable build : config.Build.
Variable flags : Flags.
Variable env : Env.

Let full : bool := negb (short flags).

(** When no client can be made, nothing else is attempted. *)
Lemma kbom_NewClient_fails (e : error) (st : State) :
  env_NewClient env = Err e ->
  runGenerate_kbom build flags env st = (Fail e, extend [EvNewClient] st).
Proof.
  intros Hc. unfold runGenerate_kbom, bind, kube_NewClient. by rewrite Hc.
Qed.

(** When a collection call fails, the calls before it have been made,
    it is the last event, and its error is what comes back. *)
Lemma kbom_collection_fails (c : kube.Client) (s : Step) (e : error) (st : State) :
  env_NewClient env = Ok c ->
  first_failure c full = Some (s, e) ->
  runGenerate_kbom build flags env st
  = (Fail e, extend (EvNewClient :: calls_through s) st).
Proof.
  intros Hc Hf.
  unfold runGenerate_kbom, bind, kube_NewClient, collect. rewrite Hc. simpl.
  unfold first_failure, first_failure_in, all_steps, failure, error_of in Hf.
  fold full.
  destruct (kube.Metadata c) as [[v d]|e1];
    [|injection Hf as <- <-; simpl; by rewrite !log_is_extend, !extend_extend].
  destruct (kube.AllNodes c full) as [nodes|e2];
    [|injection Hf as <- <-; simpl; by rewrite !log_is_extend, !extend_extend].
  destruct (kube.Location_ c) as [loc|e3];
    [|injection Hf as <- <-; simpl; by rewrite !log_is_extend, !extend_extend].
  destruct (kube.AllImages c) as [imgs|e4];
    [|injection Hf as <- <-; simpl; by rewrite !log_is_extend, !extend_extend].
  destruct (kube.AllResources c full) as [rs|e5];
    [|injection Hf as <- <-; simpl; by rewrite !log_is_extend, !extend_extend].
  discriminate.
Qed.

(** When the five calls succeed, the document is built from their
    answers, after them: then the id is drawn, then the clock is read. *)
Lemma kbom_done (c : kube.Client) (st : State) :
  env_NewClient env = Ok c ->
  first_failure c full = None ->
  exists kbom : KBOM,
    runGenerate_kbom build flags env st = (Done kbom, extend assembly_events st) /\
    populated build c full kbom /\
    KBOM_ID kbom = uuid.String_ (env_uuid env) /\
    KBOM_GeneratedAt kbom = env_clock env (length (st_trace st) + 7).
Proof.
  intros Hc Hf.
  unfold runGenerate_kbom, bind, kube_NewClient, collect, uuid_New_String, time_Now, ret.
  rewrite Hc. simpl.
  unfold first_failure, first_failure_in, all_steps, failure, error_of in Hf.
  fold full.
  destruct (kube.Metadata c) as [[v d]|e1] eqn:HM; [|discriminate].
  destruct (kube.AllNodes c full) as [nodes|e2] eqn:HN; [|discriminate].
  destruct (kube.Location_ c) as [loc|e3] eqn:HL; [|discriminate].
  destruct (kube.AllImages c) as [imgs|e4] eqn:HI; [|discriminate].
  destruct (kube.AllResources c full) as [rs|e5] eqn:HR; [|discriminate].
  simpl. eexists. split; [|split; [|split]].
  - rewrite !log_is_extend, !extend_extend. reflexivity.
  - by constructor.
  - reflexivity.
  - simpl. rewrite !length_app. simpl. f_equal. lia.
Qed.

(** The three ways [runGenerate_kbom] can end; it never panics. *)
Lemma kbom_cases (st : State) :
  (exists e, env_NewClient env = Err e /\
     runGenerate_kbom build flags env st = (Fail e, extend [EvNewClient] st)) \/
  (exists c s e, env_NewClient env = Ok c /\ first_failure c full = Some (s, e) /\
     runGenerate_kbom build flags env st
     = (Fail e, extend (EvNewClient :: calls_through s) st)) \/
  (exists c kbom, env_NewClient env = Ok c /\ first_failure c full = None /\
     runGenerate_kbom build flags env st = (Done kbom, extend assembly_events st) /\
     populated build c full kbom /\
     KBOM_ID kbom = uuid.String_ (env_uuid env) /\
     KBOM_GeneratedAt kbom = env_clock env (length (st_trace st) + 7)).
Proof.
  destruct (env_NewClient env) as [c|e] eqn:Hc.
  - destruct (first_failure c full) as [[s e]|] eqn:Hf.
    + right; left. exists c, s, e. eauto using kbom_collection_fails.
    + right; right. destruct (kbom_done c st Hc Hf) as (kbom & ? & ? & ? & ?).
      exists c, kbom. eauto 10.
  - left. exists e. eauto using kbom_NewClient_fails.
Qed.

(** A document that comes out was populated from a client all of whose
    calls succeeded. *)
Lemma kbom_inv (st st' : State) (kbom : KBOM) :
  runGenerate_kbom build flags env st = (Done kbom, st') ->
  exists c, env_NewClient env = Ok c /\ first_failure c full = None /\
    st' = extend assembly_events st /\
    populated build c full kbom /\
    KBOM_ID kbom = uuid.String_ (env_uuid env) /\
    KBOM_GeneratedAt kbom = env_clock env (length (st_trace st) + 7).
Proof.
  intros Hrun.
  destruct (kbom_cases st) as [(e & _ & Hr)|[(c & s & e & _ & _ & Hr)|
    (c & kbom' & Hc & Hf & Hr & Hpop & Hid & Hat)]];
    rewrite Hr in Hrun; try discriminate.
  injection Hrun as <- <-. exists c. eauto 10.
Qed.

End Assembly.

(** ** Opening the sink, writing the document *)

Section Output.
Context `{Schema} `{!Codec}.
Variable flags : Flags.
Variable env : Env.

Lemma getWriter_stdout (kbom : KBOM) (st : State) :
  output flags = StdOutput -> getWriter flags env kbom st = (Done Stdout, st).
Proof. intros Ho. unfold getWriter. by rewrite Ho. Qed.

Lemma getWriter_unsupported (kbom : KBOM) (st : State) :
  output flags <> StdOutput -> output flags <> FileOutput ->
  getWriter flags env kbom st = (Fail (ErrOutputNotSupported (output flags)), st).
Proof.
  intros Ho1 Ho2. unfold getWriter.
  apply String.eqb_neq in Ho1, Ho2. by rewrite Ho1, Ho2.
Qed.

Lemma getWriter_file (kbom : KBOM) (st : State) :
  output flags = FileOutput ->
  (8 <= String.length (KBOM_ID kbom))%nat ->
  getWriter flags env kbom st =
    match env_create_err env (target flags kbom) with
    | Some e => (Fail e, extend [EvCreate (target flags kbom)] st)
    | None =>
        (Done (Disk (target flags kbom)),
         create_file (target flags kbom) (extend [EvCreate (target flags kbom)] st))
    end.
Proof.
  intros Ho Hid. unfold getWriter. rewrite Ho. simpl String.eqb. cbv iota.
  unfold bind, slice_to. rewrite (slice_to_Some _ _ Hid). unfold ret.
  unfold os_Create.
  assert ((if 8 <? gostring.len (Cluster_CACertDigest (KBOM_Cluster kbom))
           then gostring.take 8 (Cluster_CACertDigest (KBOM_Cluster kbom))
           else gostring.take 8 (KBOM_ID kbom))
          = spec.fingerprint8 (Cluster_CACertDigest (KBOM_Cluster kbom)) (KBOM_ID kbom))
    as ->.
  { unfold spec.fingerprint8, gostring.len.
    destruct (Z.ltb_spec 8 (Z.of_nat (String.length (Cluster_CACertDigest (KBOM_Cluster kbom)))));
      destruct (Nat.ltb_spec 8 (String.length (Cluster_CACertDigest (KBOM_Cluster kbom))));
      (reflexivity || lia). }
  change (gopath.Join _) with (target flags kbom).
  by destruct (env_create_err env (target flags kbom)).
Qed.

(** With an id shorter than eight bytes the slice expression panics,
    before anything is created. *)
Lemma getWriter_file_short_id (kbom : KBOM) (st : State) :
  output flags = FileOutput ->
  (String.length (KBOM_ID kbom) < 8)%nat ->
  getWriter flags env kbom st = (Panic, st).
Proof.
  intros Ho Hid. unfold getWriter. rewrite Ho. simpl String.eqb. cbv iota.
  unfold bind, slice_to, gostring.slice_to.
  destruct (Nat.leb_spec 8 (String.length (KBOM_ID kbom))); [lia | done].
Qed.

(** What [getWriter] adds to the trace is at most one [os.Create]; it
    writes nothing, closes nothing, and leaves standard output alone. *)
Lemma getWriter_effects (kbom : KBOM) (st : State) :
  exists r st1 evs,
    getWriter flags env kbom st = (r, st1) /\
    st1 = match r with
          | Done (Disk name) => create_file name (extend evs st)
          | _ => extend evs st
          end /\
    (evs = [] \/ evs = [EvCreate (target flags kbom)]) /\
    match r with
    | Done Stdout => output flags = StdOutput /\ evs = []
    | Done (Disk name) =>
        output flags = FileOutput /\ name = target flags kbom /\ evs = [EvCreate name]
    | Fail _ => True
    | Panic => evs = []
    end.
Proof.
  destruct (String.eqb_spec (output flags) StdOutput) as [Ho|Ho].
  { rewrite (getWriter_stdout kbom st Ho).
    exists (Done Stdout), st, []. repeat split; auto.
    unfold extend; destruct st; simpl; by rewrite app_nil_r. }
  destruct (String.eqb_spec (output flags) FileOutput) as [Hf|Hf].
  - destruct (Nat.leb_spec 8 (String.length (KBOM_ID kbom))) as [Hid|Hid].
    + rewrite (getWriter_file kbom st Hf Hid).
      destruct (env_create_err env (target flags kbom)) as [e|];
        do 3 eexists; (split; [reflexivity|]); simpl; auto.
    + rewrite (getWriter_file_short_id kbom st Hf Hid).
      exists Panic, st, []. repeat split; auto.
      unfold extend; destruct st; simpl; by rewrite app_nil_r.
  - rewrite (getWriter_unsupported kbom st Ho Hf).
    do 2 eexists. exists []. repeat split; auto.
    unfold extend; destruct st; simpl; by rewrite app_nil_r.
Qed.

(** *** [printKBOM] *)

(** Without a sink, [printKBOM] stops where [getWriter] stopped. *)
Lemma printKBOM_no_sink_fail (kbom : KBOM) (st st1 : State) (e : error) :
  getWriter flags env kbom st = (Fail e, st1) ->
  printKBOM flags env kbom st = (Fail e, st1).
Proof. intros Hw. unfold printKBOM, bind. by rewrite Hw. Qed.

Lemma printKBOM_no_sink_panic (kbom : KBOM) (st st1 : State) :
  getWriter flags env kbom st = (Panic, st1) ->
  printKBOM flags env kbom st = (Panic, st1).
Proof. intros Hw. unfold printKBOM, bind. by rewrite Hw. Qed.

(** With a sink and a selector that is neither [json] nor [yaml], the
    sink is closed and the format error comes back. *)
Lemma printKBOM_unsupported_format (kbom : KBOM) (st st1 : State) (w : File) :
  getWriter flags env kbom st = (Done w, st1) ->
  format flags <> JSONFormat -> format flags <> YAMLFormat ->
  printKBOM flags env kbom st
  = (Fail (ErrFormatNotSupported (format flags)), close_file w st1).
Proof.
  intros Hw Hj Hy. unfold printKBOM, bind. rewrite Hw.
  apply String.eqb_neq in Hj, Hy. unfold defer. by rewrite Hj, Hy.
Qed.

(** With a sink and a supported selector: if the encoder fails, nothing is
    written; otherwise its text is handed to the sink in one [Write].
    Either way the sink is closed last. *)
Lemma printKBOM_supported (kbom : KBOM) (st st1 : State) (w : File) :
  getWriter flags env kbom st = (Done w, st1) ->
  format flags = JSONFormat \/ format flags = YAMLFormat ->
  printKBOM flags env kbom st =
    match marshal (format flags) kbom with
    | Err e => (Fail e, close_file w st1)
    | Ok bytes =>
        let '(r, st2) := File_Write env w bytes st1 in (r, close_file w st2)
    end.
Proof.
  intros Hw Hfmt. unfold printKBOM, bind. rewrite Hw. unfold defer, marshal.
  destruct Hfmt as [-> | ->]; simpl String.eqb; cbv iota;
    unfold json_Encode, yaml_Encode, bind, lift, File_Close.
  - destruct (json_Marshal "" "  " kbom) as [bytes|e]; simpl; [|done].
    by destruct (File_Write env w bytes st1).
  - destruct (yaml_Marshal kbom) as [bytes|e]; simpl; [|done].
    by destruct (File_Write env w bytes st1).
Qed.

(** One [Write]: one event; the sink written to takes a prefix [taken] of
    the bytes, all of them when the call succeeds; nothing else changes. *)
Lemma File_Write_effects (w : File) (bytes : string) (st : State) :
  exists r st' taken,
    File_Write env w bytes st = (r, st') /\
    st_trace st' = (st_trace st ++ [EvWrite w bytes])%list /\
    st_stdout_closed st' = st_stdout_closed st /\
    match w with
    | Stdout =>
        st_stdout st' = st_stdout st +:+ taken /\ st_files st' = st_files st
    | Disk name =>
        st_stdout st' = st_stdout st /\
        st_files st' = <[name := default "" (st_files st !! name) +:+ taken]> (st_files st)
    end /\
    (r = Done tt -> taken = bytes).
Proof.
  unfold File_Write.
  destruct w as [|name].
  - destruct (st_stdout_closed st) eqn:Hcl.
    + do 2 eexists. exists "". split; [reflexivity|]. simpl.
      repeat split; try done. by rewrite append_nil_r.
    + destruct (env_write_fault env Stdout) as [[limit e]|];
        [destruct (_ <=? _)%nat|];
        do 3 eexists; (split; [reflexivity|]); simpl;
        repeat split; first [reflexivity | done].
  - destruct (env_write_fault env (Disk name)) as [[limit e]|];
      [destruct (_ <=? _)%nat|];
      do 3 eexists; (split; [reflexivity|]); simpl;
      repeat split; first [reflexivity | done].
Qed.

Lemma File_Write_no_panic (w : File) (bytes : string) (st : State) :
  fst (File_Write env w bytes st) <> Panic.
Proof. unfold File_Write. repeat case_match; simpl; discriminate. Qed.

End Output.

(** ** Which call fails first *)

Section FirstFailure.
Context `{Schema}.
Variables (c : kube.Client) (full : bool).

Lemma first_failure_Some (s0 : Step) (e0 : error) :
  first_failure c full = Some (s0, e0) ->
  failure c full s0 = Some e0 /\
  forall s', (step_index s' < step_index s0)%nat -> failure c full s' = None.
Proof.
  unfold first_failure, first_failure_in, all_steps.
  destruct (failure c full StepMetadata) eqn:H0;
    [intros [= <- <-]; split; [done|]; intros [] ?; simpl in *; lia|].
  destruct (failure c full StepAllNodes) eqn:H1;
    [intros [= <- <-]; split; [done|]; intros [] ?; simpl in *; (done || lia)|].
  destruct (failure c full StepLocation) eqn:H2;
    [intros [= <- <-]; split; [done|]; intros [] ?; simpl in *; (done || lia)|].
  destruct (failure c full StepAllImages) eqn:H3;
    [intros [= <- <-]; split; [done|]; intros [] ?; simpl in *; (done || lia)|].
  destruct (failure c full StepAllResources) eqn:H4;
    [intros [= <- <-]; split; [done|]; intros [] ?; simpl in *; (done || lia)|].
  discriminate.
Qed.

Lemma first_failure_None :
  first_failure c full = None -> forall s, failure c full s = None.
Proof.
  unfold first_failure, first_failure_in, all_steps.
  destruct (failure c full StepMetadata) eqn:H0; [discriminate|].
  destruct (failure c full StepAllNodes) eqn:H1; [discriminate|].
  destruct (failure c full StepLocation) eqn:H2; [discriminate|].
  destruct (failure c full StepAllImages) eqn:H3; [discriminate|].
  destruct (failure c full StepAllResources) eqn:H4; [discriminate|].
  by intros _ [].
Qed.

(** If some call fails, there is a first call that fails, no later than
    it. *)
Lemma first_failure_exists (s : Step) (e : error) :
  failure c full s = Some e ->
  exists s0 e0, first_failure c full = Some (s0, e0) /\
    (step_index s0 <= step_index s)%nat.
Proof.
  intros Hs.
  destruct (first_failure c full) as [[s0 e0]|] eqn:Hf.
  - exists s0, e0. split; [done|].
    destruct (first_failure_Some s0 e0 Hf) as [_ Hbefore].
    destruct (Nat.le_gt_cases (step_index s0) (step_index s)) as [|Hlt]; [done|].
    specialize (Hbefore s Hlt). congruence.
  - rewrite (first_failure_None Hf s) in Hs. discriminate.
Qed.

Lemma step_index_inj (s s' : Step) : step_index s = step_index s' -> s = s'.
Proof. by destruct s, s'. Qed.

End FirstFailure.

Lemma events_since_extend (evs : list Event) (st : State) :
  events_since st (extend evs st) = evs.
Proof. unfold events_since, extend; simpl. by rewrite drop_app_length. Qed.

Lemma no_sink_event_in_calls (s : Step) :
  forallb (fun ev => negb (is_sink_event ev)) (EvNewClient :: calls_through s) = true.
Proof. by destruct s. Qed.

Lemma no_identity_event_in_calls (s : Step) :
  forallb (fun ev => negb (is_identity_event ev)) (EvNewClient :: calls_through s) = true.
Proof. by destruct s. Qed.

(** ** The assembler *)

(** C1.  For every document [runGenerate] produces, whatever the detail
    mode and however many nodes there are (none included), the
    [nodesCount] field equals the length of [nodes]; and [nodes] is the
    sequence the client returned for that mode. *)
Theorem nodesCount_is_len_nodes `{Schema} (build : config.Build) (flags : Flags)
    (env : Env) (st st' : State) (kbom : KBOM) :
  runGenerate_kbom build flags env st = (Done kbom, st') ->
  Cluster_NodesCount (KBOM_Cluster kbom)
  = Z.of_nat (length (Cluster_Nodes (KBOM_Cluster kbom))) /\
  exists c : kube.Client,
    env_NewClient env = Ok c /\
    kube.AllNodes c (negb (short flags)) = Ok (Cluster_Nodes (KBOM_Cluster kbom)).
Proof.
  intros Hrun.
  destruct (kbom_inv build flags env st st' kbom Hrun) as (c & Hc & _ & _ & Hpop & _).
  split; [apply (pop_NodesCount _ _ _ _ Hpop)|].
  exists c. split; [done|]. apply (pop_Nodes _ _ _ _ Hpop).
Qed.

Lemma nodesCount_is_len_nodes_witness :
  sample.kbom (sample.flags true StdOutput YAMLFormat) sample.env
  = (Done (sample.document true), extend assembly_events sample.st0) /\
  (Cluster_NodesCount (KBOM_Cluster (sample.document true))
   = Z.of_nat (length (Cluster_Nodes (KBOM_Cluster (sample.document true)))) /\
   exists c : kube.Client,
     env_NewClient sample.env = Ok c /\
     kube.AllNodes c (negb (short (sample.flags true StdOutput YAMLFormat)))
     = Ok (Cluster_Nodes (KBOM_Cluster (sample.document true)))).
Proof.
  split; [reflexivity|].
  apply (nodesCount_is_len_nodes sample.build (sample.flags true StdOutput YAMLFormat)
           sample.env sample.st0 (extend assembly_events sample.st0)).
  reflexivity.
Defined.

(** A run in which the document is not assembled ends where the assembly
    ended: [printKBOM] is not reached. *)
Lemma runGenerate_not_assembled `{Schema} `{!Codec} (build : config.Build)
    (flags : Flags) (env : Env) (st st' : State) (e : error) :
  runGenerate_kbom build flags env st = (Fail e, st') ->
  runGenerate build flags env st = (Fail e, st').
Proof. intros Hk. unfold runGenerate, bind. by rewrite Hk. Qed.

Lemma runGenerate_assembled `{Schema} `{!Codec} (build : config.Build)
    (flags : Flags) (env : Env) (st st' : State) (kbom : KBOM) :
  runGenerate_kbom build flags env st = (Done kbom, st') ->
  runGenerate build flags env st = printKBOM flags env kbom st'.
Proof. intros Hk. unfold runGenerate, bind. by rewrite Hk. Qed.

(** C2.  If any of the five collection calls fails, the run returns the
    error of the first call that fails (that very call when the ones
    before it succeed), and it does so before any sink is touched:
    standard output holds the same bytes and stays as open as it was, the
    files on disk are the same, and the only events of the run are the
    client's creation and the collection calls made so far; no id, no time
    stamp, no [os.Create], no [Write], no [Close]. *)
Theorem collection_failure_touches_no_sink `{Schema} `{!Codec}
    (build : config.Build) (flags : Flags) (env : Env) (c : kube.Client)
    (s : Step) (e : error) (st : State) :
  env_NewClient env = Ok c ->
  failure c (negb (short flags)) s = Some e ->
  exists (s0 : Step) (e0 : error) (st' : State),
    first_failure c (negb (short flags)) = Some (s0, e0) /\
    (step_index s0 <= step_index s)%nat /\
    ((forall s', (step_index s' < step_index s)%nat ->
        failure c (negb (short flags)) s' = None) -> s0 = s /\ e0 = e) /\
    runGenerate build flags env st = (Fail e0, st') /\
    sinks_untouched st st' /\
    events_since st st' = EvNewClient :: calls_through s0 /\
    forallb (fun ev => negb (is_sink_event ev)) (events_since st st') = true /\
    writes (events_since st st') = [].
Proof.
  intros Hc Hs.
  destruct (first_failure_exists c _ s e Hs) as (s0 & e0 & Hf & Hle).
  exists s0, e0, (extend (EvNewClient :: calls_through s0) st).
  destruct (first_failure_Some c _ s0 e0 Hf) as [Hs0 Hbefore].
  split; [done|]. split; [done|]. split.
  { intros Hfirst.
    assert (s0 = s) as ->.
    { apply step_index_inj.
      destruct (Nat.eq_dec (step_index s0) (step_index s)) as [|Hne]; [done|].
      assert (step_index s0 < step_index s)%nat as Hlt by lia.
      specialize (Hfirst s0 Hlt). congruence. }
    split; [done | congruence]. }
  split.
  { apply runGenerate_not_assembled.
    by apply (kbom_collection_fails build flags env c). }
  split; [apply extend_untouched|].
  rewrite events_since_extend.
  split; [done|]. split; [apply no_sink_event_in_calls | by destruct s0].
Qed.

Lemma collection_failure_touches_no_sink_witness :
  env_NewClient (sample.env_with (Ok (sample.client_failing_at StepLocation)) sample.clock)
  = Ok (sample.client_failing_at StepLocation) /\
  failure (sample.client_failing_at StepLocation) (negb false) StepLocation
  = Some sample.refused /\
  exists (s0 : Step) (e0 : error) (st' : State),
    first_failure (sample.client_failing_at StepLocation) (negb false) = Some (s0, e0) /\
    (step_index s0 <= step_index StepLocation)%nat /\
    ((forall s', (step_index s' < step_index StepLocation)%nat ->
        failure (sample.client_failing_at StepLocation) (negb false) s' = None) ->
     s0 = StepLocation /\ e0 = sample.refused) /\
    sample.run (sample.flags false FileOutput JSONFormat)
      (sample.env_with (Ok (sample.client_failing_at StepLocation)) sample.clock)
    = (Fail e0, st') /\
    sinks_untouched sample.st0 st' /\
    events_since sample.st0 st' = EvNewClient :: calls_through s0 /\
    forallb (fun ev => negb (is_sink_event ev)) (events_since sample.st0 st') = true /\
    writes (events_since sample.st0 st') = [].
Proof.
  split; [reflexivity|]. split; [reflexivity|].
  apply (@collection_failure_touches_no_sink sample.schema sample.codec sample.build
           (sample.flags false FileOutput JSONFormat)
           (sample.env_with (Ok (sample.client_failing_at StepLocation)) sample.clock)
           (sample.client_failing_at StepLocation) StepLocation sample.refused sample.st0);
    reflexivity.
Defined.

(** C7, as the code has it.  When a collection call fails, the error the
    run returns is the error value the client returned for the first
    failing call, as it is: nothing is wrapped around it and no step is
    named.  The calls after the failing one are not made. *)
Theorem collection_error_surfaces_unchanged `{Schema} `{!Codec}
    (build : config.Build) (flags : Flags) (env : Env) (c : kube.Client)
    (s : Step) (cause : error) (st : State) :
  env_NewClient env = Ok c ->
  first_failure c (negb (short flags)) = Some (s, cause) ->
  failure c (negb (short flags)) s = Some cause /\
  exists st' : State,
    runGenerate build flags env st = (Fail cause, st') /\
    events_since st st' = EvNewClient :: calls_through s.
Proof.
  intros Hc Hf.
  split; [by destruct (first_failure_Some c _ s cause Hf)|].
  exists (extend (EvNewClient :: calls_through s) st).
  split; [|apply events_since_extend].
  apply runGenerate_not_assembled.
  by apply (kbom_collection_fails build flags env c).
Qed.

Lemma collection_error_surfaces_unchanged_witness :
  env_NewClient (sample.env_with (Ok (sample.client_failing_at StepAllImages)) sample.clock)
  = Ok (sample.client_failing_at StepAllImages) /\
  first_failure (sample.client_failing_at StepAllImages) (negb true)
  = Some (StepAllImages, sample.refused) /\
  failure (sample.client_failing_at StepAllImages) (negb true) StepAllImages
  = Some sample.refused /\
  exists st' : State,
    sample.run (sample.flags true StdOutput JSONFormat)
      (sample.env_with (Ok (sample.client_failing_at StepAllImages)) sample.clock)
    = (Fail sample.refused, st') /\
    events_since sample.st0 st' = EvNewClient :: calls_through StepAllImages.
Proof.
  split; [reflexivity|]. split; [reflexivity|].
  apply (@collection_error_surfaces_unchanged sample.schema sample.codec sample.build
           (sample.flags true StdOutput JSONFormat)
           (sample.env_with (Ok (sample.client_failing_at StepAllImages)) sample.clock)
           (sample.client_failing_at StepAllImages) StepAllImages sample.refused sample.st0);
    reflexivity.
Defined.

(** C7, as stated, fails: the run on a cluster whose [Metadata] call is
    refused and the run on a cluster whose [AllResources] call is refused
    return one and the same error, so no reading of the error can tell the
    step. *)
Lemma surfaced_error_names_no_step :
  fst (sample.run (sample.flags false StdOutput JSONFormat)
         (sample.env_with (Ok (sample.client_failing_at StepMetadata)) sample.clock))
  = Fail sample.refused /\
  fst (sample.run (sample.flags false StdOutput JSONFormat)
         (sample.env_with (Ok (sample.client_failing_at StepAllResources)) sample.clock))
  = Fail sample.refused /\
  ~ @surfaced_error_names_step sample.schema sample.codec sample.build
      (sample.flags false StdOutput JSONFormat).
Proof.
  split; [reflexivity|]. split; [reflexivity|].
  intros [step_named Hnames].
  pose proof (Hnames
    (sample.env_with (Ok (sample.client_failing_at StepMetadata)) sample.clock)
    (sample.client_failing_at StepMetadata) StepMetadata sample.refused sample.refused
    sample.st0 _ eq_refl eq_refl eq_refl) as H1.
  pose proof (Hnames
    (sample.env_with (Ok (sample.client_failing_at StepAllResources)) sample.clock)
    (sample.client_failing_at StepAllResources) StepAllResources sample.refused
    sample.refused sample.st0 _ eq_refl eq_refl eq_refl) as H2.
  congruence.
Qed.

(** ** Order of events *)

Lemma all_before_no_first (p q : Event -> bool) (tr : list Event) :
  forallb (fun ev => negb (p ev)) tr = true -> all_before p q tr.
Proof.
  intros Hno i j a b Hi _ Hp _.
  rewrite forallb_forall in Hno.
  assert (In a tr) as Ha by (apply list_elem_of_In, list_elem_of_lookup; eauto).
  specialize (Hno a Ha). rewrite Hp in Hno. discriminate.
Qed.

Lemma all_before_no_second (p q : Event -> bool) (tr : list Event) :
  forallb (fun ev => negb (q ev)) tr = true -> all_before p q tr.
Proof.
  intros Hno i j a b _ Hj _ Hq.
  rewrite forallb_forall in Hno.
  assert (In b tr) as Hb by (apply list_elem_of_In, list_elem_of_lookup; eauto).
  specialize (Hno b Hb). rewrite Hq in Hno. discriminate.
Qed.

(** Two stretches that each keep the order, the second of which holds no
    event of the first kind, keep it together. *)
Lemma all_before_app (p q : Event -> bool) (tr1 tr2 : list Event) :
  all_before p q tr1 ->
  forallb (fun ev => negb (p ev)) tr2 = true ->
  all_before p q (tr1 ++ tr2).
Proof.
  intros H1 Hno i j a b Hi Hj Hp Hq.
  rewrite forallb_forall in Hno.
  apply lookup_app_Some in Hi as [Hi | [Hge Hi]].
  - apply lookup_app_Some in Hj as [Hj | [Hgej _]].
    + exact (H1 i j a b Hi Hj Hp Hq).
    + apply lookup_lt_Some in Hi. lia.
  - assert (In a tr2) as Ha by (apply list_elem_of_In, list_elem_of_lookup; eauto).
    specialize (Hno a Ha). rewrite Hp in Hno. discriminate.
Qed.

Lemma sink_events_not_identity (evs : list Event) :
  forallb is_sink_event evs = true ->
  forallb (fun ev => negb (is_identity_event ev)) evs = true.
Proof.
  rewrite !forallb_forall. intros Hs ev Hev. specialize (Hs ev Hev). by destruct ev.
Qed.

Lemma sink_events_not_collect (evs : list Event) :
  forallb is_sink_event evs = true ->
  forallb (fun ev => negb (is_collect_event ev)) evs = true.
Proof.
  rewrite !forallb_forall. intros Hs ev Hev. specialize (Hs ev Hev). by destruct ev.
Qed.

Lemma st_trace_close_file (w : File) (st : State) :
  st_trace (close_file w st) = (st_trace st ++ [EvClose w])%list.
Proof. by destruct w. Qed.

Section OutputEvents.
Context `{Schema} `{!Codec}.
Variable flags : Flags.
Variable env : Env.

(** Whatever [getWriter] does, its events are sink events. *)
Lemma getWriter_events (kbom : KBOM) (st : State) :
  exists r st1 evs,
    getWriter flags env kbom st = (r, st1) /\
    st_trace st1 = (st_trace st ++ evs)%list /\
    st_stdout st1 = st_stdout st /\
    st_stdout_closed st1 = st_stdout_closed st /\
    forallb is_sink_event evs = true /\
    writes evs = [].
Proof.
  destruct (getWriter_effects flags env kbom st) as (r & st1 & evs & Hw & -> & Hevs & _).
  do 2 eexists. exists evs. split; [exact Hw|].
  destruct Hevs as [-> | ->]; destruct r as [[|name]| |]; by repeat split.
Qed.

(** Whatever [printKBOM] does, its events are sink events. *)
Lemma printKBOM_events (kbom : KBOM) (st : State) :
  exists r st' evs,
    printKBOM flags env kbom st = (r, st') /\
    st_trace st' = (st_trace st ++ evs)%list /\
    forallb is_sink_event evs = true.
Proof.
  destruct (getWriter_events kbom st) as (r & st1 & evs & Hw & Htr & _ & _ & Hsink & _).
  destruct r as [w|e|].
  - destruct (String.eqb_spec (format flags) JSONFormat) as [Hj|Hj];
      [|destruct (String.eqb_spec (format flags) YAMLFormat) as [Hy|Hy]].
    1,2: rewrite (printKBOM_supported flags env kbom st st1 w Hw) by auto;
      match goal with |- context [match ?m with Ok _ => _ | Err _ => _ end] =>
        destruct m as [bytes|e] end;
      [ destruct (File_Write_effects env w bytes st1)
          as (r & st2 & taken & -> & Htr2 & _);
        exists r, (close_file w st2), (evs ++ [EvWrite w bytes; EvClose w])%list
      | exists (Fail e), (close_file w st1), (evs ++ [EvClose w])%list ];
      (split; [reflexivity|]);
      rewrite st_trace_close_file, ?Htr2, Htr, <- ?app_assoc;
      (split; [reflexivity|]);
      rewrite forallb_app, Hsink; reflexivity.
    rewrite (printKBOM_unsupported_format flags env kbom st st1 w Hw Hj Hy).
    exists (Fail (ErrFormatNotSupported (format flags))), (close_file w st1),
      (evs ++ [EvClose w])%list.
    split; [reflexivity|].
    rewrite st_trace_close_file, Htr, <- app_assoc. split; [reflexivity|].
    rewrite forallb_app, Hsink. reflexivity.
  - rewrite (printKBOM_no_sink_fail flags env kbom st st1 e Hw). by exists (Fail e), st1, evs.
  - rewrite (printKBOM_no_sink_panic flags env kbom st st1 Hw). by exists Panic, st1, evs.
Qed.

End OutputEvents.

Lemma events_since_app (st st' : State) (evs : list Event) :
  st_trace st' = (st_trace st ++ evs)%list -> events_since st st' = evs.
Proof. intros Htr. unfold events_since. rewrite Htr. by rewrite drop_app_length. Qed.

(** C3, as the code has it.  The id is drawn and the time stamp is read
    only once all five collection calls have returned successfully, when
    the document is built, and before any sink is touched: every
    collection call of a run comes before the id and the stamp, and these
    come before every sink event.  The stamp is thus the reading of the
    clock after the collection; and a run in which a call fails draws no id
    and reads no clock. *)
Theorem identity_fixed_after_collection `{Schema} `{!Codec}
    (build : config.Build) (flags : Flags) (env : Env) (st : State) :
  exists (r : outcome unit) (st' : State),
    runGenerate build flags env st = (r, st') /\
    all_before is_collect_event is_identity_event (events_since st st') /\
    all_before is_identity_event is_sink_event (events_since st st') /\
    (forall (kbom : KBOM) (st1 : State),
        runGenerate_kbom build flags env st = (Done kbom, st1) ->
        KBOM_ID kbom = uuid.String_ (env_uuid env) /\
        KBOM_GeneratedAt kbom = env_clock env (length (st_trace st) + 7) /\
        exists sink_evs,
          events_since st st' = (assembly_events ++ sink_evs)%list /\
          forallb is_sink_event sink_evs = true) /\
    (forall (e : error) (st1 : State),
        runGenerate_kbom build flags env st = (Fail e, st1) ->
        r = Fail e /\
        forallb (fun ev => negb (is_identity_event ev)) (events_since st st') = true).
Proof.
  destruct (kbom_cases build flags env st)
    as [(e & _ & Hk)|[(c & s & e & _ & _ & Hk)|(c & kbom & _ & _ & Hk & _ & Hid & Hat)]].
  - (* no client *)
    exists (Fail e), (extend [EvNewClient] st).
    rewrite (runGenerate_not_assembled _ _ _ _ _ _ Hk), events_since_extend.
    split; [done|].
    split; [by apply all_before_no_second|]. split; [by apply all_before_no_first|].
    split; intros ? ? Hk'; rewrite Hk in Hk'; [discriminate|].
    by injection Hk' as <- <-.
  - (* a collection call fails *)
    exists (Fail e), (extend (EvNewClient :: calls_through s) st).
    rewrite (runGenerate_not_assembled _ _ _ _ _ _ Hk), events_since_extend.
    split; [done|].
    split; [apply all_before_no_second, no_identity_event_in_calls|].
    split; [apply all_before_no_first, no_identity_event_in_calls|].
    split; intros ? ? Hk'; rewrite Hk in Hk'; [discriminate|].
    injection Hk' as <- <-. split; [done | apply no_identity_event_in_calls].
  - (* the document is assembled and printed *)
    destruct (printKBOM_events flags env kbom (extend assembly_events st))
      as (r & st' & evs & Hp & Htr & Hsink).
    exists r, st'.
    rewrite (runGenerate_assembled _ _ _ _ _ _ Hk).
    assert (events_since st st' = (assembly_events ++ evs)%list) as ->.
    { apply events_since_app. rewrite Htr. simpl. by rewrite <- app_assoc. }
    split; [done|].
    split.
    { apply all_before_app; [by apply all_beforeb_correct|].
      by apply sink_events_not_collect. }
    split.
    { apply all_before_app; [by apply all_before_no_second|].
      by apply sink_events_not_identity. }
    split; intros ? ? Hk'; rewrite Hk in Hk'; [|discriminate].
    injection Hk' as <- <-. eauto.
Qed.

(** C3, as stated, fails.  On the sample cluster the id and the stamp do
    not come before the collection calls; and with the same answers and
    the same clock reading at the start of the run, a slower collection
    gives another stamp. *)
Lemma identity_not_fixed_before_collection :
  ~ all_before is_identity_event is_collect_event
      (events_since sample.st0
         (snd (sample.run (sample.flags false StdOutput JSONFormat) sample.env))) /\
  sample.clock 0 = sample.slow_clock 0 /\
  (exists k1 k2 : @KBOM sample.schema,
      fst (sample.kbom (sample.flags false StdOutput JSONFormat)
             (sample.env_with (Ok sample.client) sample.clock)) = Done k1 /\
      fst (sample.kbom (sample.flags false StdOutput JSONFormat)
             (sample.env_with (Ok sample.client) sample.slow_clock)) = Done k2 /\
      KBOM_GeneratedAt k1 <> KBOM_GeneratedAt k2).
Proof.
  split.
  { intros Hbefore. apply all_before_complete in Hbefore.
    vm_compute in Hbefore. discriminate. }
  split; [reflexivity|].
  do 2 eexists. split; [reflexivity|]. split; [reflexivity|].
  simpl. discriminate.
Qed.

(** ** The output router and the serializer *)

Lemma st_files_close_file (w : File) (st : State) :
  st_files (close_file w st) = st_files st.
Proof. by destruct w. Qed.

Lemma st_stdout_close_file (w : File) (st : State) :
  st_stdout (close_file w st) = st_stdout st.
Proof. by destruct w. Qed.

Lemma target_stem `{Schema} (flags : Flags) (kbom : KBOM) :
  target flags kbom
  = gopath.Join [outPath flags; file_stem kbom +:+ "." +:+ format flags].
Proof.
  unfold target, Sprintf_kbom, file_stem. by rewrite !append_assoc.
Qed.

(** C9.  If the output target is neither [stdout] nor [file], [getWriter]
    returns the unsupported-output error without creating anything, and
    so does [printKBOM]; a run creates no file and touches no sink, and
    when its document is assembled it ends with that error. *)
Theorem unsupported_output_creates_no_file `{Schema} `{!Codec}
    (build : config.Build) (flags : Flags) (env : Env) (kbom : KBOM) (st : State) :
  output flags <> StdOutput ->
  output flags <> FileOutput ->
  getWriter flags env kbom st = (Fail (ErrOutputNotSupported (output flags)), st) /\
  printKBOM flags env kbom st = (Fail (ErrOutputNotSupported (output flags)), st) /\
  exists (r : outcome unit) (st' : State),
    runGenerate build flags env st = (r, st') /\
    sinks_untouched st st' /\
    forallb (fun ev => negb (is_sink_event ev)) (events_since st st') = true /\
    (forall (kbom' : KBOM) (st1 : State),
        runGenerate_kbom build flags env st = (Done kbom', st1) ->
        r = Fail (ErrOutputNotSupported (output flags))).
Proof.
  intros Ho1 Ho2.
  assert (forall k s, getWriter flags env k s
                      = (Fail (ErrOutputNotSupported (output flags)), s)) as Hw
    by (intros; by apply getWriter_unsupported).
  assert (forall k s, printKBOM flags env k s
                      = (Fail (ErrOutputNotSupported (output flags)), s)) as Hp
    by (intros; by apply printKBOM_no_sink_fail).
  split; [apply Hw|]. split; [apply Hp|].
  destruct (kbom_cases build flags env st)
    as [(e & _ & Hk)|[(c & s & e & _ & _ & Hk)|(c & kbom' & _ & _ & Hk & _)]].
  - exists (Fail e), (extend [EvNewClient] st).
    rewrite (runGenerate_not_assembled _ _ _ _ _ _ Hk), events_since_extend.
    repeat split; auto. intros ? ? Hk'. rewrite Hk in Hk'. discriminate.
  - exists (Fail e), (extend (EvNewClient :: calls_through s) st).
    rewrite (runGenerate_not_assembled _ _ _ _ _ _ Hk), events_since_extend.
    repeat split; auto using no_sink_event_in_calls.
    intros ? ? Hk'. rewrite Hk in Hk'. discriminate.
  - exists (Fail (ErrOutputNotSupported (output flags))), (extend assembly_events st).
    rewrite (runGenerate_assembled _ _ _ _ _ _ Hk), Hp, events_since_extend.
    repeat split; auto.
Qed.

Lemma unsupported_output_creates_no_file_witness :
  output (sample.flags false "s3" JSONFormat) <> StdOutput /\
  output (sample.flags false "s3" JSONFormat) <> FileOutput /\
  getWriter (sample.flags false "s3" JSONFormat) sample.env (sample.document false) sample.st0
  = (Fail (ErrOutputNotSupported "s3"), sample.st0) /\
  @printKBOM sample.schema sample.codec (sample.flags false "s3" JSONFormat) sample.env
    (sample.document false) sample.st0
  = (Fail (ErrOutputNotSupported "s3"), sample.st0) /\
  exists (r : outcome unit) (st' : State),
    sample.run (sample.flags false "s3" JSONFormat) sample.env = (r, st') /\
    sinks_untouched sample.st0 st' /\
    forallb (fun ev => negb (is_sink_event ev)) (events_since sample.st0 st') = true /\
    (forall (kbom' : KBOM) (st1 : State),
        sample.kbom (sample.flags false "s3" JSONFormat) sample.env = (Done kbom', st1) ->
        r = Fail (ErrOutputNotSupported "s3")).
Proof.
  split; [discriminate|]. split; [discriminate|].
  apply (@unsupported_output_creates_no_file sample.schema sample.codec sample.build
           (sample.flags false "s3" JSONFormat) sample.env (sample.document false)
           sample.st0); discriminate.
Defined.

(** C4.  If the format selector is neither [json] nor [yaml], [printKBOM]
    hands no bytes to any sink: standard output is as it was and a file
    is either as it was or empty.  Once it has its sink it fails with the
    unsupported-format error.  In file mode the file is created before the
    selector is looked at: when [os.Create] succeeds, the run of
    [printKBOM] consists of that creation and the closing of the file, the
    file is left empty, and the format error is returned; when
    [os.Create] fails, its error is returned and the disk is unchanged. *)
Theorem unsupported_format_writes_nothing `{Schema} `{!Codec}
    (flags : Flags) (env : Env) (kbom : KBOM) (st : State) :
  format flags <> JSONFormat ->
  format flags <> YAMLFormat ->
  exists (r : outcome unit) (st' : State),
    printKBOM flags env kbom st = (r, st') /\
    writes (events_since st st') = [] /\
    st_stdout st' = st_stdout st /\
    (forall name : string,
        st_files st' !! name = st_files st !! name \/ st_files st' !! name = Some "") /\
    (output flags = StdOutput ->
       r = Fail (ErrFormatNotSupported (format flags)) /\ st_files st' = st_files st) /\
    (output flags = FileOutput ->
     (8 <= String.length (KBOM_ID kbom))%nat ->
       match env_create_err env (target flags kbom) with
       | None =>
           r = Fail (ErrFormatNotSupported (format flags)) /\
           st_files st' = <[target flags kbom := ""]> (st_files st) /\
           events_since st st'
           = [EvCreate (target flags kbom); EvClose (Disk (target flags kbom))]
       | Some e =>
           r = Fail e /\
           st_files st' = st_files st /\
           events_since st st' = [EvCreate (target flags kbom)]
       end).
Proof.
  intros Hj Hy.
  destruct (String.eqb_spec (output flags) StdOutput) as [Ho|Ho].
  { (* standard output *)
    pose proof (getWriter_stdout flags env kbom st Ho) as Hw.
    rewrite (printKBOM_unsupported_format flags env kbom st st Stdout Hw Hj Hy).
    do 2 eexists. split; [reflexivity|].
    rewrite (events_since_app st _ [EvClose Stdout]) by reflexivity.
    repeat split; auto.
    intros Hf. rewrite Ho in Hf. discriminate. }
  destruct (String.eqb_spec (output flags) FileOutput) as [Hf|Hf].
  - destruct (Nat.leb_spec 8 (String.length (KBOM_ID kbom))) as [Hid|Hid].
    + pose proof (getWriter_file flags env kbom st Hf Hid) as Hw.
      destruct (env_create_err env (target flags kbom)) as [e|] eqn:Hcreate.
      * rewrite (printKBOM_no_sink_fail flags env kbom st _ e Hw).
        do 2 eexists. split; [reflexivity|]. rewrite events_since_extend.
        repeat split; auto; congruence.
      * rewrite (printKBOM_unsupported_format flags env kbom st _ _ Hw Hj Hy).
        do 2 eexists. split; [reflexivity|].
        rewrite (events_since_app st _
                   [EvCreate (target flags kbom); EvClose (Disk (target flags kbom))])
          by (simpl; by rewrite <- app_assoc).
        split; [done|]. split; [done|]. split.
        { intros name. simpl.
          destruct (decide (target flags kbom = name)) as [->|Hne].
          - right. apply lookup_insert_eq.
          - left. by apply lookup_insert_ne. }
        split; [intros; congruence | done].
    + rewrite (printKBOM_no_sink_panic flags env kbom st st
                 (getWriter_file_short_id flags env kbom st Hf Hid)).
      do 2 eexists. split; [reflexivity|].
      rewrite (events_since_app st st []) by (by rewrite app_nil_r).
      repeat split; auto; try congruence; intros; lia.
  - rewrite (printKBOM_no_sink_fail flags env kbom st st _
               (getWriter_unsupported flags env kbom st Ho Hf)).
    do 2 eexists. split; [reflexivity|].
    rewrite (events_since_app st st []) by (by rewrite app_nil_r).
    repeat split; auto; intros; congruence.
Qed.

Lemma unsupported_format_writes_nothing_witness :
  format (sample.flags true FileOutput "xml") <> JSONFormat /\
  format (sample.flags true FileOutput "xml") <> YAMLFormat /\
  exists st' : State,
    @printKBOM sample.schema sample.codec (sample.flags true FileOutput "xml")
      sample.env (sample.document true) sample.st0
    = (Fail (ErrFormatNotSupported "xml"), st') /\
    writes (events_since sample.st0 st') = [] /\
    st_stdout st' = "" /\
    st_files st' = {[ "out/kbom-abcdef12-2024-01-02-03-04-05.xml" := "" ]}.
Proof.
  split; [discriminate|]. split; [discriminate|].
  destruct (@unsupported_format_writes_nothing sample.schema sample.codec
              (sample.flags true FileOutput "xml") sample.env (sample.document true)
              sample.st0)
    as (r & st' & Hrun & Hwrites & Hout & _ & _ & Hfile); [discriminate..|].
  specialize (Hfile eq_refl).
  destruct Hfile as (-> & Hfiles & _); [simpl; lia|].
  exists st'. repeat split; assumption.
Defined.

(** ** Joining a file name to a directory *)

Section Join.
Import gopath.

Lemma at_boundary_app (rest more : list ascii) :
  at_boundary more = true -> at_boundary (rest ++ more) = at_boundary rest.
Proof. by destruct rest. Qed.

Lemma span_elem_length (rest : list ascii) :
  (length (snd (span_elem rest)) <= length rest)%nat.
Proof.
  induction rest as [|c rest IH]; simpl; [lia|].
  destruct (is_sep c); simpl; [lia|].
  destruct (span_elem rest) as [e r]. simpl in *. lia.
Qed.

Lemma span_elem_app (rest more : list ascii) :
  at_boundary more = true ->
  span_elem (rest ++ more)
  = (fst (span_elem rest), (snd (span_elem rest) ++ more)%list).
Proof.
  intros Hmore. induction rest as [|c rest IH]; simpl.
  - destruct more as [|c more]; [done|]. unfold at_boundary in Hmore.
    cbn [span_elem]. by rewrite Hmore.
  - destruct (is_sep c); [done|].
    rewrite IH. by destruct (span_elem rest).
Qed.

Lemma span_elem_no_sep (name : list ascii) :
  forallb (fun b => negb (is_sep b)) name = true -> span_elem name = (name, []).
Proof.
  induction name as [|c name IH]; simpl; [done|].
  intros [Hc Hname]%andb_prop. apply negb_true_iff in Hc. rewrite Hc.
  by rewrite (IH Hname).
Qed.

Lemma span_elem_cons (c : ascii) (rest : list ascii) :
  is_sep c = false ->
  span_elem (c :: rest) = (c :: fst (span_elem rest), snd (span_elem rest)).
Proof. intros Hc. simpl. rewrite Hc. by destruct (span_elem rest). Qed.

(** A round reads at least the byte it looks at. *)
Lemma clean_round_shrinks (rooted : bool) (c : ascii) (rest1 out : list ascii) (dd : nat) :
  (length (fst (fst (clean_round rooted c rest1 out dd))) <= length rest1)%nat.
Proof.
  unfold clean_round.
  destruct (is_sep c) eqn:Hsep; [simpl; lia|].
  destruct (is_dot c && at_boundary rest1); [simpl; lia|].
  destruct (is_dot c && _).
  - assert (length (tl rest1) <= length rest1)%nat by (destruct rest1; simpl; lia).
    repeat case_match; simpl; lia.
  - rewrite (span_elem_cons c rest1 Hsep). simpl. apply span_elem_length.
Qed.

(** Fuel beyond the length of the input changes nothing. *)
Lemma clean_loop_fuel (fuel1 fuel2 : nat) (rooted : bool) (rest out : list ascii) (dd : nat) :
  (length rest <= fuel1)%nat -> (length rest <= fuel2)%nat ->
  clean_loop fuel1 rooted rest out dd = clean_loop fuel2 rooted rest out dd.
Proof.
  revert fuel2 rest out dd.
  induction fuel1 as [|fuel1 IH]; intros fuel2 rest out dd H1 H2.
  - destruct rest; simpl in *; [by destruct fuel2 | lia].
  - destruct rest as [|c rest1]; [by destruct fuel2|].
    destruct fuel2 as [|fuel2]; simpl in *; [lia|].
    pose proof (clean_round_shrinks rooted c rest1 out dd).
    destruct (clean_round rooted c rest1 out dd) as [[rest' out'] dd']. simpl in *.
    apply IH; lia.
Qed.

(** A round on an input followed by a separator (or by nothing) is the
    round on the input alone. *)
Lemma clean_round_app (rooted : bool) (c : ascii) (rest1 more out : list ascii) (dd : nat) :
  at_boundary more = true ->
  clean_round rooted c (rest1 ++ more) out dd
  = let '(rest', out', dd') := clean_round rooted c rest1 out dd in
    ((rest' ++ more)%list, out', dd').
Proof.
  intros Hmore. unfold clean_round.
  destruct (is_sep c) eqn:Hsep; [done|].
  rewrite (at_boundary_app rest1 more Hmore).
  destruct (is_dot c && at_boundary rest1); [done|].
  assert (match (rest1 ++ more)%list with
          | c2 :: rest2 => is_dot c2 && at_boundary rest2
          | [] => false
          end
          = match rest1 with
            | c2 :: rest2 => is_dot c2 && at_boundary rest2
            | [] => false
            end) as ->.
  { destruct rest1 as [|c2 rest2]; simpl.
    - destruct more as [|m more]; [done|]. simpl in Hmore.
      unfold is_sep, is_dot in *. apply Ascii.eqb_eq in Hmore as ->. done.
    - by rewrite (at_boundary_app rest2 more Hmore). }
  destruct (is_dot c && _) eqn:Hdd.
  - assert (tl (rest1 ++ more) = (tl rest1 ++ more)%list) as ->.
    { destruct rest1; [|done]. rewrite andb_false_r in Hdd. discriminate. }
    by repeat case_match.
  - change (c :: rest1 ++ more)%list with ((c :: rest1) ++ more)%list.
    rewrite (span_elem_app (c :: rest1) more Hmore).
    by destruct (span_elem (c :: rest1)).
Qed.

(** The loop on an input followed by a separator and more input is the
    loop on the input, carried on over the rest. *)
Lemma clean_loop_app (fuel : nat) (rooted : bool) (rest more out : list ascii) (dd : nat) :
  at_boundary more = true ->
  (length rest <= fuel)%nat ->
  clean_loop (fuel + length more) rooted (rest ++ more) out dd
  = let '(o, d) := clean_loop fuel rooted rest out dd in
    clean_loop (length more) rooted more o d.
Proof.
  intros Hmore. revert rest out dd.
  induction fuel as [|fuel IH]; intros rest out dd Hfuel.
  - destruct rest; simpl in *; [done | lia].
  - destruct rest as [|c rest1].
    + simpl app. simpl clean_loop at 2. apply clean_loop_fuel; lia.
    + simpl. rewrite (clean_round_app rooted c rest1 more out dd Hmore).
      pose proof (clean_round_shrinks rooted c rest1 out dd).
      destruct (clean_round rooted c rest1 out dd) as [[rest' out'] dd']. simpl in *.
      apply IH. lia.
Qed.

(** A plain name is copied as it is, after a separator if one is needed. *)
Lemma clean_loop_plain (fuel : nat) (rooted : bool) (c : ascii) (name out : list ascii)
    (dd : nat) :
  is_dot c = false ->
  forallb (fun b => negb (is_sep b)) (c :: name) = true ->
  clean_loop (S fuel) rooted (c :: name) out dd
  = ((rev (c :: name) ++ with_sep rooted out)%list, dd).
Proof.
  intros Hdot Hname.
  pose proof Hname as [Hc _]%andb_prop. apply negb_true_iff in Hc.
  simpl clean_loop. unfold clean_round. rewrite Hc, Hdot. simpl andb. cbv iota.
  rewrite (span_elem_no_sep _ Hname).
  by destruct fuel.
Qed.

(** The loop on an input followed by a separator and a plain name: the
    name is copied after what the input gives. *)
Lemma clean_loop_dir_name (n : nat) (rooted : bool) (rest : list ascii) (c : ascii)
    (name out : list ascii) (dd : nat) :
  (length rest <= n)%nat ->
  is_dot c = false ->
  forallb (fun b => negb (is_sep b)) (c :: name) = true ->
  fst (clean_loop (n + length ("/"%char :: c :: name)) rooted
         (rest ++ "/"%char :: c :: name) out dd)
  = (rev (c :: name) ++ with_sep rooted (fst (clean_loop n rooted rest out dd)))%list.
Proof.
  intros Hn Hdot Hname.
  rewrite (clean_loop_app n rooted rest ("/"%char :: c :: name) out dd eq_refl Hn).
  destruct (clean_loop n rooted rest out dd) as [o d].
  change (clean_loop (length ("/"%char :: c :: name)) rooted ("/"%char :: c :: name) o d)
    with (clean_loop (S (length name)) rooted (c :: name) o d).
  by rewrite (clean_loop_plain (length name) rooted c name o d Hdot Hname).
Qed.

Lemma clean_out_cons (d0 : ascii) (rest : list ascii) :
  clean_out (d0 :: rest)
  = if is_sep d0
    then fst (clean_loop (S (length rest)) true rest ["/"%char] 1)
    else fst (clean_loop (S (length rest)) false (d0 :: rest) [] 0).
Proof. reflexivity. Qed.

(** Cleaning a directory followed by a separator and a plain name: the
    directory is cleaned, and the name is copied after it. *)
Lemma clean_out_dir_name (dir : list ascii) (c : ascii) (name : list ascii) :
  dir <> [] ->
  is_dot c = false ->
  forallb (fun b => negb (is_sep b)) (c :: name) = true ->
  clean_out (dir ++ "/"%char :: c :: name)
  = (rev (c :: name) ++ with_sep (is_rooted dir) (clean_out dir))%list.
Proof.
  intros Hdir Hdot Hname.
  destruct dir as [|d0 dir]; [done|]. clear Hdir.
  change ((d0 :: dir) ++ "/"%char :: c :: name)%list
    with (d0 :: (dir ++ "/"%char :: c :: name))%list.
  rewrite !clean_out_cons.
  change (is_rooted (d0 :: dir)) with (is_sep d0).
  destruct (is_sep d0).
  - rewrite (clean_loop_fuel _ (S (length dir) + length ("/"%char :: c :: name))%nat)
      by (rewrite ?length_app; simpl; lia).
    apply clean_loop_dir_name; [lia | done..].
  - change (d0 :: (dir ++ "/"%char :: c :: name))%list
      with ((d0 :: dir) ++ "/"%char :: c :: name)%list.
    rewrite (clean_loop_fuel _ (S (length dir) + length ("/"%char :: c :: name))%nat)
      by (rewrite ?length_app; simpl; rewrite ?length_app; simpl; lia).
    apply clean_loop_dir_name; [simpl; lia | done..].
Qed.

Lemma list_ascii_of_string_app (s t : string) :
  list_ascii_of_string (s +:+ t)
  = (list_ascii_of_string s ++ list_ascii_of_string t)%list.
Proof. induction s as [|c s IH]; [done|]. rewrite append_cons. simpl. by rewrite IH. Qed.

Lemma string_of_list_ascii_app (l1 l2 : list ascii) :
  string_of_list_ascii (l1 ++ l2) = string_of_list_ascii l1 +:+ string_of_list_ascii l2.
Proof. induction l1 as [|c l1 IH]; [done|]. simpl. by rewrite IH, append_cons. Qed.

Lemma join_buf_two (dir name : string) :
  String.eqb name "" = false ->
  join_buf "" [dir; name]
  = match dir with
    | EmptyString => name
    | String _ _ => dir +:+ "/" +:+ name
    end.
Proof.
  intros Hne. destruct dir as [|d0 dir]; unfold join_buf.
  - change (String.eqb "" "") with true. cbn [negb]. by rewrite Hne.
  - change (String.eqb "" "") with true.
    change (String.eqb (String d0 dir) "") with false. cbn [negb].
    change ("" +:+ String d0 dir) with (String d0 dir).
    change (String.eqb (String d0 dir) "") with false. done.
Qed.

(** [path.Join] of a directory and a plain file name: the name comes last,
    as it is, after a prefix that depends on the directory alone. *)
Lemma Join_plain (dir name : string) :
  is_plain name = true ->
  Join [dir; name] = dir_prefix dir +:+ name.
Proof.
  unfold is_plain. destruct (list_ascii_of_string name) as [|c lname] eqn:Hl; [done|].
  intros [Hdot Hname]%andb_prop. apply negb_true_iff in Hdot.
  assert (name = string_of_list_ascii (c :: lname)) as Hn
    by (rewrite <- Hl; symmetry; apply string_of_list_ascii_of_string).
  assert (String.eqb name "" = false) as Hne by (rewrite Hn; reflexivity).
  unfold Join. cbn [forallb]. rewrite Hne, !andb_false_r.
  rewrite (join_buf_two dir name Hne).
  unfold Clean, dir_prefix.
  assert (forall ws : list ascii,
            match (rev (c :: lname) ++ ws)%list with
            | [] => "."
            | out => string_of_list_ascii (rev out)
            end = string_of_list_ascii (rev ws) +:+ name) as Hfinal.
  { intros ws.
    destruct (rev (c :: lname) ++ ws)%list as [|x l] eqn:Hout.
    { apply (f_equal (@length ascii)) in Hout.
      rewrite length_app, length_rev in Hout. discriminate. }
    rewrite <- Hout, rev_app_distr, rev_involutive, string_of_list_ascii_app.
    by rewrite Hn. }
  destruct dir as [|d0 dir].
  - (* no directory: the name alone is cleaned *)
    rewrite Hl.
    pose proof Hname as [Hc _]%andb_prop. apply negb_true_iff in Hc.
    rewrite clean_out_cons, Hc.
    rewrite (clean_loop_plain (length lname) false c lname [] 0 Hdot Hname).
    apply (Hfinal []).
  - (* a directory: it is cleaned, and the name follows it *)
    rewrite !list_ascii_of_string_app, Hl.
    change (list_ascii_of_string "/") with ["/"%char].
    change (["/"%char] ++ c :: lname)%list with ("/"%char :: c :: lname).
    rewrite (clean_out_dir_name _ c lname) by done || (simpl; discriminate).
    apply Hfinal.
Qed.

End Join.

(** ** The name of the file *)

Lemma no_sep_app (s t : string) :
  gopath.no_sep (s +:+ t) = gopath.no_sep s && gopath.no_sep t.
Proof. unfold gopath.no_sep. by rewrite list_ascii_of_string_app, forallb_app. Qed.

Lemma no_sep_two_digits (x : Z) :
  0 <= x < 100 -> gopath.no_sep (spec.two_digits x) = true.
Proof.
  intros Hx.
  apply (range_forallb (fun x => gopath.no_sep (spec.two_digits x)) 100);
    [vm_compute; reflexivity | lia].
Qed.

Lemma no_sep_four_digits (x : Z) :
  0 <= x < 10000 -> gopath.no_sep (spec.four_digits x) = true.
Proof.
  intros Hx.
  apply (range_forallb (fun x => gopath.no_sep (spec.four_digits x)) 10000);
    [vm_compute; reflexivity | lia].
Qed.

Lemma no_sep_timestamp (t : gotime.Time) :
  gotime.civil t -> gopath.no_sep (spec.timestamp t) = true.
Proof.
  intros (Hy & Hmo & Hd & Hh & Hmi & Hs). unfold spec.timestamp.
  rewrite !no_sep_app, no_sep_four_digits, !no_sep_two_digits by lia.
  reflexivity.
Qed.

(** The file name of the specification is one path element as soon as the
    fingerprint and the extension hold no separator. *)
Lemma filename_plain (id caCertDigest : string) (t : gotime.Time) (ext : string) :
  gotime.civil t ->
  gopath.no_sep (spec.fingerprint8 caCertDigest id) = true ->
  gopath.no_sep ext = true ->
  gopath.is_plain (spec.filename id caCertDigest t ext) = true.
Proof.
  intros Ht Hfp Hext.
  assert (gopath.no_sep (spec.filename id caCertDigest t ext) = true) as Hall.
  { unfold spec.filename. rewrite !no_sep_app, Hfp, Hext, (no_sep_timestamp t Ht).
    reflexivity. }
  unfold gopath.is_plain, spec.filename in *.
  unfold gopath.no_sep in Hall.
  by rewrite !append_cons in *.
Qed.

(** Every document [runGenerate] builds carries an id of thirty-six
    bytes. *)
Lemma kbom_id_length `{Schema} (build : config.Build) (flags : Flags) (env : Env)
    (st st' : State) (kbom : KBOM) :
  runGenerate_kbom build flags env st = (Done kbom, st') ->
  String.length (KBOM_ID kbom) = 36%nat.
Proof.
  intros Hrun.
  destruct (kbom_inv build flags env st st' kbom Hrun) as (c & _ & _ & _ & _ & -> & _).
  apply length_uuid_String.
Qed.

(** C5.  In file mode, for a document whose id has at least eight bytes
    (every UUID has thirty-six) and whose time stamp is a reading of the
    clock, the file [getWriter] creates is
    [kbom-<fingerprint8>-<timestamp>.<ext>] joined to the output
    directory, where [fingerprint8] is the first eight characters of the
    CA digest if it is longer than eight and of the id otherwise,
    [timestamp] is the time stamp as YYYY-MM-DD-HH-MM-SS, and [ext] is the
    format selector: a function of these alone.  When the fingerprint and
    the selector hold no separator, the joined path is that name, as it
    is, after the cleaned output directory. *)
Theorem file_name_rule `{Schema} (flags : Flags) (env : Env) (kbom : KBOM) (st : State) :
  output flags = FileOutput ->
  (8 <= String.length (KBOM_ID kbom))%nat ->
  gotime.civil (KBOM_GeneratedAt kbom) ->
  let name :=
    spec.filename (KBOM_ID kbom) (Cluster_CACertDigest (KBOM_Cluster kbom))
      (KBOM_GeneratedAt kbom) (format flags) in
  let path := gopath.Join [outPath flags; name] in
  getWriter flags env kbom st =
    match env_create_err env path with
    | Some e => (Fail e, extend [EvCreate path] st)
    | None => (Done (Disk path), create_file path (extend [EvCreate path] st))
    end /\
  (gopath.no_sep
     (spec.fingerprint8 (Cluster_CACertDigest (KBOM_Cluster kbom)) (KBOM_ID kbom)) = true ->
   gopath.no_sep (format flags) = true ->
   path = gopath.dir_prefix (outPath flags) +:+ name).
Proof.
  intros Ho Hid Hcivil name path. split.
  - rewrite (getWriter_file flags env kbom st Ho Hid).
    assert (target flags kbom = path) as ->; [|done].
    unfold path, name, target, spec.filename, Sprintf_kbom.
    by rewrite (Format_is_timestamp _ Hcivil).
  - intros Hfp Hext. apply Join_plain. by apply filename_plain.
Qed.

Lemma file_name_rule_witness :
  output (sample.flags false FileOutput JSONFormat) = FileOutput /\
  (8 <= String.length (KBOM_ID (sample.document false)))%nat /\
  gotime.civil (KBOM_GeneratedAt (sample.document false)) /\
  spec.filename "123e4567-e89b-42d3-a456-426614174000" "abcdef1234567890"
    (gotime.mkTime 2024 1 2 3 4 5) "json"
  = "kbom-abcdef12-2024-01-02-03-04-05.json" /\
  getWriter (sample.flags false FileOutput JSONFormat) sample.env
    (sample.document false) sample.st0
  = (Done (Disk "out/kbom-abcdef12-2024-01-02-03-04-05.json"),
     create_file "out/kbom-abcdef12-2024-01-02-03-04-05.json"
       (extend [EvCreate "out/kbom-abcdef12-2024-01-02-03-04-05.json"] sample.st0)) /\
  gopath.Join ["out"; "kbom-abcdef12-2024-01-02-03-04-05.json"]
  = gopath.dir_prefix "out" +:+ "kbom-abcdef12-2024-01-02-03-04-05.json".
Proof.
  split; [reflexivity|]. split; [simpl; lia|].
  split; [unfold gotime.civil; simpl; lia|]. split; [reflexivity|].
  destruct (@file_name_rule sample.schema (sample.flags false FileOutput JSONFormat)
              sample.env (sample.document false) sample.st0 eq_refl)
    as [Hw Hpath].
  - simpl; lia.
  - unfold gotime.civil; simpl; lia.
  - split; [exact Hw | apply Hpath; reflexivity].
Defined.

(** ** The last element of a cleaned path *)

Lemma has_suffix_app (front suffix : string) :
  has_suffix suffix (front +:+ suffix) = true.
Proof.
  induction front as [|c front IH].
  - rewrite append_nil_l.
    destruct suffix; cbn [has_suffix]; by rewrite String.eqb_refl.
  - rewrite append_cons. cbn [has_suffix]. rewrite IH. apply orb_true_r.
Qed.

Lemma digit_not_sep (d : Z) : 0 <= d < 10 -> gopath.is_sep (digits.digit d) = false.
Proof.
  intros Hd. apply negb_true_iff.
  apply (range_forallb (fun d => negb (gopath.is_sep (digits.digit d))) 10);
    [vm_compute; reflexivity | lia].
Qed.

Lemma no_sep_decimal_fuel (fuel : nat) (u : Z) :
  gopath.no_sep (digits.decimal_fuel fuel u) = true.
Proof.
  revert u. induction fuel as [|fuel IH]; intros u; [done|].
  cbn [digits.decimal_fuel]. rewrite no_sep_app. apply andb_true_intro. split.
  - destruct (u <? 10); [done | apply IH].
  - unfold gopath.no_sep. simpl.
    rewrite digit_not_sep; [done|]. apply Z.mod_pos_bound. lia.
Qed.

Lemma no_sep_replicate (n : nat) :
  gopath.no_sep (gostring.replicate n "0"%char) = true.
Proof. induction n as [|n IH]; [done|]. unfold gopath.no_sep in *. simpl. exact IH. Qed.

Lemma no_sep_appendInt (x : Z) (width : nat) :
  gopath.no_sep (gotime.appendInt x width) = true.
Proof.
  unfold gotime.appendInt. cbv zeta.
  rewrite !no_sep_app, no_sep_replicate.
  unfold digits.decimal. rewrite no_sep_decimal_fuel.
  by destruct (x <? 0).
Qed.

(** Whatever the time, its text in the layout of [getWriter] holds no
    separator. *)
Lemma no_sep_Format (t : gotime.Time) :
  gopath.no_sep (gotime.Format_2006_01_02_15_04_05 t) = true.
Proof.
  unfold gotime.Format_2006_01_02_15_04_05.
  rewrite !no_sep_app, !no_sep_appendInt. reflexivity.
Qed.

Section LastElement.
Import gopath.

Lemma is_sep_eq (c : ascii) : is_sep c = true -> c = "/"%char.
Proof. unfold is_sep. apply Ascii.eqb_eq. Qed.

Lemma is_dot_eq (c : ascii) : is_dot c = true -> c = "."%char.
Proof. unfold is_dot. apply Ascii.eqb_eq. Qed.

(** A path is one element, or ends with a separator and an element. *)
Lemma split_last_sep (l : list ascii) :
  forallb (fun b => negb (is_sep b)) l = true \/
  exists l0 l2 : list ascii,
    l = (l0 ++ "/"%char :: l2)%list /\ forallb (fun b => negb (is_sep b)) l2 = true.
Proof.
  induction l as [|c l [IH|(l0 & l2 & -> & Hl2)]].
  - by left.
  - destruct (is_sep c) eqn:Hc.
    + right. exists [], l. apply is_sep_eq in Hc as ->. by split.
    + left. simpl. by rewrite Hc.
  - right. exists (c :: l0), l2. by split.
Qed.

(** An element that is neither [.] nor [..] is copied as it is, after a
    separator if one is needed. *)
Lemma clean_loop_real (fuel : nat) (rooted : bool) (c : ascii) (name out : list ascii)
    (dd : nat) :
  forallb (fun b => negb (is_sep b)) (c :: name) = true ->
  c :: name <> ["."%char] ->
  c :: name <> ["."%char; "."%char] ->
  clean_loop (S fuel) rooted (c :: name) out dd
  = ((rev (c :: name) ++ with_sep rooted out)%list, dd).
Proof.
  intros Hname Hdot Hdotdot.
  destruct (is_dot c) eqn:Hc; [|by apply clean_loop_plain].
  apply is_dot_eq in Hc as ->.
  pose proof Hname as [_ Hrest]%andb_prop.
  simpl clean_loop. unfold clean_round.
  change (is_sep ".") with false. change (is_dot ".") with true. cbv iota.
  destruct name as [|c2 name]; [done|].
  pose proof Hrest as [Hc2 Hrest2]%andb_prop. apply negb_true_iff in Hc2.
  simpl at_boundary. rewrite Hc2. simpl andb. cbv iota.
  assert (is_dot c2 && at_boundary name = false) as ->.
  { destruct (is_dot c2) eqn:Hd2; [|done]. apply is_dot_eq in Hd2 as ->.
    destruct name as [|c3 name]; [done|].
    apply andb_prop in Hrest2 as [Hc3 _]. apply negb_true_iff in Hc3.
    simpl. exact Hc3. }
  cbv iota. rewrite (span_elem_no_sep _ Hname).
  by destruct fuel.
Qed.

Lemma clean_loop_dir_elem (n : nat) (rooted : bool) (rest : list ascii) (c : ascii)
    (name out : list ascii) (dd : nat) :
  (length rest <= n)%nat ->
  forallb (fun b => negb (is_sep b)) (c :: name) = true ->
  c :: name <> ["."%char] ->
  c :: name <> ["."%char; "."%char] ->
  fst (clean_loop (n + length ("/"%char :: c :: name)) rooted
         (rest ++ "/"%char :: c :: name) out dd)
  = (rev (c :: name) ++ with_sep rooted (fst (clean_loop n rooted rest out dd)))%list.
Proof.
  intros Hn Hname Hdot Hdotdot.
  rewrite (clean_loop_app n rooted rest ("/"%char :: c :: name) out dd eq_refl Hn).
  destruct (clean_loop n rooted rest out dd) as [o d].
  change (clean_loop (length ("/"%char :: c :: name)) rooted ("/"%char :: c :: name) o d)
    with (clean_loop (S (length name)) rooted (c :: name) o d).
  by rewrite (clean_loop_real (length name) rooted c name o d Hname Hdot Hdotdot).
Qed.

(** The bytes [Clean] writes for a path whose last element is neither [.]
    nor [..] end with that element. *)
Lemma clean_out_last (pre l : list ascii) :
  forallb (fun b => negb (is_sep b)) l = true ->
  l <> [] -> l <> ["."%char] -> l <> ["."%char; "."%char] ->
  pre = [] \/ (exists p0, pre = (p0 ++ ["/"%char])%list) ->
  exists ws : list ascii, clean_out (pre ++ l) = (rev l ++ ws)%list.
Proof.
  intros Hl Hne Hdot Hdotdot Hpre.
  destruct l as [|c name]; [done|]. clear Hne.
  pose proof Hl as [Hc _]%andb_prop. apply negb_true_iff in Hc.
  destruct Hpre as [-> | [p0 ->]].
  - eexists. simpl app. rewrite clean_out_cons, Hc.
    by rewrite (clean_loop_real (length name) false c name [] 0 Hl Hdot Hdotdot).
  - rewrite <- app_assoc. change (["/"%char] ++ c :: name)%list with ("/"%char :: c :: name).
    destruct p0 as [|d0 p0].
    + eexists. simpl app. rewrite clean_out_cons. change (is_sep "/") with true. cbv iota.
      rewrite (clean_loop_fuel _ (S (length name)))
        by (simpl; lia).
      by rewrite (clean_loop_real (length name) true c name ["/"%char] 1 Hl Hdot Hdotdot).
    + change ((d0 :: p0) ++ "/"%char :: c :: name)%list
        with (d0 :: (p0 ++ "/"%char :: c :: name))%list.
      rewrite clean_out_cons.
      destruct (is_sep d0); eexists.
      * rewrite (clean_loop_fuel _ (S (length p0) + length ("/"%char :: c :: name))%nat)
          by (rewrite ?length_app; simpl; lia).
        rewrite clean_loop_dir_elem by (lia || done). reflexivity.
      * change (d0 :: (p0 ++ "/"%char :: c :: name))%list
          with ((d0 :: p0) ++ "/"%char :: c :: name)%list.
        rewrite (clean_loop_fuel _ (S (length p0) + length ("/"%char :: c :: name))%nat)
          by (rewrite ?length_app; simpl; rewrite ?length_app; simpl; lia).
        rewrite clean_loop_dir_elem by (simpl; lia || done). reflexivity.
Qed.

(** A path that ends with bytes holding a hyphen and no separator keeps
    them at its end when it is cleaned. *)
Lemma Clean_keeps_tail (pre tail : list ascii) :
  forallb (fun b => negb (is_sep b)) tail = true ->
  In "-"%char tail ->
  exists front : string,
    Clean (string_of_list_ascii (pre ++ tail)) = front +:+ string_of_list_ascii tail.
Proof.
  intros Htail Hin.
  assert (exists pre' l2 : list ascii,
            (pre ++ tail = pre' ++ (l2 ++ tail))%list /\
            forallb (fun b => negb (is_sep b)) l2 = true /\
            (pre' = [] \/ exists p0, pre' = (p0 ++ ["/"%char])%list))
    as (pre' & l2 & Heq & Hl2 & Hpre').
  { destruct (split_last_sep pre) as [Hpre|(l0 & l2 & -> & Hl2)].
    - exists [], pre. by repeat split; auto.
    - exists (l0 ++ ["/"%char])%list, l2. split; [by rewrite <- !app_assoc|].
      split; [done|]. right. by exists l0. }
  assert (In "-"%char (l2 ++ tail)) as Hin' by (apply in_or_app; by right).
  destruct (clean_out_last pre' (l2 ++ tail)) as [ws Hws].
  - by rewrite forallb_app, Hl2, Htail.
  - intros Hnil. rewrite Hnil in Hin'. done.
  - intros Hd. rewrite Hd in Hin'. simpl in Hin'. by destruct Hin' as [?|[]].
  - intros Hd. rewrite Hd in Hin'. simpl in Hin'. by destruct Hin' as [?|[?|[]]].
  - exact Hpre'.
  - exists (string_of_list_ascii (rev ws) +:+ string_of_list_ascii l2).
    unfold Clean. rewrite list_ascii_of_string_of_list_ascii, Heq, Hws.
    destruct (rev (l2 ++ tail) ++ ws)%list as [|x out] eqn:Hout.
    { apply (f_equal (@length ascii)) in Hout.
      rewrite !length_app, length_rev, length_app in Hout.
      destruct tail; [done | simpl in Hout; lia]. }
    rewrite <- Hout, rev_app_distr, rev_involutive, !string_of_list_ascii_app.
    by rewrite append_assoc.
Qed.

(** [path.Join] of a directory and a name that ends with such bytes. *)
Lemma Join_keeps_tail (dir head tail : string) :
  no_sep tail = true ->
  In "-"%char (list_ascii_of_string tail) ->
  exists front : string, Join [dir; head +:+ tail] = front +:+ tail.
Proof.
  intros Htail Hin.
  assert (String.eqb (head +:+ tail) "" = false) as Hne.
  { apply String.eqb_neq. intros Hnil.
    apply (f_equal String.length) in Hnil. rewrite length_append in Hnil.
    destruct tail; [done | simpl in Hnil; lia]. }
  unfold Join. cbn [forallb]. rewrite Hne, !andb_false_r.
  rewrite (join_buf_two dir (head +:+ tail) Hne).
  assert (forall pre : string,
            exists front : string, Clean (pre +:+ tail) = front +:+ tail) as Hclean.
  { intros pre.
    destruct (Clean_keeps_tail (list_ascii_of_string pre) (list_ascii_of_string tail)
                Htail Hin) as [front Hfront].
    exists front.
    rewrite string_of_list_ascii_app, !string_of_list_ascii_of_string in Hfront.
    exact Hfront. }
  destruct dir as [|d0 dir].
  - apply Hclean.
  - rewrite <- !append_assoc. apply Hclean.
Qed.

End LastElement.

(** The path [getWriter] builds ends with a dot and the selector as soon
    as the selector holds no separator. *)
Lemma target_has_extension `{Schema} (flags : Flags) (kbom : KBOM) :
  gopath.no_sep (format flags) = true ->
  has_suffix ("." +:+ format flags) (target flags kbom) = true.
Proof.
  intros Hext.
  destruct (Join_keeps_tail (outPath flags)
              ("kbom-" +:+
               spec.fingerprint8 (Cluster_CACertDigest (KBOM_Cluster kbom)) (KBOM_ID kbom))
              ("-" +:+ gotime.Format_2006_01_02_15_04_05 (KBOM_GeneratedAt kbom)
               +:+ "." +:+ format flags))
    as [front Hfront].
  - rewrite !no_sep_app, no_sep_Format, Hext. reflexivity.
  - rewrite append_cons. simpl. by left.
  - unfold target, Sprintf_kbom. rewrite append_assoc in Hfront.
    rewrite Hfront, <- (append_assoc front), <- (append_assoc (front +:+ "-")).
    apply has_suffix_app.
Qed.

(** C10, as the code has it.  In file mode the name [getWriter] formats
    ends with a dot and the format selector as it was given, whatever it
    is, and the part before the dot does not depend on the selector; the
    file is created at that name joined to the out-path by [path.Join],
    which cleans the joined path.  For every selector that holds no
    separator the path of the file ends with the dot and the selector,
    verbatim; with a selector that is neither [json] nor [yaml], the file
    created before the selector is checked carries it as its extension and
    is left empty.  When moreover the time stamp is a reading of the clock
    and the fingerprint holds no separator, the path is that name, as it
    is, after the cleaned output directory. *)
Theorem extension_is_raw_format `{Schema} `{!Codec}
    (flags : Flags) (env : Env) (kbom : KBOM) (st : State) :
  output flags = FileOutput ->
  (8 <= String.length (KBOM_ID kbom))%nat ->
  let path := gopath.Join [outPath flags; file_stem kbom +:+ "." +:+ format flags] in
  (exists (r : outcome File) (st1 : State),
      getWriter flags env kbom st = (r, st1) /\
      events_since st st1 = [EvCreate path]) /\
  (gopath.no_sep (format flags) = true ->
   has_suffix ("." +:+ format flags) path = true /\
   extension_is_selector flags env kbom st) /\
  (format flags <> JSONFormat -> format flags <> YAMLFormat ->
   env_create_err env path = None ->
   exists st' : State,
     printKBOM flags env kbom st = (Fail (ErrFormatNotSupported (format flags)), st') /\
     events_since st st' = [EvCreate path; EvClose (Disk path)] /\
     st_files st' = <[path := ""]> (st_files st)) /\
  (gotime.civil (KBOM_GeneratedAt kbom) ->
   gopath.no_sep
     (spec.fingerprint8 (Cluster_CACertDigest (KBOM_Cluster kbom)) (KBOM_ID kbom)) = true ->
   gopath.no_sep (format flags) = true ->
   path = gopath.dir_prefix (outPath flags) +:+ file_stem kbom +:+ "." +:+ format flags).
Proof.
  intros Ho Hid path.
  assert (Hplain : gotime.civil (KBOM_GeneratedAt kbom) ->
            gopath.no_sep
              (spec.fingerprint8 (Cluster_CACertDigest (KBOM_Cluster kbom)) (KBOM_ID kbom))
            = true ->
            gopath.no_sep (format flags) = true ->
            path = gopath.dir_prefix (outPath flags) +:+ file_stem kbom +:+ "."
                   +:+ format flags).
  { intros Hcivil Hfp Hext. apply Join_plain.
    pose proof (filename_plain (KBOM_ID kbom) (Cluster_CACertDigest (KBOM_Cluster kbom))
                  (KBOM_GeneratedAt kbom) (format flags) Hcivil Hfp Hext) as Hp.
    unfold spec.filename in Hp. rewrite <- (Format_is_timestamp _ Hcivil) in Hp.
    unfold file_stem. by rewrite !append_assoc. }
  assert (path = target flags kbom) as Hpath by (symmetry; apply target_stem).
  clearbody path. subst path.
  pose proof (getWriter_file flags env kbom st Ho Hid) as Hw.
  assert (exists (r : outcome File) (st1 : State),
             getWriter flags env kbom st = (r, st1) /\
             events_since st st1 = [EvCreate (target flags kbom)]) as Hcreated.
  { destruct (env_create_err env (target flags kbom)) as [e|];
      do 2 eexists; (split; [exact Hw|]).
    - apply events_since_extend.
    - apply events_since_app. reflexivity. }
  split; [exact Hcreated|]. split; [|split; [|exact Hplain]].
  - intros Hext. pose proof (target_has_extension flags kbom Hext) as Hsuffix.
    split; [exact Hsuffix|].
    destruct Hcreated as (r & st1 & Hw' & Hevs).
    intros name Hin. rewrite Hw' in Hin. simpl in Hin. rewrite Hevs in Hin.
    apply list_elem_of_singleton in Hin. injection Hin as ->. exact Hsuffix.
  - intros Hj Hy Hcreate. rewrite Hcreate in Hw.
    rewrite (printKBOM_unsupported_format flags env kbom st _ _ Hw Hj Hy).
    eexists. split; [reflexivity|]. split; [|reflexivity].
    apply events_since_app. simpl. by rewrite <- app_assoc.
Qed.

Lemma extension_is_raw_format_witness :
  output (sample.flags false FileOutput "xml") = FileOutput /\
  (8 <= String.length (KBOM_ID (sample.document false)))%nat /\
  gopath.Join [outPath (sample.flags false FileOutput "xml");
               file_stem (sample.document false) +:+ "." +:+ "xml"]
  = "out/kbom-abcdef12-2024-01-02-03-04-05.xml" /\
  has_suffix ".xml" "out/kbom-abcdef12-2024-01-02-03-04-05.xml" = true /\
  exists st' : State,
    @printKBOM sample.schema sample.codec (sample.flags false FileOutput "xml")
      sample.env (sample.document false) sample.st0
    = (Fail (ErrFormatNotSupported "xml"), st') /\
    events_since sample.st0 st'
    = [EvCreate "out/kbom-abcdef12-2024-01-02-03-04-05.xml";
       EvClose (Disk "out/kbom-abcdef12-2024-01-02-03-04-05.xml")] /\
    st_files st' = {[ "out/kbom-abcdef12-2024-01-02-03-04-05.xml" := "" ]}.
Proof.
  split; [reflexivity|]. split; [simpl; lia|]. split; [reflexivity|].
  destruct (@extension_is_raw_format sample.schema sample.codec
              (sample.flags false FileOutput "xml") sample.env (sample.document false)
              sample.st0 eq_refl)
    as (_ & Hsuffix & Hprint & _); [simpl; lia|].
  split; [exact (proj1 (Hsuffix eq_refl))|].
  apply Hprint; [discriminate | discriminate | reflexivity].
Defined.

(** C10, as stated, fails: the selector is used as it is in the name, but
    the name goes through [path.Join].  With the selector [json/] the file
    is created with the extension [json], without the separator; with the
    selector [a/../b] it is created as [out/b], with no extension at
    all. *)
Lemma extension_not_always_raw_format :
  (events_since sample.st0
     (snd (getWriter (sample.flags false FileOutput "json/") sample.env
             (sample.document false) sample.st0))
   = [EvCreate "out/kbom-abcdef12-2024-01-02-03-04-05.json"] /\
   ~ extension_is_selector (sample.flags false FileOutput "json/") sample.env
       (sample.document false) sample.st0) /\
  (events_since sample.st0
     (snd (getWriter (sample.flags false FileOutput "a/../b") sample.env
             (sample.document false) sample.st0))
   = [EvCreate "out/b"] /\
   ~ extension_is_selector (sample.flags false FileOutput "a/../b") sample.env
       (sample.document false) sample.st0).
Proof.
  split; (split; [reflexivity|]); intros Hext.
  - specialize (Hext "out/kbom-abcdef12-2024-01-02-03-04-05.json").
    assert (has_suffix ".json/" "out/kbom-abcdef12-2024-01-02-03-04-05.json" = true)
      as Hsuffix; [|vm_compute in Hsuffix; discriminate].
    apply Hext.
    change (EvCreate "out/kbom-abcdef12-2024-01-02-03-04-05.json"
            ∈ [EvCreate "out/kbom-abcdef12-2024-01-02-03-04-05.json"]).
    by apply list_elem_of_singleton.
  - specialize (Hext "out/b").
    assert (has_suffix ".a/../b" "out/b" = true)
      as Hsuffix; [|vm_compute in Hsuffix; discriminate].
    apply Hext. change (EvCreate "out/b" ∈ [EvCreate "out/b"]).
    by apply list_elem_of_singleton.
Qed.

(** ** Closing the sink *)

Lemma no_sink_event_not_closed (evs : list Event) (w : File) :
  forallb (fun ev => negb (is_sink_event ev)) evs = true -> EvClose w ∉ evs.
Proof.
  intros Hall Hin. rewrite forallb_forall in Hall.
  apply list_elem_of_In in Hin. specialize (Hall _ Hin). discriminate.
Qed.

(** C6, as the code has it.  When the output target is [stdout], the sink
    is the standard output stream of the process, and [printKBOM] closes
    it, once, as the last thing it does, on each of its exit paths:
    when the format is not supported, when the encoder fails, and after the
    document has been written (or the write has failed).  A run leaves
    standard output as it found it only when it fails before the document
    is assembled. *)
Theorem stdout_closed_on_every_exit `{Schema} `{!Codec}
    (flags : Flags) (env : Env) (kbom : KBOM) (st : State) :
  output flags = StdOutput ->
  (exists (r : outcome unit) (st' : State) (evs : list Event),
      printKBOM flags env kbom st = (r, st') /\
      events_since st st' = (evs ++ [EvClose Stdout])%list /\
      st_stdout_closed st' = true /\
      (EvClose Stdout ∉ evs) /\
      (format flags <> JSONFormat -> format flags <> YAMLFormat ->
       r = Fail (ErrFormatNotSupported (format flags)) /\ evs = []) /\
      (format flags = JSONFormat \/ format flags = YAMLFormat ->
       match marshal (format flags) kbom with
       | Err e => r = Fail e /\ evs = []
       | Ok bytes => (r = Done tt \/ exists e, r = Fail e) /\ evs = [EvWrite Stdout bytes]
       end)) /\
  (forall (build : config.Build) (e : error) (st1 : State),
      runGenerate_kbom build flags env st = (Fail e, st1) ->
      runGenerate build flags env st = (Fail e, st1) /\ stdout_left_open st st1).
Proof.
  intros Ho. split.
  - pose proof (getWriter_stdout flags env kbom st Ho) as Hw.
    destruct (String.eqb_spec (format flags) JSONFormat) as [Hj|Hj];
      [|destruct (String.eqb_spec (format flags) YAMLFormat) as [Hy|Hy]].
    1,2: rewrite (printKBOM_supported flags env kbom st st Stdout Hw) by auto;
      destruct (marshal (format flags) kbom) as [bytes|e];
      [ pose proof (File_Write_no_panic env Stdout bytes st) as Hnp;
        destruct (File_Write_effects env Stdout bytes st)
          as (r & st2 & taken & Hfw & Htr2 & _);
        rewrite Hfw in Hnp |- *;
        exists r, (close_file Stdout st2), [EvWrite Stdout bytes];
        split; [reflexivity|];
        split; [apply events_since_app; rewrite st_trace_close_file, Htr2;
                by rewrite <- app_assoc|];
        split; [reflexivity|];
        split; [by intros ?%list_elem_of_singleton|];
        split; [intros; congruence|];
        intros _; split; [|done];
        destruct r as [[]|e|]; [by left | right; by exists e | done]
      | exists (Fail e), (close_file Stdout st), [];
        split; [reflexivity|];
        split; [apply events_since_app; by rewrite st_trace_close_file|];
        split; [reflexivity|];
        split; [apply not_elem_of_nil|];
        split; [intros; congruence | done] ].
    rewrite (printKBOM_unsupported_format flags env kbom st st Stdout Hw Hj Hy).
    exists (Fail (ErrFormatNotSupported (format flags))), (close_file Stdout st), [].
    split; [reflexivity|].
    split; [apply events_since_app; by rewrite st_trace_close_file|].
    split; [reflexivity|]. split; [apply not_elem_of_nil|].
    split; [done | intros [? | ?]; congruence].
  - intros build e st1 Hk.
    split; [by apply runGenerate_not_assembled|].
    destruct (kbom_cases build flags env st)
      as [(e' & _ & Hk')|[(c & s & e' & _ & _ & Hk')|(c & kbom' & _ & _ & Hk' & _)]];
      rewrite Hk' in Hk; try discriminate; injection Hk as <- <-;
      (split; [reflexivity|]); rewrite events_since_extend.
    + by intros [=]%list_elem_of_singleton.
    + apply no_sink_event_not_closed, no_sink_event_in_calls.
Qed.

Lemma stdout_closed_on_every_exit_witness :
  output (sample.flags false StdOutput "xml") = StdOutput /\
  exists (st' : State) (evs : list Event),
    @printKBOM sample.schema sample.codec (sample.flags false StdOutput "xml")
      sample.env (sample.document false) sample.st0
    = (Fail (ErrFormatNotSupported "xml"), st') /\
    events_since sample.st0 st' = (evs ++ [EvClose Stdout])%list /\
    st_stdout_closed st' = true.
Proof.
  split; [reflexivity|].
  destruct (@stdout_closed_on_every_exit sample.schema sample.codec
              (sample.flags false StdOutput "xml") sample.env (sample.document false)
              sample.st0 eq_refl)
    as [(r & st' & evs & Hrun & Hevs & Hclosed & _ & Hbad & _) _].
  destruct Hbad as [-> _]; [discriminate..|].
  exists st', evs. repeat split; assumption.
Defined.

(** C6, as stated, fails: with the output target [stdout], standard
    output has been closed at the end of a successful run, of a run whose
    write fails, and of a run with an unsupported format. *)
Lemma stdout_not_left_open :
  (fst (sample.run (sample.flags false StdOutput JSONFormat) sample.env) = Done tt /\
   ~ stdout_left_open sample.st0
       (snd (sample.run (sample.flags false StdOutput JSONFormat) sample.env))) /\
  (fst (sample.run (sample.flags false StdOutput JSONFormat) sample.env_stdout_full)
   = Fail (ErrExternal "no space left on device") /\
   ~ stdout_left_open sample.st0
       (snd (sample.run (sample.flags false StdOutput JSONFormat) sample.env_stdout_full))) /\
  (fst (sample.run (sample.flags false StdOutput "xml") sample.env)
   = Fail (ErrFormatNotSupported "xml") /\
   ~ stdout_left_open sample.st0
       (snd (sample.run (sample.flags false StdOutput "xml") sample.env))).
Proof.
  repeat split; try reflexivity;
    intros [Hclosed _]; vm_compute in Hclosed; discriminate.
Qed.

(** ** The scenarios of the specification, on the sample cluster *)

(** Short mode, three nodes, YAML on standard output: one document is
    written, with the node count 3 and the version of the cluster. *)
Example scenario_short_yaml_stdout :
  let '(r, st) := sample.run (sample.flags true StdOutput YAMLFormat) sample.env in
  r = Done tt /\
  writes (st_trace st) = [st_stdout st] /\
  @yaml_Marshal sample.schema sample.codec (sample.document true) = Ok (st_stdout st) /\
  Cluster_NodesCount (KBOM_Cluster (sample.document true)) = 3 /\
  Cluster_K8sVersion (KBOM_Cluster (sample.document true)) = "v1.28.3" /\
  Cluster_Nodes (KBOM_Cluster (sample.document true)) = ["node-a"; "node-b"; "node-c"].
Proof. vm_compute. repeat split. Qed.

(** File output, JSON: the file is created in the output directory under
    the derived name, and holds the document. *)
Example scenario_file_json :
  let '(r, st) := sample.run (sample.flags false FileOutput JSONFormat) sample.env in
  r = Done tt /\
  st_stdout st = "" /\
  st_files st !! "out/kbom-abcdef12-2024-01-02-03-04-05.json"
  = match @json_Marshal sample.schema sample.codec "" "  " (sample.document false) with
    | Ok bytes => Some bytes
    | Err _ => None
    end /\
  size (st_files st) = 1%nat.
Proof. vm_compute. repeat split. Qed.

(** An unsupported format on standard output: the run fails with the
    format error and standard output receives nothing. *)
Example scenario_xml_stdout :
  let '(r, st) := sample.run (sample.flags false StdOutput "xml") sample.env in
  r = Fail (ErrFormatNotSupported "xml") /\
  st_stdout st = "" /\
  writes (st_trace st) = [] /\
  st_files st = ∅.
Proof. vm_compute. repeat split. Qed.

(** A digest of eight bytes or fewer: the fingerprint comes from the id. *)
Example fingerprint_fallback :
  spec.fingerprint8 "abcdef12" "123e4567-e89b-42d3-a456-426614174000" = "123e4567" /\
  spec.fingerprint8 "abcdef123" "123e4567-e89b-42d3-a456-426614174000" = "abcdef12" /\
  spec.fingerprint8 "" "123e4567-e89b-42d3-a456-426614174000" = "123e4567".
Proof. repeat split. Qed.

(** * Further properties of the [generate] command *)

(** ** Strings of known length *)

Lemma append_inv_length (s1 s2 t1 t2 : string) :
  String.length s1 = String.length s2 ->
  s1 +:+ t1 = s2 +:+ t2 -> s1 = s2 /\ t1 = t2.
Proof.
  revert s2. induction s1 as [|c s1 IH]; intros [|c2 s2] Hlen Heq; try discriminate.
  - done.
  - rewrite !append_cons in Heq. injection Heq as -> Heq.
    simpl in Hlen. injection Hlen as Hlen.
    by destruct (IH s2 Hlen Heq) as [-> ->].
Qed.

Lemma length_fingerprint8 (caCertDigest id : string) :
  (8 <= String.length id)%nat ->
  String.length (spec.fingerprint8 caCertDigest id) = 8%nat.
Proof.
  intros Hid. unfold spec.fingerprint8.
  destruct (Nat.ltb_spec 8 (String.length caCertDigest)); apply length_take; lia.
Qed.

Lemma two_value_two_digits (x : Z) :
  0 <= x < 100 -> readback.two_value (spec.two_digits x) = x.
Proof.
  intros Hx. apply Z.eqb_eq.
  apply (range_forallb (fun x => readback.two_value (spec.two_digits x) =? x) 100);
    [vm_compute; reflexivity | lia].
Qed.

Lemma four_value_four_digits (x : Z) :
  0 <= x < 10000 -> readback.four_value (spec.four_digits x) = x.
Proof.
  intros Hx. apply Z.eqb_eq.
  apply (range_forallb (fun x => readback.four_value (spec.four_digits x) =? x) 10000);
    [vm_compute; reflexivity | lia].
Qed.

(** Different readings of the clock print differently. *)
Lemma timestamp_inj (t1 t2 : gotime.Time) :
  gotime.civil t1 -> gotime.civil t2 ->
  spec.timestamp t1 = spec.timestamp t2 -> t1 = t2.
Proof.
  intros (Hy1 & Hmo1 & Hd1 & Hh1 & Hmi1 & Hs1) (Hy2 & Hmo2 & Hd2 & Hh2 & Hmi2 & Hs2) Heq.
  unfold spec.timestamp in Heq.
  apply append_inv_length in Heq as [Hy Heq]; [|reflexivity].
  apply append_inv_length in Heq as [_ Heq]; [|reflexivity].
  apply append_inv_length in Heq as [Hmo Heq]; [|reflexivity].
  apply append_inv_length in Heq as [_ Heq]; [|reflexivity].
  apply append_inv_length in Heq as [Hd Heq]; [|reflexivity].
  apply append_inv_length in Heq as [_ Heq]; [|reflexivity].
  apply append_inv_length in Heq as [Hh Heq]; [|reflexivity].
  apply append_inv_length in Heq as [_ Heq]; [|reflexivity].
  apply append_inv_length in Heq as [Hmi Heq]; [|reflexivity].
  apply append_inv_length in Heq as [_ Hs]; [|reflexivity].
  apply (f_equal readback.four_value) in Hy.
  apply (f_equal readback.two_value) in Hmo, Hd, Hh, Hmi, Hs.
  rewrite !four_value_four_digits in Hy by lia.
  rewrite !two_value_two_digits in Hmo, Hd, Hh, Hmi, Hs by lia.
  destruct t1, t2; simpl in *; congruence.
Qed.

(** ** What [printKBOM] does once it has its sink *)

Lemma st_stdout_closed_close_disk (name : string) (st : State) :
  st_stdout_closed (close_file (Disk name) st) = st_stdout_closed st.
Proof. reflexivity. Qed.

Lemma extend_nil (st : State) : extend [] st = st.
Proof. unfold extend. destruct st; simpl. by rewrite app_nil_r. Qed.

Section Sink.
Context `{Schema} `{!Codec}.
Variable flags : Flags.
Variable env : Env.

(** A closed standard output takes nothing. *)
Lemma File_Write_closed (bytes : string) (st : State) :
  st_stdout_closed st = true ->
  File_Write env Stdout bytes st
  = (Fail (ErrExternal "write /dev/stdout: file already closed"),
     extend [EvWrite Stdout bytes] st).
Proof. intros Hcl. unfold File_Write. by rewrite Hcl. Qed.

(** An open sink without a fault takes everything. *)
Lemma File_Write_sound (w : File) (bytes : string) (st : State) :
  match w with Stdout => st_stdout_closed st = false | Disk _ => True end ->
  env_write_fault env w = None ->
  File_Write env w bytes st = (Done tt, append_to w bytes (extend [EvWrite w bytes] st)).
Proof.
  intros Hopen Hfault. unfold File_Write. rewrite Hfault.
  destruct w as [|name]; [by rewrite Hopen | done].
Qed.

(** A file that has just been created takes bytes up to the limit of its
    fault. *)
Lemma File_Write_short (name bytes : string) (limit : nat) (e : error) (st : State) :
  st_files st !! name = Some "" ->
  env_write_fault env (Disk name) = Some (limit, e) ->
  (limit < String.length bytes)%nat ->
  exists st' : State,
    File_Write env (Disk name) bytes st = (Fail e, st') /\
    st_trace st' = (st_trace st ++ [EvWrite (Disk name) bytes])%list /\
    st_stdout st' = st_stdout st /\
    st_stdout_closed st' = st_stdout_closed st /\
    st_files st' = <[name := gostring.take limit bytes]> (st_files st).
Proof.
  intros Hempty Hfault Hlimit. unfold File_Write. rewrite Hfault. simpl.
  rewrite Hempty. simpl. rewrite Nat.sub_0_r.
  destruct (Nat.leb_spec (String.length bytes) limit); [lia|].
  eexists. split; [reflexivity|]. by repeat split.
Qed.

(** With a sink [w], [printKBOM] either writes nothing and fails, because
    of the selector or of the encoder, or hands the text of the encoder to
    [w] in one [Write]; then it closes [w]. *)
Lemma printKBOM_with_sink (kbom : KBOM) (st st1 : State) (w : File) :
  getWriter flags env kbom st = (Done w, st1) ->
  exists (r : outcome unit) (st2 : State) (mid : list Event),
    printKBOM flags env kbom st = (r, close_file w st2) /\
    r <> Panic /\
    st_trace st2 = (st_trace st1 ++ mid)%list /\
    st_stdout_closed st2 = st_stdout_closed st1 /\
    ((mid = [] /\ st2 = st1 /\
      ((format flags <> JSONFormat /\ format flags <> YAMLFormat /\
        r = Fail (ErrFormatNotSupported (format flags))) \/
       ((format flags = JSONFormat \/ format flags = YAMLFormat) /\
        exists e, marshal (format flags) kbom = Err e /\ r = Fail e)))
     \/
     (exists bytes : string,
        (format flags = JSONFormat \/ format flags = YAMLFormat) /\
        marshal (format flags) kbom = Ok bytes /\
        mid = [EvWrite w bytes] /\
        File_Write env w bytes st1 = (r, st2))).
Proof.
  intros Hw.
  assert (format flags = JSONFormat \/ format flags = YAMLFormat \/
          (format flags <> JSONFormat /\ format flags <> YAMLFormat)) as Hfmt.
  { destruct (String.eqb_spec (format flags) JSONFormat); [by left|].
    destruct (String.eqb_spec (format flags) YAMLFormat); [right; by left|].
    right; right; done. }
  assert (format flags = JSONFormat \/ format flags = YAMLFormat ->
          exists (r : outcome unit) (st2 : State) (mid : list Event),
            printKBOM flags env kbom st = (r, close_file w st2) /\
            r <> Panic /\
            st_trace st2 = (st_trace st1 ++ mid)%list /\
            st_stdout_closed st2 = st_stdout_closed st1 /\
            ((mid = [] /\ st2 = st1 /\
              ((format flags <> JSONFormat /\ format flags <> YAMLFormat /\
                r = Fail (ErrFormatNotSupported (format flags))) \/
               ((format flags = JSONFormat \/ format flags = YAMLFormat) /\
                exists e, marshal (format flags) kbom = Err e /\ r = Fail e)))
             \/
             (exists bytes : string,
                (format flags = JSONFormat \/ format flags = YAMLFormat) /\
                marshal (format flags) kbom = Ok bytes /\
                mid = [EvWrite w bytes] /\
                File_Write env w bytes st1 = (r, st2)))) as Hsupported.
  { intros Hok.
    rewrite (printKBOM_supported flags env kbom st st1 w Hw Hok).
    destruct (marshal (format flags) kbom) as [bytes|e] eqn:Hm.
    - pose proof (File_Write_no_panic env w bytes st1) as Hnp.
      destruct (File_Write_effects env w bytes st1)
        as (r & st2 & taken & Hfw & Htr & Hcl & _).
      rewrite Hfw in Hnp |- *. simpl in Hnp.
      exists r, st2, [EvWrite w bytes].
      split; [reflexivity|]. split; [exact Hnp|]. split; [exact Htr|].
      split; [exact Hcl|]. right. exists bytes. by repeat split.
    - exists (Fail e), st1, [].
      split; [reflexivity|]. split; [discriminate|].
      split; [by rewrite app_nil_r|]. split; [reflexivity|].
      left. split; [reflexivity|]. split; [reflexivity|]. right.
      split; [exact Hok|]. by exists e. }
  destruct Hfmt as [Hj|[Hy|[Hj Hy]]]; [apply Hsupported; by left
                                       |apply Hsupported; by right|].
  rewrite (printKBOM_unsupported_format flags env kbom st st1 w Hw Hj Hy).
  exists (Fail (ErrFormatNotSupported (format flags))), st1, [].
  split; [reflexivity|]. split; [discriminate|].
  split; [by rewrite app_nil_r|]. split; [reflexivity|].
  left. split; [reflexivity|]. split; [reflexivity|]. left. by repeat split.
Qed.

(** What [printKBOM] leaves alone once it has the sink [w]: the files on
    disk when [w] is standard output; standard output and every other file
    when [w] is a file. *)
Lemma printKBOM_with_sink_frame (kbom : KBOM) (st st1 : State) (w : File) :
  getWriter flags env kbom st = (Done w, st1) ->
  exists (r : outcome unit) (st2 : State) (mid : list Event),
    printKBOM flags env kbom st = (r, close_file w st2) /\
    st_trace st2 = (st_trace st1 ++ mid)%list /\
    (mid = [] \/ exists bytes, mid = [EvWrite w bytes]) /\
    st_stdout_closed st2 = st_stdout_closed st1 /\
    match w with
    | Stdout => st_files st2 = st_files st1
    | Disk name =>
        st_stdout st2 = st_stdout st1 /\
        forall name' : string,
          name' <> name -> st_files st2 !! name' = st_files st1 !! name'
    end.
Proof.
  intros Hw.
  destruct (printKBOM_with_sink kbom st st1 w Hw)
    as (r & st2 & mid & Hp & _ & Htr & Hcl & Hmid).
  exists r, st2, mid. split; [exact Hp|]. split; [exact Htr|].
  destruct Hmid as [(-> & -> & _)|(bytes & _ & _ & -> & Hfw)].
  - split; [by left|]. split; [reflexivity|]. by destruct w.
  - split; [right; by exists bytes|]. split; [exact Hcl|].
    destruct (File_Write_effects env w bytes st1)
      as (r' & st2' & taken & Hfw' & _ & _ & Hsink & _).
    rewrite Hfw in Hfw'. injection Hfw' as <- <-.
    destruct w as [|name]; [tauto|].
    destruct Hsink as [Hout Hfiles]. split; [exact Hout|].
    intros name' Hne. rewrite Hfiles. by apply lookup_insert_ne.
Qed.

End Sink.

(** ** Before the document is assembled *)

(** X8.  When [kube.NewClient] fails, the run returns its error as it is,
    whatever the flags, the selectors that are not supported included: no
    collection call is made, no id is drawn, the clock is not read, and no
    sink is touched. *)
Theorem client_error_ends_run `{Schema} `{!Codec} (build : config.Build)
    (flags : Flags) (env : Env) (e : error) (st : State) :
  env_NewClient env = Err e ->
  exists st' : State,
    runGenerate build flags env st = (Fail e, st') /\
    events_since st st' = [EvNewClient] /\
    sinks_untouched st st'.
Proof.
  intros Hc. exists (extend [EvNewClient] st).
  split; [|split; [apply events_since_extend | apply extend_untouched]].
  apply runGenerate_not_assembled. by apply kbom_NewClient_fails.
Qed.

Lemma client_error_ends_run_witness :
  env_NewClient faulty.env_no_client = Err sample.refused /\
  exists st' : State,
    sample.run (sample.flags false "s3" "xml") faulty.env_no_client
    = (Fail sample.refused, st') /\
    events_since sample.st0 st' = [EvNewClient] /\
    sinks_untouched sample.st0 st'.
Proof.
  split; [reflexivity|].
  apply (@client_error_ends_run sample.schema sample.codec sample.build
           (sample.flags false "s3" "xml") faulty.env_no_client sample.refused sample.st0).
  reflexivity.
Defined.

(** X20.  A document that [runGenerate] builds holds the constants of the
    format, the strings of the build, an empty CNI version, and the five
    answers of the client as they came; the [short] flag reaches the
    client in the two calls [AllNodes] and [AllResources], negated, and
    nothing else of the document depends on it.  Its id is the text of the
    UUID drawn, and the run has made exactly the eight calls of the
    assembly, in their order. *)
Theorem document_holds_answers `{Schema} (build : config.Build) (flags : Flags)
    (env : Env) (st st' : State) (kbom : KBOM) :
  runGenerate_kbom build flags env st = (Done kbom, st') ->
  exists c : kube.Client,
    env_NewClient env = Ok c /\
    KBOM_BOMFormat kbom = "ksoc" /\
    KBOM_SpecVersion kbom = "0.1" /\
    KBOM_GeneratedBy kbom
    = {| Tool_Vendor := "KSOC Labs";
         Tool_BuildTime := config.BuildTime build;
         Tool_Name := config.AppName build;
         Tool_Version := config.AppVersion build;
         Tool_Commit := config.LastCommitHash build;
         Tool_CommitTime := config.LastCommitTime build |} /\
    Cluster_CNIVersion (KBOM_Cluster kbom) = "" /\
    kube.Metadata c = Ok (Cluster_K8sVersion (KBOM_Cluster kbom),
                          Cluster_CACertDigest (KBOM_Cluster kbom)) /\
    kube.AllNodes c (negb (short flags)) = Ok (Cluster_Nodes (KBOM_Cluster kbom)) /\
    kube.Location_ c = Ok (Cluster_Location (KBOM_Cluster kbom)) /\
    kube.AllImages c = Ok (Resources_Images (Cluster_Resources (KBOM_Cluster kbom))) /\
    kube.AllResources c (negb (short flags))
    = Ok (Resources_Resources (Cluster_Resources (KBOM_Cluster kbom))) /\
    KBOM_ID kbom = uuid.String_ (env_uuid env) /\
    events_since st st'
    = [EvNewClient; EvCollect StepMetadata; EvCollect StepAllNodes;
       EvCollect StepLocation; EvCollect StepAllImages; EvCollect StepAllResources;
       EvUUID; EvNow].
Proof.
  intros Hrun.
  destruct (kbom_inv build flags env st st' kbom Hrun)
    as (c & Hc & _ & -> & [Hf Hv Hg Hm Hn _ Hl Hcni Hi Hr] & Hid & _).
  exists c. rewrite events_since_extend. by repeat split.
Qed.

Lemma document_holds_answers_witness :
  sample.kbom (sample.flags true FileOutput JSONFormat) sample.env
  = (Done (sample.document true), extend assembly_events sample.st0) /\
  exists c : kube.Client,
    env_NewClient sample.env = Ok c /\
    kube.AllNodes c false = Ok ["node-a"; "node-b"; "node-c"] /\
    kube.AllResources c false = Ok ["deploy/web"] /\
    kube.AllImages c = Ok ["nginx:1.25"; "redis:7"].
Proof.
  split; [reflexivity|].
  destruct (@document_holds_answers sample.schema sample.build
              (sample.flags true FileOutput JSONFormat) sample.env sample.st0
              (extend assembly_events sample.st0) (sample.document true) eq_refl)
    as (c & Hc & _ & _ & _ & _ & _ & Hn & _ & Hi & Hr & _).
  exists c. repeat split; assumption.
Defined.

(** ** Closing the sink, whatever it is *)

(** X9.  [printKBOM] closes the sink [getWriter] gave it, standard output
    or a file, exactly once and as the last thing it does, on every path
    on which it has a sink: after the write, when the write fails, when the
    encoder fails and when the selector is not supported.  When
    [getWriter] gives no sink, [printKBOM] ends as [getWriter] ended and
    closes nothing. *)
Theorem sink_closed_once_on_every_exit `{Schema} `{!Codec}
    (flags : Flags) (env : Env) (kbom : KBOM) (st : State) :
  exists (r : outcome unit) (st' : State),
    printKBOM flags env kbom st = (r, st') /\
    match getWriter flags env kbom st with
    | (Done w, _) =>
        r <> Panic /\
        exists pre : list Event,
          events_since st st' = (pre ++ [EvClose w])%list /\
          forallb (fun ev => negb (is_close_event ev)) pre = true
    | (Fail e, st1) =>
        r = Fail e /\ st' = st1 /\
        forallb (fun ev => negb (is_close_event ev)) (events_since st st') = true
    | (Panic, st1) =>
        r = Panic /\ st' = st1 /\
        forallb (fun ev => negb (is_close_event ev)) (events_since st st') = true
    end.
Proof.
  destruct (getWriter_effects flags env kbom st)
    as (r0 & st1 & evs & Hw & Hst1 & Hevs & _).
  assert (forallb (fun ev => negb (is_close_event ev)) evs = true) as Hnoclose
    by (by destruct Hevs as [-> | ->]).
  rewrite Hw. destruct r0 as [w|e|].
  - destruct (printKBOM_with_sink flags env kbom st st1 w Hw)
      as (r & st2 & mid & Hp & Hnp & Htr & _ & Hmid).
    exists r, (close_file w st2). split; [exact Hp|]. split; [exact Hnp|].
    exists (evs ++ mid)%list. split.
    + apply events_since_app. rewrite st_trace_close_file, Htr, Hst1.
      destruct w; simpl; by rewrite <- !app_assoc.
    + rewrite forallb_app, Hnoclose.
      by destruct Hmid as [(-> & _)|(bytes & _ & _ & -> & _)].
  - exists (Fail e), st1.
    split; [by apply printKBOM_no_sink_fail|]. split; [done|]. split; [done|].
    subst st1. by rewrite events_since_extend.
  - exists Panic, st1.
    split; [by apply printKBOM_no_sink_panic|]. split; [done|]. split; [done|].
    subst st1. by rewrite events_since_extend.
Qed.

(** ** When the file cannot be created *)

(** X10.  In file mode, when [os.Create] refuses the path of the document,
    the run returns the error of [os.Create] as it is, whatever the format
    selector: the selector is not looked at, no encoder is called, nothing
    is written or closed, and the disk and standard output are as they
    were.  The refused [os.Create] is the only event after the assembly. *)
Theorem create_failure_ends_run `{Schema} `{!Codec} (build : config.Build)
    (flags : Flags) (env : Env) (c : kube.Client) (e : error) (st : State) :
  output flags = FileOutput ->
  env_NewClient env = Ok c ->
  first_failure c (negb (short flags)) = None ->
  (forall (kbom : KBOM) (st1 : State),
      runGenerate_kbom build flags env st = (Done kbom, st1) ->
      env_create_err env (target flags kbom) = Some e) ->
  exists (kbom : KBOM) (st' : State),
    fst (runGenerate_kbom build flags env st) = Done kbom /\
    runGenerate build flags env st = (Fail e, st') /\
    events_since st st' = (assembly_events ++ [EvCreate (target flags kbom)])%list /\
    sinks_untouched st st'.
Proof.
  intros Ho Hc Hf Hrefused.
  destruct (kbom_done build flags env c st Hc Hf) as (kbom & Hk & _ & Hid & _).
  specialize (Hrefused kbom _ Hk).
  assert (8 <= String.length (KBOM_ID kbom))%nat as Hlen
    by (rewrite Hid, length_uuid_String; lia).
  pose proof (getWriter_file flags env kbom (extend assembly_events st) Ho Hlen) as Hw.
  rewrite Hrefused in Hw.
  exists kbom, (extend (assembly_events ++ [EvCreate (target flags kbom)]) st).
  split; [by rewrite Hk|]. split.
  - rewrite (runGenerate_assembled _ _ _ _ _ _ Hk).
    rewrite (printKBOM_no_sink_fail flags env kbom _ _ e Hw).
    by rewrite extend_extend.
  - split; [apply events_since_extend | apply extend_untouched].
Qed.

Lemma create_failure_ends_run_witness :
  exists st' : State,
    @runGenerate sample.schema sample.codec sample.build
      (sample.flags false FileOutput "xml") faulty.env_create_denied sample.st0
    = (Fail faulty.denied, st') /\
    events_since sample.st0 st'
    = (assembly_events ++ [EvCreate "out/kbom-abcdef12-2024-01-02-03-04-05.xml"])%list /\
    sinks_untouched sample.st0 st'.
Proof.
  destruct (@create_failure_ends_run sample.schema sample.codec sample.build
              (sample.flags false FileOutput "xml") faulty.env_create_denied
              sample.client faulty.denied sample.st0 eq_refl eq_refl eq_refl)
    as (kbom & st' & Hk & Hrun & Hevs & Hsinks).
  - intros kbom st1 _. reflexivity.
  - exists st'. injection Hk as <-. repeat split; try assumption; apply Hsinks.
Defined.

(** ** The two sinks are kept apart *)

(** X11.  [printKBOM] touches only the sink its output target names.  With
    the target [stdout] the files on disk stay as they are and no file is
    created, written or closed.  With any other target, standard output
    receives nothing and is not closed, and the only file that can change
    is the one at the path built from the document. *)
Theorem output_modes_keep_apart `{Schema} `{!Codec}
    (flags : Flags) (env : Env) (kbom : KBOM) (st : State) :
  exists (r : outcome unit) (st' : State),
    printKBOM flags env kbom st = (r, st') /\
    (output flags = StdOutput ->
     st_files st' = st_files st /\
     forallb (fun ev => negb (is_disk_event ev)) (events_since st st') = true) /\
    (output flags <> StdOutput ->
     st_stdout st' = st_stdout st /\
     st_stdout_closed st' = st_stdout_closed st /\
     forallb (fun ev => negb (is_stdout_event ev)) (events_since st st') = true /\
     forall name : string,
       name <> target flags kbom -> st_files st' !! name = st_files st !! name).
Proof.
  destruct (getWriter_effects flags env kbom st)
    as (r0 & st1 & evs & Hw & Hst1 & Hevs & Hr0).
  destruct r0 as [[|name]|e|].
  - (* standard output *)
    destruct Hr0 as [Ho ->]. rewrite extend_nil in Hst1. subst st1.
    destruct (printKBOM_with_sink_frame flags env kbom st st Stdout Hw)
      as (r & st2 & mid & Hp & Htr & Hmid & _ & Hfiles).
    exists r, (close_file Stdout st2). split; [exact Hp|].
    split; [|intros Hne; by destruct Hne].
    intros _. split; [by rewrite st_files_close_file|].
    rewrite (events_since_app st _ (mid ++ [EvClose Stdout]))
      by (rewrite st_trace_close_file, Htr; by rewrite <- app_assoc).
    by destruct Hmid as [-> | [bytes ->]].
  - (* a file *)
    destruct Hr0 as (Ho & -> & ->).
    destruct (printKBOM_with_sink_frame flags env kbom st st1 _ Hw)
      as (r & st2 & mid & Hp & Htr & Hmid & Hcl & Hout & Hfiles).
    exists r, (close_file (Disk (target flags kbom)) st2). split; [exact Hp|].
    split; [intros Ho'; rewrite Ho in Ho'; discriminate|].
    intros _. subst st1. simpl in *.
    split; [exact Hout|]. split; [exact Hcl|]. split.
    + rewrite (events_since_app st _
                 (EvCreate (target flags kbom) :: mid
                  ++ [EvClose (Disk (target flags kbom))]))
        by (simpl; rewrite Htr; simpl; by rewrite <- !app_assoc).
      by destruct Hmid as [-> | [bytes ->]].
    + intros name Hne. rewrite Hfiles by done. simpl. by apply lookup_insert_ne.
  - (* no sink: an error *)
    exists (Fail e), st1. split; [by apply printKBOM_no_sink_fail|].
    subst st1. rewrite events_since_extend. split.
    + intros Ho. rewrite (getWriter_stdout flags env kbom st Ho) in Hw. discriminate.
    + intros _. repeat split; try reflexivity. by destruct Hevs as [-> | ->].
  - (* no sink: the slice expression panics *)
    subst evs. rewrite extend_nil in Hst1. subst st1.
    exists Panic, st. split; [by apply printKBOM_no_sink_panic|].
    rewrite (events_since_app st st []) by (by rewrite app_nil_r).
    split; intros _; by repeat split.
Qed.

(** ** When the write or the encoder fails *)

(** X12.  In file mode with the format [json], when the file takes fewer
    bytes than the encoder produced, [printKBOM] returns the error of the
    [Write] as it is; the file was created, holds the bytes it took, a
    proper beginning of the text, and is closed: it is neither removed nor
    emptied.  Standard output receives nothing. *)
Theorem failed_write_leaves_partial_file `{Schema} `{!Codec}
    (flags : Flags) (env : Env) (kbom : KBOM) (st : State)
    (bytes : string) (limit : nat) (e : error) :
  output flags = FileOutput ->
  (8 <= String.length (KBOM_ID kbom))%nat ->
  env_create_err env (target flags kbom) = None ->
  format flags = JSONFormat ->
  json_Marshal "" "  " kbom = Ok bytes ->
  env_write_fault env (Disk (target flags kbom)) = Some (limit, e) ->
  (limit < String.length bytes)%nat ->
  exists st' : State,
    printKBOM flags env kbom st = (Fail e, st') /\
    st_files st' = <[target flags kbom := gostring.take limit bytes]> (st_files st) /\
    String.length (gostring.take limit bytes) = limit /\
    events_since st st'
    = [EvCreate (target flags kbom); EvWrite (Disk (target flags kbom)) bytes;
       EvClose (Disk (target flags kbom))] /\
    st_stdout st' = st_stdout st /\
    st_stdout_closed st' = st_stdout_closed st.
Proof.
  intros Ho Hid Hcreate Hfmt Hm Hfault Hlimit.
  pose proof (getWriter_file flags env kbom st Ho Hid) as Hw. rewrite Hcreate in Hw.
  rewrite (printKBOM_supported flags env kbom st _ _ Hw (or_introl Hfmt)).
  unfold marshal. rewrite Hfmt. simpl String.eqb. cbv iota. rewrite Hm.
  destruct (File_Write_short env (target flags kbom) bytes limit e
              (create_file (target flags kbom) (extend [EvCreate (target flags kbom)] st)))
    as (st2 & -> & Htr & Hout & Hcl & Hfiles);
    [simpl; apply lookup_insert_eq | exact Hfault | exact Hlimit |].
  exists (close_file (Disk (target flags kbom)) st2).
  split; [reflexivity|]. split.
  { rewrite st_files_close_file, Hfiles. simpl. apply insert_insert_eq. }
  split; [apply length_take; lia|]. split.
  { apply events_since_app. rewrite st_trace_close_file, Htr. simpl.
    by rewrite <- !app_assoc. }
  split; [by rewrite st_stdout_close_file, Hout | simpl; by rewrite Hcl].
Qed.

Lemma failed_write_leaves_partial_file_witness :
  exists st' : State,
    @printKBOM sample.schema sample.codec (sample.flags true FileOutput JSONFormat)
      faulty.env_disk_full (sample.document true) sample.st0
    = (Fail faulty.no_space, st') /\
    (exists rest : string,
       @json_Marshal sample.schema sample.codec "" "  " (sample.document true)
       = Ok ("{" +:+ sample.nl +:+ "  id: 12" +:+ rest)) /\
    st_files st'
    = {[ "out/kbom-abcdef12-2024-01-02-03-04-05.json" := "{" +:+ sample.nl +:+ "  id: 12" ]} /\
    st_stdout st' = "".
Proof.
  destruct (@failed_write_leaves_partial_file sample.schema sample.codec
              (sample.flags true FileOutput JSONFormat) faulty.env_disk_full
              (sample.document true) sample.st0
              (sample.render ("{" +:+ sample.nl) ("}" +:+ sample.nl) ": " "" "  "
                 (sample.document true))
              10%nat faulty.no_space eq_refl)
    as (st' & Hrun & Hfiles & _ & _ & Hout & _);
    [simpl; lia | reflexivity | reflexivity | reflexivity | reflexivity
    | vm_compute; lia |].
  exists st'. split; [exact Hrun|]. split; [eexists; vm_compute; reflexivity|].
  split; [exact Hfiles | exact Hout].
Defined.

(** X13.  With the format [json], when the encoder returns an error,
    [printKBOM] returns that error and hands nothing to its sink: the
    encoder builds the whole text before it writes any of it.  Standard
    output receives nothing, and in file mode the file that was created
    for the document is left empty.  The sink is closed all the same. *)
Theorem encoder_error_reaches_no_sink `{Schema} `{!Codec}
    (flags : Flags) (env : Env) (kbom : KBOM) (st : State) (e : error) :
  format flags = JSONFormat ->
  json_Marshal "" "  " kbom = Err e ->
  exists (r : outcome unit) (st' : State),
    printKBOM flags env kbom st = (r, st') /\
    writes (events_since st st') = [] /\
    st_stdout st' = st_stdout st /\
    (output flags = StdOutput ->
     r = Fail e /\ st_files st' = st_files st /\
     events_since st st' = [EvClose Stdout]) /\
    (output flags = FileOutput ->
     (8 <= String.length (KBOM_ID kbom))%nat ->
     env_create_err env (target flags kbom) = None ->
     r = Fail e /\
     st_files st' = <[target flags kbom := ""]> (st_files st) /\
     events_since st st'
     = [EvCreate (target flags kbom); EvClose (Disk (target flags kbom))]).
Proof.
  intros Hj Hjson.
  assert (format flags = JSONFormat \/ format flags = YAMLFormat) as Hfmt by (by left).
  assert (marshal (format flags) kbom = Err e) as Hm
    by (unfold marshal; by rewrite Hj).
  destruct (getWriter_effects flags env kbom st)
    as (r0 & st1 & evs & Hw & Hst1 & Hevs & Hr0).
  assert (writes evs = []) as Hnowrite by (by destruct Hevs as [-> | ->]).
  destruct r0 as [w|e0|].
  - rewrite (printKBOM_supported flags env kbom st st1 w Hw Hfmt), Hm.
    assert (st_trace st1 = (st_trace st ++ evs)%list) as Htr1
      by (rewrite Hst1; by destruct w).
    assert (events_since st (close_file w st1) = (evs ++ [EvClose w])%list) as Hsince.
    { apply events_since_app. rewrite st_trace_close_file, Htr1.
      by rewrite <- app_assoc. }
    exists (Fail e), (close_file w st1). split; [reflexivity|].
    rewrite Hsince.
    split; [by destruct Hevs as [-> | ->]|].
    split; [rewrite st_stdout_close_file, Hst1; by destruct w|].
    destruct w as [|name].
    + destruct Hr0 as [Ho ->]. rewrite extend_nil in Hst1. subst st1.
      split; [done|]. intros Ho'. rewrite Ho in Ho'. discriminate.
    + destruct Hr0 as (Ho & -> & ->). subst st1.
      split; [intros Ho'; rewrite Ho in Ho'; discriminate|].
      intros _ _ _. by repeat split.
  - exists (Fail e0), st1. split; [by apply printKBOM_no_sink_fail|].
    subst st1. rewrite events_since_extend.
    split; [exact Hnowrite|]. split; [reflexivity|]. split.
    + intros Ho. rewrite (getWriter_stdout flags env kbom st Ho) in Hw. discriminate.
    + intros Ho Hid Hcreate.
      rewrite (getWriter_file flags env kbom st Ho Hid), Hcreate in Hw. discriminate.
  - exists Panic, st1. split; [by apply printKBOM_no_sink_panic|].
    subst st1. rewrite events_since_extend.
    split; [exact Hnowrite|]. split; [reflexivity|]. split.
    + intros Ho. rewrite (getWriter_stdout flags env kbom st Ho) in Hw. discriminate.
    + intros Ho Hid Hcreate.
      rewrite (getWriter_file flags env kbom st Ho Hid), Hcreate in Hw. discriminate.
Qed.

Lemma encoder_error_reaches_no_sink_witness :
  exists st' : State,
    @printKBOM sample.schema faulty.codec_json_failing
      (sample.flags false FileOutput JSONFormat) sample.env (sample.document false)
      sample.st0
    = (Fail faulty.unsupported_value, st') /\
    writes (events_since sample.st0 st') = [] /\
    st_files st' = {[ "out/kbom-abcdef12-2024-01-02-03-04-05.json" := "" ]}.
Proof.
  destruct (@encoder_error_reaches_no_sink sample.schema faulty.codec_json_failing
              (sample.flags false FileOutput JSONFormat) sample.env
              (sample.document false) sample.st0 faulty.unsupported_value)
    as (r & st' & Hrun & Hwrites & _ & _ & Hfile); [reflexivity | reflexivity |].
  destruct (Hfile eq_refl) as (-> & Hfiles & _); [simpl; lia | reflexivity |].
  exists st'. split; [exact Hrun|]. split; [exact Hwrites | exact Hfiles].
Defined.

(** ** The flags as [init] leaves them *)

(** X14.  With no flag given, the command runs with the defaults of
    [init]: full detail, JSON, standard output.  When the cluster answers
    all five calls, standard output is open and takes what it is given,
    the run asks the client for full descriptors, appends to standard
    output the JSON text of the document, with an empty prefix and an
    indentation of two spaces, in one [Write], closes standard output and
    returns without error; when the encoder fails, its error comes back and
    nothing is written.  No file is created either way. *)
Theorem default_run_prints_json_to_stdout `{Schema} `{!Codec}
    (build : config.Build) (env : Env) (c : kube.Client) (st : State) :
  env_NewClient env = Ok c ->
  first_failure c true = None ->
  st_stdout_closed st = false ->
  env_write_fault env Stdout = None ->
  exists (kbom : KBOM) (r : outcome unit) (st' : State),
    runGenerate build init_flags env st = (r, st') /\
    fst (runGenerate_kbom build init_flags env st) = Done kbom /\
    kube.AllNodes c true = Ok (Cluster_Nodes (KBOM_Cluster kbom)) /\
    kube.AllResources c true
    = Ok (Resources_Resources (Cluster_Resources (KBOM_Cluster kbom))) /\
    st_files st' = st_files st /\
    st_stdout_closed st' = true /\
    match json_Marshal "" "  " kbom with
    | Ok bytes =>
        r = Done tt /\
        st_stdout st' = st_stdout st +:+ bytes /\
        events_since st st'
        = (assembly_events ++ [EvWrite Stdout bytes; EvClose Stdout])%list
    | Err e =>
        r = Fail e /\
        st_stdout st' = st_stdout st /\
        events_since st st' = (assembly_events ++ [EvClose Stdout])%list
    end.
Proof.
  intros Hc Hf Hopen Hfault.
  destruct (kbom_done build init_flags env c st Hc Hf) as (kbom & Hk & Hpop & _).
  pose proof (getWriter_stdout init_flags env kbom (extend assembly_events st) eq_refl)
    as Hw.
  exists kbom.
  rewrite (runGenerate_assembled _ _ _ _ _ _ Hk), Hk.
  rewrite (printKBOM_supported init_flags env kbom _ _ Stdout Hw (or_introl eq_refl)).
  change (marshal (format init_flags) kbom) with (json_Marshal "" "  " kbom).
  destruct (json_Marshal "" "  " kbom) as [bytes|e].
  - rewrite (File_Write_sound env Stdout bytes (extend assembly_events st) Hopen Hfault).
    do 2 eexists. split; [reflexivity|]. split; [reflexivity|].
    split; [apply (pop_Nodes _ _ _ _ Hpop)|]. split; [apply (pop_Resources _ _ _ _ Hpop)|].
    split; [reflexivity|]. split; [reflexivity|].
    split; [reflexivity|]. split; [reflexivity|].
    apply events_since_app. simpl. by rewrite <- !app_assoc.
  - do 2 eexists. split; [reflexivity|]. split; [reflexivity|].
    split; [apply (pop_Nodes _ _ _ _ Hpop)|]. split; [apply (pop_Resources _ _ _ _ Hpop)|].
    split; [reflexivity|]. split; [reflexivity|].
    split; [reflexivity|]. split; [reflexivity|].
    apply events_since_app. simpl. by rewrite <- !app_assoc.
Qed.

Lemma default_run_prints_json_to_stdout_witness :
  exists st' : State,
    sample.run init_flags sample.env = (Done tt, st') /\
    @json_Marshal sample.schema sample.codec "" "  " (sample.document false)
    = Ok (st_stdout st') /\
    st_files st' = ∅ /\
    st_stdout_closed st' = true.
Proof.
  destruct (@default_run_prints_json_to_stdout sample.schema sample.codec sample.build
              sample.env sample.client sample.st0 eq_refl eq_refl eq_refl eq_refl)
    as (kbom & r & st' & Hrun & Hk & _ & _ & Hfiles & Hclosed & Hjson).
  injection Hk as <-. simpl in Hjson. destruct Hjson as (-> & Hout & _).
  exists st'. split; [exact Hrun|]. split; [by rewrite Hout|].
  split; [exact Hfiles | exact Hclosed].
Defined.

(** X19.  With the out-path [init] gives, [.], the file of a document is
    created in the working directory under its bare name,
    [kbom-<fingerprint8>-<timestamp>.<format>], with nothing in front of
    it; this holds whenever the id has eight bytes or more, the time stamp
    is a reading of the clock and neither the fingerprint nor the selector
    holds a separator. *)
Theorem default_out_path_gives_bare_name `{Schema} (flags : Flags) (env : Env)
    (kbom : KBOM) (st : State) :
  output flags = FileOutput ->
  outPath flags = outPath init_flags ->
  (8 <= String.length (KBOM_ID kbom))%nat ->
  gotime.civil (KBOM_GeneratedAt kbom) ->
  gopath.no_sep
    (spec.fingerprint8 (Cluster_CACertDigest (KBOM_Cluster kbom)) (KBOM_ID kbom)) = true ->
  gopath.no_sep (format flags) = true ->
  exists (r : outcome File) (st1 : State),
    getWriter flags env kbom st = (r, st1) /\
    events_since st st1
    = [EvCreate
         (spec.filename (KBOM_ID kbom) (Cluster_CACertDigest (KBOM_Cluster kbom))
            (KBOM_GeneratedAt kbom) (format flags))].
Proof.
  intros Ho Hpath Hid Hcivil Hfp Hext.
  assert (target flags kbom
          = spec.filename (KBOM_ID kbom) (Cluster_CACertDigest (KBOM_Cluster kbom))
              (KBOM_GeneratedAt kbom) (format flags)) as Htarget.
  { unfold target, Sprintf_kbom. rewrite Hpath, (Format_is_timestamp _ Hcivil).
    change (gopath.Join [outPath init_flags; ?name])
      with (gopath.Join ["."; name]).
    rewrite Join_plain by (by apply filename_plain). reflexivity. }
  rewrite (getWriter_file flags env kbom st Ho Hid), Htarget.
  destruct (env_create_err env _); do 2 eexists; (split; [reflexivity|]).
  - apply events_since_extend.
  - by apply events_since_app.
Qed.

Lemma default_out_path_gives_bare_name_witness :
  exists (r : outcome File) (st1 : State),
    getWriter (mkFlags false FileOutput JSONFormat ".") sample.env (sample.document false)
      sample.st0 = (r, st1) /\
    events_since sample.st0 st1 = [EvCreate "kbom-abcdef12-2024-01-02-03-04-05.json"].
Proof.
  apply (@default_out_path_gives_bare_name sample.schema
           (mkFlags false FileOutput JSONFormat ".") sample.env (sample.document false)
           sample.st0); try reflexivity.
  - simpl; lia.
  - unfold gotime.civil; simpl; lia.
Defined.

(** ** The shape of a run *)

Lemma calls_prefix_of_assembly (s : Step) :
  (EvNewClient :: calls_through s) `prefix_of` assembly_events.
Proof. destruct s; by eexists. Qed.

(** X15.  The events of a run whose format selector is not [yaml], in
    order: a beginning of the sequence [NewClient], [Metadata],
    [AllNodes], [Location], [AllImages], [AllResources], [uuid.New],
    [time.Now], each at most once; then, and only if that sequence was
    completed, at most one [os.Create], at most one [Write] and at most
    one [Close], in this order, the [Write] and the [Close] on the same
    sink.  Such a run retries no call, writes at most once (the whole
    JSON text, or nothing for a selector that is not supported) and does
    not go back to the cluster once it has started on its output. *)
Theorem run_events_shape `{Schema} `{!Codec} (build : config.Build)
    (flags : Flags) (env : Env) (st : State) :
  format flags <> YAMLFormat ->
  exists (r : outcome unit) (st' : State) (pre post : list Event)
         (name : string) (w : File) (bytes : string),
    runGenerate build flags env st = (r, st') /\
    events_since st st' = (pre ++ post)%list /\
    pre `prefix_of` [EvNewClient; EvCollect StepMetadata; EvCollect StepAllNodes;
                     EvCollect StepLocation; EvCollect StepAllImages;
                     EvCollect StepAllResources; EvUUID; EvNow] /\
    post `sublist_of` [EvCreate name; EvWrite w bytes; EvClose w] /\
    (post <> [] -> pre = assembly_events) /\
    (EvWrite w bytes ∈ post ->
     format flags = JSONFormat /\
     exists kbom : KBOM,
       fst (runGenerate_kbom build flags env st) = Done kbom /\
       json_Marshal "" "  " kbom = Ok bytes).
Proof.
  intros Hny.
  destruct (kbom_cases build flags env st)
    as [(e & _ & Hk)|[(c & s & e & _ & _ & Hk)|(c & kbom & _ & _ & Hk & _)]].
  - exists (Fail e), (extend [EvNewClient] st), [EvNewClient], [], "", Stdout, "".
    split; [by apply runGenerate_not_assembled|].
    rewrite events_since_extend. split; [done|].
    split; [by eexists|]. split; [apply sublist_nil_l|].
    split; [done|]. by intros ?%not_elem_of_nil.
  - exists (Fail e), (extend (EvNewClient :: calls_through s) st),
      (EvNewClient :: calls_through s), [], "", Stdout, "".
    split; [by apply runGenerate_not_assembled|].
    rewrite events_since_extend, app_nil_r. split; [done|].
    split; [apply calls_prefix_of_assembly|]. split; [apply sublist_nil_l|].
    split; [done|]. by intros ?%not_elem_of_nil.
  - rewrite (runGenerate_assembled _ _ _ _ _ _ Hk), Hk.
    destruct (getWriter_effects flags env kbom (extend assembly_events st))
      as (r0 & st1 & evs & Hw & Hst1 & Hevs & Hr0).
    assert (st_trace st1 = (st_trace (extend assembly_events st) ++ evs)%list) as Htr1
      by (rewrite Hst1; by destruct r0 as [[|?]| |]).
    assert (forall (r : outcome unit) (st' : State) (post : list Event),
              st_trace st' = (st_trace (extend assembly_events st) ++ post)%list ->
              events_since st st' = (assembly_events ++ post)%list) as Hsince.
    { intros r st' post Htr. apply events_since_app. rewrite Htr. simpl.
      by rewrite <- app_assoc. }
    assert (forall w' b', EvWrite w' b' ∉ evs) as Hnowrite.
    { intros w' b' Hin. destruct Hevs as [-> | ->].
      - by apply not_elem_of_nil in Hin.
      - by apply list_elem_of_singleton in Hin. }
    destruct r0 as [w|e|].
    + destruct (printKBOM_with_sink flags env kbom _ st1 w Hw)
        as (r & st2 & mid & Hp & _ & Htr & _ & Hmid).
      rewrite Hp.
      destruct Hmid as [(-> & -> & _)|(bytes & [Hj|Hy] & Hm & -> & _)];
        [| |done].
      * exists r, (close_file w st1), assembly_events, (evs ++ [EvClose w])%list,
          (target flags kbom), w, "".
        split; [reflexivity|]. split.
        { apply (Hsince r). rewrite st_trace_close_file, Htr1. by rewrite <- app_assoc. }
        split; [done|]. split.
        { apply (sublist_app _ [EvCreate (target flags kbom)] _ [EvWrite w ""; EvClose w]).
          - destruct Hevs as [-> | ->]; [apply sublist_nil_l | done].
          - by apply sublist_cons. }
        split; [done|].
        intros [Hin|Hin%list_elem_of_singleton]%elem_of_app; [|done].
        by destruct (Hnowrite _ _ Hin).
      * exists r, (close_file w st2), assembly_events,
          (evs ++ [EvWrite w bytes; EvClose w])%list, (target flags kbom), w, bytes.
        split; [reflexivity|]. split.
        { apply (Hsince r). rewrite st_trace_close_file, Htr, Htr1.
          by rewrite <- !app_assoc. }
        split; [done|]. split.
        { apply (sublist_app _ [EvCreate (target flags kbom)] _
                   [EvWrite w bytes; EvClose w]); [|done].
          destruct Hevs as [-> | ->]; [apply sublist_nil_l | done]. }
        split; [done|]. intros _. split; [exact Hj|]. exists kbom.
        split; [reflexivity|]. unfold marshal in Hm. rewrite Hj in Hm. exact Hm.
    + rewrite (printKBOM_no_sink_fail flags env kbom _ _ e Hw).
      exists (Fail e), st1, assembly_events, evs, (target flags kbom), Stdout, "".
      split; [reflexivity|]. split; [by apply (Hsince (Fail e))|].
      split; [done|]. split.
      { destruct Hevs as [-> | ->]; [apply sublist_nil_l|].
        by apply sublist_skip, sublist_nil_l. }
      split; [done|]. intros Hin. by destruct (Hnowrite _ _ Hin).
    + rewrite (printKBOM_no_sink_panic flags env kbom _ _ Hw).
      exists Panic, st1, assembly_events, evs, (target flags kbom), Stdout, "".
      split; [reflexivity|]. split; [by apply (Hsince Panic)|].
      split; [done|]. split.
      { destruct Hevs as [-> | ->]; [apply sublist_nil_l|].
        by apply sublist_skip, sublist_nil_l. }
      split; [done|]. intros Hin. by destruct (Hnowrite _ _ Hin).
Qed.

Lemma run_events_shape_witness :
  format (sample.flags false FileOutput JSONFormat) <> YAMLFormat /\
  exists (st' : State) (bytes : string),
    sample.run (sample.flags false FileOutput JSONFormat) sample.env = (Done tt, st') /\
    events_since sample.st0 st'
    = (assembly_events
       ++ [EvCreate "out/kbom-abcdef12-2024-01-02-03-04-05.json";
           EvWrite (Disk "out/kbom-abcdef12-2024-01-02-03-04-05.json") bytes;
           EvClose (Disk "out/kbom-abcdef12-2024-01-02-03-04-05.json")])%list /\
    exists (pre post : list Event) (name : string) (w : File) (bytes' : string),
      events_since sample.st0 st' = (pre ++ post)%list /\
      pre `prefix_of` assembly_events /\
      post `sublist_of` [EvCreate name; EvWrite w bytes'; EvClose w].
Proof.
  split; [discriminate|].
  destruct (@run_events_shape sample.schema sample.codec sample.build
              (sample.flags false FileOutput JSONFormat) sample.env sample.st0)
    as (r & st' & pre & post & name & w & bytes' & Hrun & Hevs & Hpre & Hpost & _);
    [discriminate|].
  exists st'. eexists.
  assert (sample.run (sample.flags false FileOutput JSONFormat) sample.env
          = (Done tt, st')) as Hdone.
  { unfold sample.run. rewrite Hrun. f_equal.
    change r with (fst (r, st')). rewrite <- Hrun. reflexivity. }
  split; [exact Hdone|]. split.
  - change st' with (snd (Done tt : outcome unit, st')). rewrite <- Hdone. reflexivity.
  - exists pre, post, name, w, bytes'. by repeat split.
Defined.

(** ** One process, two documents *)

(** X17.  With the output target [stdout], [printKBOM] works once in a
    process: its deferred [Close] closes standard output, so a second
    [printKBOM], whatever its document and its format selector, returns
    an error, and standard output receives none of the second document.
    With the format [json], when the encoder gives its text, that error
    is the one the [Write] on the closed standard output returns,
    [write /dev/stdout: file already closed], and the second call still
    makes its [Write] and its [Close]. *)
Theorem stdout_serves_one_print `{Schema} `{!Codec}
    (flags : Flags) (env : Env) (kbom1 kbom2 : KBOM) (st : State) :
  output flags = StdOutput ->
  exists (r1 : outcome unit) (e2 : error) (st1 st2 : State),
    printKBOM flags env kbom1 st = (r1, st1) /\
    printKBOM flags env kbom2 st1 = (Fail e2, st2) /\
    st_stdout_closed st1 = true /\
    st_stdout st2 = st_stdout st1 /\
    (format flags = JSONFormat ->
     forall bytes : string,
       json_Marshal "" "  " kbom2 = Ok bytes ->
       e2 = ErrExternal "write /dev/stdout: file already closed" /\
       events_since st1 st2 = [EvWrite Stdout bytes; EvClose Stdout]).
Proof.
  intros Ho.
  destruct (printKBOM_with_sink flags env kbom1 st st Stdout
              (getWriter_stdout flags env kbom1 st Ho))
    as (r1 & st1 & mid1 & Hp1 & _).
  set (st1' := close_file Stdout st1) in *.
  assert (st_stdout_closed st1' = true) as Hclosed by reflexivity.
  destruct (printKBOM_with_sink flags env kbom2 st1' st1' Stdout
              (getWriter_stdout flags env kbom2 st1' Ho))
    as (r2 & st2 & mid2 & Hp2 & _ & Htr & _ & Hmid).
  assert (forall e, marshal (format flags) kbom2 = Err e ->
            format flags = JSONFormat ->
            forall bytes, json_Marshal "" "  " kbom2 = Ok bytes -> False) as Hclash.
  { intros e Hm Hj bytes Hb. unfold marshal in Hm. rewrite Hj in Hm.
    simpl in Hm. congruence. }
  destruct Hmid as [(-> & -> & [(Hnj & Hny & ->)|(_ & e & Hm & ->)])
                   |(bytes & _ & Hm & -> & Hfw)].
  - exists r1, (ErrFormatNotSupported (format flags)), st1', (close_file Stdout st1').
    split; [exact Hp1|]. split; [exact Hp2|]. split; [exact Hclosed|].
    split; [reflexivity|]. intros Hj. congruence.
  - exists r1, e, st1', (close_file Stdout st1').
    split; [exact Hp1|]. split; [exact Hp2|]. split; [exact Hclosed|].
    split; [reflexivity|]. intros Hj bytes Hb. destruct (Hclash e Hm Hj bytes Hb).
  - rewrite (File_Write_closed env bytes st1' Hclosed) in Hfw.
    injection Hfw as <- <-.
    exists r1, (ErrExternal "write /dev/stdout: file already closed"), st1',
      (close_file Stdout (extend [EvWrite Stdout bytes] st1')).
    split; [exact Hp1|]. split; [exact Hp2|]. split; [exact Hclosed|].
    split; [reflexivity|].
    intros Hj bytes' Hb. unfold marshal in Hm. rewrite Hj in Hm. simpl in Hm.
    assert (bytes' = bytes) as -> by congruence.
    split; [reflexivity|]. apply events_since_app. simpl. by rewrite <- app_assoc.
Qed.

Lemma stdout_serves_one_print_witness :
  exists st1 st2 : State,
    @printKBOM sample.schema sample.codec (sample.flags false StdOutput JSONFormat)
      sample.env (sample.document false) sample.st0 = (Done tt, st1) /\
    @printKBOM sample.schema sample.codec (sample.flags false StdOutput JSONFormat)
      sample.env (sample.document true) st1
    = (Fail (ErrExternal "write /dev/stdout: file already closed"), st2) /\
    st_stdout st2 = st_stdout st1.
Proof.
  destruct (@stdout_serves_one_print sample.schema sample.codec
              (sample.flags false StdOutput JSONFormat) sample.env
              (sample.document false) (sample.document true) sample.st0 eq_refl)
    as (r1 & e2 & st1 & st2 & Hp1 & Hp2 & _ & Hout & Herr).
  destruct (Herr eq_refl _ eq_refl) as [-> _].
  exists st1, st2. split; [|split; [exact Hp2 | exact Hout]].
  rewrite Hp1. f_equal.
  change r1 with (fst (r1, st1)). rewrite <- Hp1. reflexivity.
Defined.

(** ** The slice of the id *)

(** X18.  In file mode [getWriter] evaluates the slice [kbom.ID[:8]]
    before it looks at the length of the CA digest: on an id shorter than
    eight bytes it panics, before anything is created, even when the
    digest is long enough to give the key, and [printKBOM] panics with it;
    with any other output target the id is not sliced and [getWriter]
    returns.  On a document that [runGenerate] has built the slice is in
    bounds: the id is the text of the UUID that was drawn, thirty-six
    bytes, and the slice gives its first eight hexadecimal digits. *)
Theorem id_slice_in_bounds `{Schema} `{!Codec} (build : config.Build)
    (flags : Flags) (env : Env) (st st1 : State) (kbom : KBOM) :
  runGenerate_kbom build flags env st = (Done kbom, st1) ->
  String.length (KBOM_ID kbom) = 36%nat /\
  gostring.slice_to (KBOM_ID kbom) 8 = Some (uuid.hexfield (env_uuid env) 96 8) /\
  (forall (other : KBOM) (st2 : State),
      (String.length (KBOM_ID other) < 8)%nat ->
      gostring.slice_to (KBOM_ID other) 8 = None /\
      (output flags = FileOutput ->
       getWriter flags env other st2 = (Panic, st2) /\
       printKBOM flags env other st2 = (Panic, st2)) /\
      (output flags <> FileOutput ->
       fst (getWriter flags env other st2) <> Panic)).
Proof.
  intros Hrun.
  destruct (kbom_inv build flags env st st1 kbom Hrun) as (c & _ & _ & _ & _ & Hid & _).
  split; [rewrite Hid; apply length_uuid_String|].
  split; [rewrite Hid; apply slice_uuid_String|].
  intros other st2 Hshort. split.
  { unfold gostring.slice_to.
    destruct (Nat.leb_spec 8 (String.length (KBOM_ID other))); [lia | done]. }
  split.
  - intros Ho.
    pose proof (getWriter_file_short_id flags env other st2 Ho Hshort) as Hw.
    split; [exact Hw | by apply printKBOM_no_sink_panic].
  - intros Hnf.
    destruct (String.eqb_spec (output flags) StdOutput) as [Ho|Ho].
    + by rewrite (getWriter_stdout flags env other st2 Ho).
    + by rewrite (getWriter_unsupported flags env other st2 Ho Hnf).
Qed.

Lemma id_slice_in_bounds_witness :
  gostring.slice_to (KBOM_ID (sample.document false)) 8 = Some "123e4567" /\
  @printKBOM sample.schema sample.codec (sample.flags false FileOutput JSONFormat)
    sample.env (with_ID "123e456" (sample.document false)) sample.st0
  = (Panic, sample.st0).
Proof.
  destruct (@id_slice_in_bounds sample.schema sample.codec sample.build
              (sample.flags false FileOutput JSONFormat) sample.env sample.st0
              (extend assembly_events sample.st0) (sample.document false) eq_refl)
    as (_ & Hslice & Hshort).
  split; [exact Hslice|].
  destruct (Hshort (with_ID "123e456" (sample.document false)) sample.st0)
    as (_ & Hfile & _); [simpl; lia|].
  by destruct (Hfile eq_refl).
Defined.

(** ** The document on disk *)

(** X21.  In file mode with the format [json], when the cluster answers
    all five calls and the disk neither refuses the file nor runs out of
    room, the run creates the file at the path built from the document,
    writes the JSON text of that document, with an empty prefix and an
    indentation of two spaces, to it in one [Write], closes it and returns
    without error: afterwards the file holds exactly that text, whatever a
    file of that name held before, every other file is as it was, and
    standard output has received nothing and is still open.  When the
    encoder fails instead, its error comes back and the file is left
    empty. *)
Theorem file_run_writes_document `{Schema} `{!Codec} (build : config.Build)
    (flags : Flags) (env : Env) (c : kube.Client) (st : State) :
  output flags = FileOutput ->
  format flags = JSONFormat ->
  env_NewClient env = Ok c ->
  first_failure c (negb (short flags)) = None ->
  (forall name : string, env_create_err env name = None) ->
  (forall name : string, env_write_fault env (Disk name) = None) ->
  exists (kbom : KBOM) (r : outcome unit) (st' : State),
    fst (runGenerate_kbom build flags env st) = Done kbom /\
    runGenerate build flags env st = (r, st') /\
    st_stdout st' = st_stdout st /\
    st_stdout_closed st' = st_stdout_closed st /\
    (forall name : string,
        name <> target flags kbom -> st_files st' !! name = st_files st !! name) /\
    match json_Marshal "" "  " kbom with
    | Ok bytes =>
        r = Done tt /\
        st_files st' = <[target flags kbom := bytes]> (st_files st) /\
        events_since st st'
        = (assembly_events
           ++ [EvCreate (target flags kbom); EvWrite (Disk (target flags kbom)) bytes;
               EvClose (Disk (target flags kbom))])%list
    | Err e =>
        r = Fail e /\
        st_files st' = <[target flags kbom := ""]> (st_files st) /\
        events_since st st'
        = (assembly_events
           ++ [EvCreate (target flags kbom); EvClose (Disk (target flags kbom))])%list
    end.
Proof.
  intros Ho Hj Hc Hf Hcreate Hfault.
  destruct (kbom_done build flags env c st Hc Hf) as (kbom & Hk & _ & Hid & _).
  assert (8 <= String.length (KBOM_ID kbom))%nat as Hlen
    by (rewrite Hid, length_uuid_String; lia).
  pose proof (getWriter_file flags env kbom (extend assembly_events st) Ho Hlen) as Hw.
  rewrite Hcreate in Hw.
  exists kbom.
  rewrite (runGenerate_assembled _ _ _ _ _ _ Hk), Hk.
  rewrite (printKBOM_supported flags env kbom _ _ _ Hw (or_introl Hj)).
  unfold marshal. rewrite Hj. simpl String.eqb. cbv iota.
  destruct (json_Marshal "" "  " kbom) as [bytes|e].
  - rewrite (File_Write_sound env (Disk (target flags kbom)) bytes _ I (Hfault _)).
    do 2 eexists. split; [reflexivity|]. split; [reflexivity|].
    split; [reflexivity|]. split; [reflexivity|]. split.
    { intros name Hne. simpl. by rewrite !lookup_insert_ne. }
    split; [reflexivity|]. split.
    + simpl. rewrite lookup_insert_eq. simpl. apply insert_insert_eq.
    + apply events_since_app. simpl. by rewrite <- !app_assoc.
  - do 2 eexists. split; [reflexivity|]. split; [reflexivity|].
    split; [reflexivity|]. split; [reflexivity|]. split.
    { intros name Hne. simpl. by rewrite lookup_insert_ne. }
    split; [reflexivity|]. split; [reflexivity|].
    apply events_since_app. simpl. by rewrite <- !app_assoc.
Qed.

Lemma file_run_writes_document_witness :
  exists st' : State,
    sample.run (sample.flags true FileOutput JSONFormat) sample.env = (Done tt, st') /\
    st_files st'
    = {[ "out/kbom-abcdef12-2024-01-02-03-04-05.json" :=
           sample.render ("{" +:+ sample.nl) ("}" +:+ sample.nl) ": " "" "  "
             (sample.document true) ]} /\
    st_stdout st' = "" /\
    st_stdout_closed st' = false.
Proof.
  destruct (@file_run_writes_document sample.schema sample.codec sample.build
              (sample.flags true FileOutput JSONFormat) sample.env sample.client
              sample.st0 eq_refl eq_refl eq_refl eq_refl
              (fun _ => eq_refl) (fun _ => eq_refl))
    as (kbom & r & st' & Hk & Hrun & Hout & Hclosed & _ & Hfile).
  injection Hk as <-. simpl in Hfile. destruct Hfile as (-> & Hfiles & _).
  exists st'. split; [exact Hrun|]. split; [exact Hfiles|].
  split; [exact Hout | exact Hclosed].
Defined.

(** ** Which documents share a file *)

Lemma target_base_name `{Schema} (flags : Flags) (kbom : KBOM) :
  target flags kbom = gopath.Join [outPath flags; base_name flags kbom].
Proof. reflexivity. Qed.

(** X16.  The name [getWriter] gives the file of a document tells three
    things apart and nothing else: for ids of eight bytes or more and time
    stamps that are readings of the clock, two documents get the same
    name if and only if they have the same fingerprint, were stamped in
    the same second and are written with the same format selector.  The
    id enters the name only through the fingerprint: two documents of a
    cluster whose CA digest is longer than eight bytes, stamped in the
    same second and written in the same format to the same out-path, go
    to one and the same file, whatever their ids. *)
Theorem file_names_collide_iff `{Schema} (fl1 fl2 : Flags) (k1 k2 : KBOM) :
  (8 <= String.length (KBOM_ID k1))%nat ->
  (8 <= String.length (KBOM_ID k2))%nat ->
  gotime.civil (KBOM_GeneratedAt k1) ->
  gotime.civil (KBOM_GeneratedAt k2) ->
  (base_name fl1 k1 = base_name fl2 k2 <->
   spec.fingerprint8 (Cluster_CACertDigest (KBOM_Cluster k1)) (KBOM_ID k1)
   = spec.fingerprint8 (Cluster_CACertDigest (KBOM_Cluster k2)) (KBOM_ID k2) /\
   KBOM_GeneratedAt k1 = KBOM_GeneratedAt k2 /\
   format fl1 = format fl2) /\
  ((8 < String.length (Cluster_CACertDigest (KBOM_Cluster k1)))%nat ->
   Cluster_CACertDigest (KBOM_Cluster k1) = Cluster_CACertDigest (KBOM_Cluster k2) ->
   KBOM_GeneratedAt k1 = KBOM_GeneratedAt k2 ->
   format fl1 = format fl2 ->
   outPath fl1 = outPath fl2 ->
   target fl1 k1 = target fl2 k2).
Proof.
  intros Hid1 Hid2 Hcivil1 Hcivil2. split.
  - unfold base_name, Sprintf_kbom.
    rewrite (Format_is_timestamp _ Hcivil1), (Format_is_timestamp _ Hcivil2).
    split.
    + intros Heq.
      apply append_inv_length in Heq as [_ Heq]; [|reflexivity].
      apply append_inv_length in Heq as [Hfp Heq];
        [|by rewrite !length_fingerprint8].
      apply append_inv_length in Heq as [_ Heq]; [|reflexivity].
      apply append_inv_length in Heq as [Hts Heq]; [|reflexivity].
      apply append_inv_length in Heq as [_ Hfmt]; [|reflexivity].
      split; [exact Hfp|]. split; [by apply timestamp_inj | exact Hfmt].
    + intros (-> & -> & ->). reflexivity.
  - intros Hlong Hdigest Hat Hfmt Hpath.
    rewrite !target_base_name, Hpath. do 2 f_equal.
    unfold base_name, spec.fingerprint8.
    rewrite <- Hdigest, <- Hat, <- Hfmt.
    by destruct (Nat.ltb_spec 8 (String.length (Cluster_CACertDigest (KBOM_Cluster k1))));
      [|lia].
Qed.

Lemma file_names_collide_iff_witness :
  KBOM_ID (sample.document false) <> KBOM_ID (with_ID "9b2f0c1e-7d6a" (sample.document false)) /\
  target (sample.flags false FileOutput JSONFormat) (sample.document false)
  = target (sample.flags true FileOutput JSONFormat)
      (with_ID "9b2f0c1e-7d6a" (sample.document false)).
Proof.
  split; [discriminate|].
  destruct (@file_names_collide_iff sample.schema
              (sample.flags false FileOutput JSONFormat)
              (sample.flags true FileOutput JSONFormat)
              (sample.document false)
              (with_ID "9b2f0c1e-7d6a" (sample.document false)))
    as [_ Hsame]; try (simpl; lia); try (unfold gotime.civil; simpl; lia).
  apply Hsame; try reflexivity. simpl; lia.
Defined.

(** * The helpers of the test-run list *)

Section ListUtilsFacts.
Import listutils.
Context {Id : Type} `{EqDecision Id}.

Local Abbreviation ITag := (@ITag Id).
Local Abbreviation ISpecRun := (@ISpecRun Id).
Local Abbreviation ISuiteRun := (@ISuiteRun Id).
Local Abbreviation ITestRun := (@ITestRun Id).
Local Abbreviation has_status := (@has_status Id).

Lemma filter_length_le {A : Type} (p q : A -> bool) (l : list A) :
  (forall x, p x = true -> q x = true) ->
  (length (List.filter p l) <= length (List.filter q l))%nat.
Proof.
  intros Hpq. induction l as [|x l IH]; simpl; [lia|].
  destruct (p x) eqn:Hp.
  - rewrite (Hpq x Hp). simpl. lia.
  - destruct (q x); simpl; lia.
Qed.

(** Runs with three different statuses are counted apart: the counts add
    up to the number of runs with one of the three. *)
Lemma count_three (a b c : string) (l : list ISpecRun) :
  a <> b -> a <> c -> b <> c ->
  (length (List.filter (has_status a) l) + length (List.filter (has_status b) l)
   + length (List.filter (has_status c) l)
   = length (List.filter
               (fun r => has_status a r || has_status b r || has_status c r) l))%nat.
Proof.
  intros Hab Hac Hbc. unfold has_status.
  induction l as [|x l IH]; simpl; [done|].
  destruct (String.eqb_spec (ISpecRun_status x) a) as [Ha|Ha];
    destruct (String.eqb_spec (ISpecRun_status x) b) as [Hb|Hb];
    destruct (String.eqb_spec (ISpecRun_status x) c) as [Hc|Hc];
    simpl; try congruence; lia.
Qed.

Lemma filter_length_all {A : Type} (p : A -> bool) (l : list A) :
  length (List.filter p l) = length l <-> Forall (fun x => p x = true) l.
Proof.
  induction l as [|x l IH]; simpl; [by split|].
  pose proof (List.filter_length_le p l) as Hle.
  destruct (p x) eqn:Hp; simpl.
  - split.
    + intros Hlen. constructor; [done|]. apply IH. lia.
    + intros Hall. apply Forall_cons in Hall as [_ Hall]. apply IH in Hall. lia.
  - split; [lia|]. intros Hall. apply Forall_cons in Hall as [Hx _]. congruence.
Qed.

Lemma filter_flat_map {A B : Type} (p : B -> bool) (g : A -> list B) (l : list A) :
  List.filter p (flat_map g l) = flat_map (fun x => List.filter p (g x)) l.
Proof.
  induction l as [|x l IH]; simpl; [done|]. by rewrite List.filter_app, IH.
Qed.

(** X1.  [testRunsStatus] gives a map with the three keys [passed],
    [failed] and [skipped], in this order, and no other key.  The three
    counts add up to at most the number of spec runs of the test run, and
    to exactly that number if and only if every spec run has one of the
    three statuses: a run with any other status is counted nowhere. *)
Theorem testRunsStatus_counts (testRun : ITestRun) :
  exists p f s : nat,
    testRunsStatus testRun = [("passed", p); ("failed", f); ("skipped", s)] /\
    jsmap.keys (testRunsStatus testRun) = ["passed"; "failed"; "skipped"] /\
    (forall k, k <> "passed" -> k <> "failed" -> k <> "skipped" ->
       jsmap.get k (testRunsStatus testRun) = None) /\
    (p + f + s <= length (all_runs testRun))%nat /\
    ((p + f + s)%nat = length (all_runs testRun) <->
     Forall (fun r => ISpecRun_status r = "passed" \/ ISpecRun_status r = "failed"
                      \/ ISpecRun_status r = "skipped") (all_runs testRun)).
Proof.
  unfold testRunsStatus.
  change (flat_map _ (ITestRun_suite_runs testRun)) with (all_runs testRun).
  change (fun specRun : ISpecRun => String.eqb (ISpecRun_status specRun) "passed")
    with (has_status "passed").
  change (fun specRun : ISpecRun => String.eqb (ISpecRun_status specRun) "failed")
    with (has_status "failed").
  change (fun specRun : ISpecRun => String.eqb (ISpecRun_status specRun) "skipped")
    with (has_status "skipped").
  do 3 eexists. split; [reflexivity|]. split; [reflexivity|].
  split.
  { intros k Hp Hf Hs.
    change (jsmap.set _ _ _) with
      [("passed", length (List.filter (has_status "passed") (all_runs testRun)));
       ("failed", length (List.filter (has_status "failed") (all_runs testRun)));
       ("skipped", length (List.filter (has_status "skipped") (all_runs testRun)))].
    cbn [jsmap.get].
    apply not_eq_sym in Hp, Hf, Hs. apply String.eqb_neq in Hp, Hf, Hs.
    by rewrite Hp, Hf, Hs. }
  rewrite (count_three "passed" "failed" "skipped") by done.
  split; [apply List.filter_length_le|].
  rewrite filter_length_all. apply Forall_iff. intros r. unfold has_status.
  rewrite !orb_true_iff, !String.eqb_eq. tauto.
Qed.

(** X2.  [calculateSpecRuns] gives the text [p/t], where [p] is the
    [passed] count of [testRunsStatus] and [t] is the number of spec runs
    less the [skipped] count.  [p] never exceeds [t]; and a test run all of
    whose spec runs are skipped, or that has none, gives [0/0]. *)
Theorem calculateSpecRuns_ratio (testRun : ITestRun) :
  exists p t s : nat,
    calculateSpecRuns testRun = Number_toString p +:+ "/" +:+ Number_toString t /\
    jsmap.get "passed" (testRunsStatus testRun) = Some p /\
    jsmap.get "skipped" (testRunsStatus testRun) = Some s /\
    (t + s)%nat = length (all_runs testRun) /\
    (p <= t)%nat /\
    (Forall (fun r => ISpecRun_status r = "skipped") (all_runs testRun) ->
     calculateSpecRuns testRun = "0/0").
Proof.
  unfold calculateSpecRuns, testRunsStatus.
  change (flat_map _ (ITestRun_suite_runs testRun)) with (all_runs testRun).
  change (fun specRun : ISpecRun => String.eqb (ISpecRun_status specRun) "passed")
    with (has_status "passed").
  change (fun specRun : ISpecRun => negb (String.eqb (ISpecRun_status specRun) "skipped"))
    with (fun r : ISpecRun => negb (has_status "skipped" r)).
  change (fun specRun : ISpecRun => String.eqb (ISpecRun_status specRun) "skipped")
    with (has_status "skipped").
  do 3 eexists. split; [reflexivity|]. split; [reflexivity|]. split; [reflexivity|].
  assert (forall l : list ISpecRun,
            (length (List.filter (fun r => negb (has_status "skipped" r)) l)
             + length (List.filter (has_status "skipped") l) = length l)%nat) as Hsplit.
  { induction l as [|x l IH]; simpl; [done|].
    destruct (has_status "skipped" x); simpl; lia. }
  split; [apply Hsplit|].
  split.
  { apply filter_length_le. intros r. unfold has_status.
    intros Hp%String.eqb_eq. rewrite Hp. reflexivity. }
  intros Hall.
  assert (List.filter (fun r => negb (has_status "skipped" r)) (all_runs testRun) = []
          /\ List.filter (has_status "passed") (all_runs testRun) = []) as [-> ->];
    [|reflexivity].
  induction Hall as [|x l Hx Hall [IH1 IH2]]; [done|].
  simpl. unfold listutils.has_status in *. rewrite Hx. simpl. by split.
Qed.

Lemma uniqueTags_flat (specRuns : list ISpecRun) :
  uniqueTags specRuns = fold_left keep_new (flat_tags specRuns) [].
Proof.
  unfold uniqueTags, flat_tags.
  cut (forall acc : list ITag,
         fold_left (fun tags specRun => fold_left keep_new (ISpecRun_tags specRun) tags)
           specRuns acc
         = fold_left keep_new (flat_map (fun specRun => ISpecRun_tags specRun) specRuns) acc).
  { intros Hacc. exact (Hacc []). }
  induction specRuns as [|r rs IH]; intros acc; simpl; [done|].
  by rewrite fold_left_app, IH.
Qed.

Lemma existsb_id (tags : list ITag) (i : Id) :
  existsb (fun t => bool_decide (ITag_id t = i)) tags = true <-> i ∈ map ITag_id tags.
Proof.
  rewrite existsb_exists, list_elem_of_In, in_map_iff.
  split; intros (t & H1 & H2); exists t.
  - apply bool_decide_eq_true in H2. done.
  - split; [tauto|]. apply bool_decide_eq_true. tauto.
Qed.

Lemma first_with_None (i : Id) (tags : list ITag) :
  first_with i tags = None <-> i ∉ map ITag_id tags.
Proof.
  unfold first_with. rewrite <- existsb_id.
  induction tags as [|t tags IH]; simpl; [done|].
  destruct (bool_decide (ITag_id t = i)); simpl; [done | exact IH].
Qed.

Lemma first_with_app (i : Id) (l1 l2 : list ITag) :
  first_with i (l1 ++ l2)
  = match first_with i l1 with
    | Some t => Some t
    | None => first_with i l2
    end.
Proof.
  unfold first_with. induction l1 as [|t l1 IH]; simpl; [done|].
  by destruct (bool_decide (ITag_id t = i)).
Qed.

(** What the loop of [uniqueTags] keeps of the tags [l], starting from
    the tags [acc]: [acc] stays in front, ids stay distinct, the kept tags
    follow in the order of [l], and for every id the first tag with it
    wins. *)
Lemma keep_new_fold (l acc : list ITag) :
  NoDup (map ITag_id acc) ->
  exists kept : list ITag,
    fold_left keep_new l acc = (acc ++ kept)%list /\
    NoDup (map ITag_id (acc ++ kept)) /\
    kept `sublist_of` l /\
    forall i, first_with i (acc ++ kept) = first_with i (acc ++ l).
Proof.
  revert acc. induction l as [|tag l IH]; intros acc Hacc.
  - exists []. rewrite app_nil_r. by repeat split.
  - simpl. unfold keep_new at 2.
    destruct (existsb _ acc) eqn:Hex; simpl.
    + (* the id is there already: the tag is dropped *)
      destruct (IH acc Hacc) as (kept & Hfold & Hnd & Hsub & Hfirst).
      exists kept. split; [done|]. split; [done|].
      split; [by apply sublist_cons|].
      intros i. rewrite Hfirst, !first_with_app.
      destruct (first_with i acc) as [t|] eqn:Hfi; [done|].
      unfold first_with at 2. simpl.
      destruct (bool_decide (ITag_id tag = i)) eqn:Hd; [|done].
      apply bool_decide_eq_true in Hd. subst i.
      apply existsb_id in Hex. apply first_with_None in Hfi. done.
    + (* a new id: the tag is added last *)
      assert (ITag_id tag ∉ map ITag_id acc) as Hnew.
      { intros Hin%existsb_id. congruence. }
      assert (NoDup (map ITag_id (acc ++ [tag]))) as Hacc'.
      { rewrite map_app. simpl. apply NoDup_app. split; [done|].
        split; [|apply NoDup_singleton].
        intros i Hi ->%list_elem_of_singleton. done. }
      destruct (IH (acc ++ [tag])%list Hacc') as (kept & Hfold & Hnd & Hsub & Hfirst).
      exists (tag :: kept). rewrite <- app_assoc in Hfold, Hnd, Hfirst.
      split; [done|]. split; [done|].
      split; [by apply sublist_skip|].
      intros i. rewrite Hfirst. by rewrite <- app_assoc.
Qed.

(** X3.  The tags [uniqueTags] returns carry pairwise different ids, and
    they come in the order in which they stand in the spec runs. *)
Theorem uniqueTags_distinct_ids (specRuns : list ISpecRun) :
  NoDup (map ITag_id (uniqueTags specRuns)) /\
  uniqueTags specRuns `sublist_of` flat_tags specRuns.
Proof.
  rewrite uniqueTags_flat.
  destruct (keep_new_fold (flat_tags specRuns) [] (NoDup_nil_2))
    as (kept & -> & Hnd & Hsub & _).
  done.
Qed.

(** X4.  For every id, [uniqueTags] keeps the first tag of the spec runs
    that carries it, and only that one: an id is among the result exactly
    when it is among the tags of the spec runs, and a later tag with the
    same id but another name is dropped. *)
Theorem uniqueTags_first_wins (specRuns : list ISpecRun) (i : Id) :
  List.find (fun t => bool_decide (ITag_id t = i)) (uniqueTags specRuns)
  = List.find (fun t => bool_decide (ITag_id t = i)) (flat_tags specRuns)
  /\
  (i ∈ map ITag_id (uniqueTags specRuns)
   <-> i ∈ map ITag_id (flat_tags specRuns)).
Proof.
  rewrite uniqueTags_flat.
  destruct (keep_new_fold (flat_tags specRuns) [] (NoDup_nil_2))
    as (kept & -> & _ & _ & Hfirst).
  simpl in *. split; [apply Hfirst|].
  pose proof (first_with_None i kept) as H1.
  pose proof (first_with_None i (flat_tags specRuns)) as H2.
  rewrite (Hfirst i) in H1.
  destruct (decide (i ∈ map ITag_id kept)) as [Hin|Hin];
    destruct (decide (i ∈ map ITag_id (flat_tags specRuns))) as [Hin'|Hin'];
    try tauto.
Qed.

(** X5.  When the tags of the spec runs carry pairwise different ids,
    [uniqueTags] returns all of them as they stand; in particular
    [uniqueTags] changes nothing when it is run on its own result. *)
Theorem uniqueTags_fixed_point (specRuns : list ISpecRun) :
  (NoDup (map ITag_id (flat_tags specRuns)) ->
   uniqueTags specRuns = flat_tags specRuns) /\
  (forall status : string,
     uniqueTags [mkISpecRun status (uniqueTags specRuns)] = uniqueTags specRuns).
Proof.
  assert (forall l acc : list ITag,
            NoDup (map ITag_id (acc ++ l)) ->
            fold_left keep_new l acc = (acc ++ l)%list) as Hfix.
  { induction l as [|tag l IH]; intros acc Hnd; simpl.
    - by rewrite app_nil_r.
    - unfold keep_new at 2.
      destruct (existsb _ acc) eqn:Hex; simpl.
      + exfalso. apply existsb_id in Hex.
        rewrite map_app in Hnd. apply NoDup_app in Hnd as (_ & Hdisj & _).
        apply (Hdisj _ Hex). simpl. left.
      + rewrite IH; rewrite <- app_assoc; done. }
  split.
  - intros Hnd. rewrite uniqueTags_flat. by apply Hfix.
  - intros status. rewrite (uniqueTags_flat [_]). unfold flat_tags. simpl.
    rewrite app_nil_r. apply Hfix. simpl. rewrite uniqueTags_flat.
    destruct (keep_new_fold (flat_tags specRuns) [] (NoDup_nil_2))
      as (kept & -> & Hnd & _). exact Hnd.
Qed.

Lemma flat_map_imap {A B C : Type} (f : B -> list C) (g : nat -> A -> B)
    (h : A -> list C) (l : list A) :
  (forall i x, f (g i x) = h x) -> flat_map f (imap g l) = flat_map h l.
Proof.
  revert g. induction l as [|x l IH]; intros g Hfg; simpl; [done|].
  rewrite Hfg. f_equal. apply IH. intros i y. apply Hfg.
Qed.

(** The rows of the tables are the spec runs of the test run that are not
    skipped. *)
Lemma rows_not_skipped (testRun : ITestRun) :
  rows testRun
  = List.filter (fun r => negb (String.eqb (ISpecRun_status r) "skipped"))
      (all_runs testRun).
Proof.
  unfold rows, expandedRowRender, all_runs. rewrite filter_flat_map.
  by apply flat_map_imap.
Qed.

(** X6.  [expandedRowRender] builds one table for each suite run, in
    order, keyed by the index of the suite run and without pagination; the
    rows of a table are the spec runs of its suite run that are not
    skipped, in their order, and its Suite Name column shows the name of
    that suite run on every row.  The rows of all the tables are as many
    as the denominator of [calculateSpecRuns]. *)
Theorem expandedRowRender_rows (testRun : ITestRun) :
  length (expandedRowRender testRun) = length (ITestRun_suite_runs testRun) /\
  (forall (i : nat) (suiteRun : ISuiteRun),
      ITestRun_suite_runs testRun !! i = Some suiteRun ->
      expandedRowRender testRun !! i
      = Some {| TableEl_dataSource :=
                  List.filter (fun r => negb (String.eqb (ISpecRun_status r) "skipped"))
                    (ISuiteRun_spec_runs suiteRun);
                TableEl_pagination := false;
                TableEl_key := i;
                TableEl_suite_name := ISuiteRun_suite_name suiteRun |}) /\
  Forall (fun r => ISpecRun_status r <> "skipped")
    (rows testRun) /\
  exists p : nat,
    calculateSpecRuns testRun
    = Number_toString p +:+ "/" +:+
      Number_toString (length (rows testRun)).
Proof.
  pose proof (rows_not_skipped testRun) as Hrows.
  split; [apply length_imap|].
  split.
  { intros i suiteRun Hi. unfold expandedRowRender.
    rewrite list_lookup_imap, Hi. reflexivity. }
  split.
  { rewrite Hrows. apply Forall_forall. intros r [_ Hr]%list_elem_of_In%filter_In.
    apply negb_true_iff, String.eqb_neq in Hr. done. }
  rewrite Hrows. eexists. reflexivity.
Qed.

(** X7.  The Status column labels a row [Failed], in red, exactly when its
    status is [failed], and [Passed], in green, for every other status.
    So the rows labelled [Passed] are at least as many as the numerator
    of [calculateSpecRuns], and exactly as many if and only if every row
    has the status [passed] or [failed]. *)
Theorem renderStatus_labels (testRun : ITestRun) :
  (forall record : ISpecRun,
      (renderStatus record = {| TagEl_color := "red"; TagEl_text := "Failed" |}
       <-> ISpecRun_status record = "failed") /\
      (renderStatus record = {| TagEl_color := "green"; TagEl_text := "Passed" |}
       <-> ISpecRun_status record <> "failed")) /\
  exists p : nat,
    jsmap.get "passed" (testRunsStatus testRun) = Some p /\
    let rows := rows testRun in
    let labelled_passed :=
      length (List.filter
                (fun r => String.eqb (TagEl_text (renderStatus r)) "Passed") rows) in
    (p <= labelled_passed)%nat /\
    (p = labelled_passed <->
     Forall (fun r => ISpecRun_status r = "passed" \/ ISpecRun_status r = "failed") rows).
Proof.
  split.
  { intros record. unfold renderStatus.
    destruct (String.eqb_spec (ISpecRun_status record) "failed") as [Hf|Hf];
      split; split; try done; intros; congruence. }
  exists (length (List.filter (has_status "passed") (all_runs testRun))).
  split; [reflexivity|].
  cbv zeta. rewrite (rows_not_skipped testRun).
  generalize (all_runs testRun) as l.
  induction l as [|x l [IHle IHeq]]; [by split|].
  simpl. unfold listutils.has_status, renderStatus in *.
  destruct (String.eqb_spec (ISpecRun_status x) "passed") as [Hp|Hp];
    destruct (String.eqb_spec (ISpecRun_status x) "skipped") as [Hs|Hs];
    simpl;
    destruct (String.eqb_spec (ISpecRun_status x) "failed") as [Hf|Hf];
    try congruence; simpl.
  - split; [lia|]. rewrite Forall_cons. split.
    + intros Heq. split; [by left|]. apply IHeq. lia.
    + intros [_ Hall]. apply IHeq in Hall. lia.
  - by split.
  - split; [done|]. rewrite Forall_cons. split.
    + intros Heq. split; [by right|]. by apply IHeq.
    + intros [_ Hall]. by apply IHeq.
  - split; [lia|]. rewrite Forall_cons. split; [lia|]. intros [[?|?] _]; congruence.
Qed.

End ListUtilsFacts.

(** The helpers on a test run of two suites: five spec runs, one of them
    skipped and one with a status of its own; the tag with id 1 comes
    twice, under two names. *)
Example helpers_on_a_run :
  let smoke := listutils.mkITag 1%nat "smoke" in
  let slow := listutils.mkITag 2%nat "slow" in
  let smoke' := listutils.mkITag 1%nat "Smoke" in
  let suite1 :=
    [listutils.mkISpecRun "passed" [smoke; slow];
     listutils.mkISpecRun "failed" [smoke'];
     listutils.mkISpecRun "skipped" []] in
  let suite2 :=
    [listutils.mkISpecRun "passed" [slow; smoke'];
     listutils.mkISpecRun "pending" []] in
  let testRun :=
    listutils.mkITestRun
      [listutils.mkISuiteRun "login" suite1; listutils.mkISuiteRun "search" suite2] in
  listutils.testRunsStatus testRun = [("passed", 2%nat); ("failed", 1%nat); ("skipped", 1%nat)] /\
  listutils.calculateSpecRuns testRun = "2/4" /\
  listutils.uniqueTags (suite1 ++ suite2)%list = [smoke; slow] /\
  map listutils.TableEl_key (listutils.expandedRowRender testRun) = [0%nat; 1%nat] /\
  map listutils.TableEl_suite_name (listutils.expandedRowRender testRun) = ["login"; "search"] /\
  map (fun r => listutils.TagEl_text (listutils.renderStatus r)) (listutils.rows testRun)
  = ["Passed"; "Failed"; "Passed"; "Passed"].
Proof. vm_compute. repeat split. Qed.
